(** * digits/model/tasks/train.py: the epoch-metrics recorder of a training task

    A shallow embedding of [TrainTask] (Python 2) and the properties of its
    metric tables, progress updates, graph payloads and pickle upgrade. *)

From Stdlib Require Import ZArith QArith Qround Qabs Qpower String Ascii List Bool Lia Lqa.
From stdpp Require Import gmap strings list.
Import ListNotations.

Close Scope Q_scope.
Local Open Scope string_scope.
Local Open Scope list_scope.
Local Open Scope Z_scope.

(** ** Python values

    Numbers are Python 2 ints or floats.  A float is carried as the
    rational it denotes, and arithmetic on floats rounds as binary64 does
    ([round64] below).  The floats of the model are the finite ones: inf
    and nan, the overflow of an operation to inf and the OverflowError of
    converting an int beyond the float range are outside it, and the
    theorems on float arithmetic name the range they hold on. *)

Inductive num : Type :=
| PyInt (z : Z)
| PyFloat (q : Q).

(** A row of a series: a number, [None], or a list of rows. *)
#[warnings="-register-all"]
Inductive pyval : Type :=
| VNone
| VNum (n : num)
| VList (l : list pyval).

Definition num_to_Q (n : num) : Q :=
  match n with
  | PyInt z => inject_Z z
  | PyFloat q => q
  end.

(** [a == b] on numbers: ints and floats compare by value. *)
Definition num_eqb (a b : num) : bool := Qeq_bool (num_to_Q a) (num_to_Q b).

(** [a == b] on rows. *)
Fixpoint py_eqb (a b : pyval) : bool :=
  match a, b with
  | VNone, VNone => true
  | VNum x, VNum y => num_eqb x y
  | VList l, VList m =>
      (fix all2 (l m : list pyval) : bool :=
         match l, m with
         | [], [] => true
         | x :: l', y :: m' => py_eqb x y && all2 l' m'
         | _, _ => false
         end) l m
  | _, _ => false
  end.

(** [isinstance(v, list)] *)
Definition is_list (v : pyval) : bool :=
  match v with
  | VList _ => true
  | _ => false
  end.

(** ** Exceptions and outcomes *)

Inductive exn : Type :=
| OutOfOrderUpdate            (* Exception('Received a new output without being told the new epoch') *)
| IndexError
| KeyError (key : string)
| AttributeError (attr : string)
| TypeError
| ZeroDivisionError.

Inductive outcome (A : Type) : Type :=
| Return (a : A)
| Raise (e : exn).
Arguments Return {A} a.
Arguments Raise {A} e.

(** ** Series and tables *)

(** NOTE: Increment this everytime the picked object changes *)
Definition PICKLE_VERSION : Z := 2.

(** [NetworkOutput = namedtuple('NetworkOutput', ['kind', 'data'])].  The
    tuple is immutable; the list it holds in [data] is mutated in place. *)
Record NetworkOutput : Type := mkNetworkOutput {
  kind : string;
  data : list pyval
}.

(** An [OrderedDict] from metric name to series, in insertion order. *)
Definition table : Type := list (string * NetworkOutput).

(** [d[key]] *)
Fixpoint getitem (key : string) (d : table) : option NetworkOutput :=
  match d with
  | [] => None
  | (k, o) :: d' => if String.eqb key k then Some o else getitem key d'
  end.

(** [key in d] *)
Definition contains (key : string) (d : table) : bool :=
  match getitem key d with
  | Some _ => true
  | None => false
  end.

(** [d[key] = o]: an existing key keeps its place, a new one goes last. *)
Fixpoint setitem (key : string) (o : NetworkOutput) (d : table) : table :=
  match d with
  | [] => [(key, o)]
  | (k, o') :: d' =>
      if String.eqb key k then (k, o) :: d' else (k, o') :: setitem key o d'
  end.

(** The list held by [d[key].data] is replaced by [rows]: the effect of an
    in-place mutation of that list. *)
Fixpoint set_data (key : string) (rows : list pyval) (d : table) : table :=
  match d with
  | [] => []
  | (k, o) :: d' =>
      if String.eqb key k then (k, mkNetworkOutput (kind o) rows) :: d'
      else (k, o) :: set_data key rows d'
  end.

(** The keys in iteration order. *)
Definition keys (d : table) : list string := map fst d.

(** [len(d[key].data)], when the key is there. *)
Definition series_len (key : string) (d : table) : option Z :=
  match getitem key d with
  | Some o => Some (Z.of_nat (length (data o)))
  | None => None
  end.

(** [key in names], for a literal list of names. *)
Definition name_in (key : string) (names : list string) : bool :=
  existsb (String.eqb key) names.

(** ** save_output *)

(** Lines 194-198: open a row for the current epoch. *)
Definition update_epoch (current_epoch : num) (d : table) : outcome table :=
  match getitem "epoch" d with
  | None =>
      Return (setitem "epoch" (mkNetworkOutput "Epoch" [VNum current_epoch]) d)
  | Some e =>
      match last (data e) with
      | None => Raise IndexError
      | Some row =>
          if negb (py_eqb row (VNum current_epoch))
          then Return (set_data "epoch" (data e ++ [VNum current_epoch]) d)
          else Return d
      end
  end.

(** Lines 200-201: create the series on first use. *)
Definition ensure_series (name kind : string) (d : table) : table :=
  if contains name d then d else setitem name (mkNetworkOutput kind []) d.

(** The table as it stands when the two lengths are compared (line 206). *)
Definition comparison_point (current_epoch : num) (d : table)
    (name kind : string) : outcome table :=
  match update_epoch current_epoch d with
  | Raise e => Raise e
  | Return d1 => Return (ensure_series name kind d1)
  end.

(** Lines 221-225: every series but 'epoch' and 'learning_rate' has
    [epoch_len] rows.  [scan] is the loop over the keys still to visit. *)
Fixpoint scan (epoch_len : Z) (d : table) (ks : list string) : outcome bool :=
  match ks with
  | [] => Return true
  | key :: ks' =>
      if negb (name_in key ["epoch"; "learning_rate"]) then
        match series_len key d with
        | None => Raise (KeyError key)
        | Some n => if negb (n =? epoch_len) then Return false else scan epoch_len d ks'
        end
      else scan epoch_len d ks'
  end.

Definition row_complete (epoch_len : Z) (d : table) : outcome bool :=
  scan epoch_len d (keys d).

(** Lines 202-225.  The last branch is the augmented assignment
    [d[name].data += rows] on a namedtuple: [list.__iadd__] extends the list
    in place, and the store of the result into the read-only field [data]
    then raises [AttributeError: can't set attribute]. *)
Definition store_value (d : table) (name : string) (value : pyval)
    : outcome bool * table :=
  match series_len "epoch" d, getitem name d with
  | None, _ => (Raise (KeyError "epoch"), d)
  | _, None => (Raise (KeyError name), d)
  | Some epoch_len, Some o =>
      let name_len := Z.of_nat (length (data o)) in
      if name_len >? epoch_len then
        (Raise OutOfOrderUpdate, d)
      else if name_len =? epoch_len then
        match last (data o) with
        | None => (Raise IndexError, d)
        | Some row =>
            let merged :=
              match row with
              | VList l => VList (l ++ [value])
              | _ => VList [row; value]
              end in
            let d' := set_data name (removelast (data o) ++ [merged]) d in
            (row_complete epoch_len d', d')
        end
      else if name_len =? epoch_len - 1 then
        let d' := set_data name (data o ++ [value]) d in
        (row_complete epoch_len d', d')
      else
        let rows := repeat VNone (Z.to_nat (epoch_len - name_len - 1)) ++ [value] in
        (Raise (AttributeError "data"), set_data name (data o ++ rows) d)
  end.

(** [save_output(self, d, name, kind, value)], lines 179-225; [self] is
    read for [current_epoch] only, and [name] and [kind] are byte strings
    already (lines 191-192).  The result carries the table as the call
    leaves it, also when the call raises. *)
Definition save_output (current_epoch : num) (d : table)
    (name kind : string) (value : pyval) : outcome bool * table :=
  match comparison_point current_epoch d name kind with
  | Raise e => (Raise e, d)
  | Return d1 => store_value d1 name value
  end.

(** ** Graph payloads *)

(** [xs[::step]] for [step >= 1]: the elements at indices 0, step, 2*step, ... *)
Fixpoint slice_from {A : Type} (skip step : nat) (xs : list A) : list A :=
  match xs with
  | [] => []
  | x :: xs' =>
      match skip with
      | O => x :: slice_from (step - 1) step xs'
      | S skip' => slice_from skip' step xs'
      end
  end.

Definition slice_step {A : Type} (step : nat) (xs : list A) : list A :=
  slice_from 0 step xs.

(** [max(len(rows)/100, 1)], with Python 2's integer division. *)
Definition stride_of (rows : list pyval) : nat :=
  Nat.max (length rows / 100) 1.

(** [s.lower()] on a byte string. *)
Definition lower_ascii (c : ascii) : ascii :=
  let n := nat_of_ascii c in
  if ((65 <=? n) && (n <=? 90))%nat then ascii_of_nat (n + 32) else c.

Fixpoint lower (s : string) : string :=
  match s with
  | EmptyString => EmptyString
  | String c s' => String (lower_ascii c) (lower s')
  end.

(** [needle in hay] on strings. *)
Fixpoint substring_in (needle hay : string) : bool :=
  if String.prefix needle hay then true
  else match hay with
       | EmptyString => false
       | String _ hay' => substring_in needle hay'
       end.

(** A C3.js column [[col_id] + points]. *)
Record column : Type := mkColumn {
  col_id : string;
  points : list pyval
}.

(** The dict a formatter returns; [axes] is [None] where the dict has no
    such key. *)
Record graph : Type := mkGraph {
  columns : list column;
  xs : gmap string string;
  axes : option (gmap string string);
  names : gmap string string
}.

(** One side (train or val) of a formatter: the guarded loop over a table
    and the x-axis column that follows it (lines 344-356 and 358-370 of
    [loss_graph_data], and their like in [accuracy_graph_data] and
    [combined_graph_data]).  [tag] is "train" or "val", [skipped] the names
    passed over, [wanted] the test on the series and [y2] the test that
    sends a column to the secondary axis.  [add_series] is one turn of the
    loop. *)
Definition add_series (tag : string) (stride : nat) (skipped : list string)
    (wanted y2 : NetworkOutput -> bool)
    (acc : graph * bool) (item : string * NetworkOutput) : graph * bool :=
  let '(g, added_column) := acc in
  let '(name, output) := item in
  if negb (name_in name skipped) && wanted output then
    let id := name +:+ "-" +:+ tag in
    (mkGraph (columns g ++ [mkColumn id (slice_step stride (data output))])
             (<[id := tag +:+ "_epochs"]> (xs g))
             (if y2 output then (fun m => <[id := "y2"]> m) <$> axes g else axes g)
             (<[id := name +:+ " (" +:+ tag +:+ ")"]> (names g)),
     true)
  else acc.

Definition graph_side (tag : string) (skipped : list string)
    (wanted y2 : NetworkOutput -> bool) (d : table) (g : graph) : graph :=
  match d, getitem "epoch" d with
  | _ :: _, Some e =>
      let stride := stride_of (data e) in
      let '(g', added_column) :=
        fold_left (add_series tag stride skipped wanted y2) d (g, false) in
      if added_column
      then mkGraph (columns g' ++ [mkColumn (tag +:+ "_epochs") (slice_step stride (data e))])
                   (xs g') (axes g') (names g')
      else g'
  | _, _ => g
  end.

(** [None] when no column was produced. *)
Definition nonempty_graph (g : graph) : option graph :=
  match columns g with
  | [] => None
  | _ :: _ => Some g
  end.

(** The tests of the three loops: ['loss' in output.kind.lower()],
    ['accuracy' in output.kind.lower()], [output.kind == 'Accuracy'], and no
    test at all. *)
Definition loss_kind (o : NetworkOutput) : bool := substring_in "loss" (lower (kind o)).
Definition accuracy_kind (o : NetworkOutput) : bool := substring_in "accuracy" (lower (kind o)).
Definition is_Accuracy (o : NetworkOutput) : bool := String.eqb (kind o) "Accuracy".
Definition every_kind (o : NetworkOutput) : bool := true.
Definition no_kind (o : NetworkOutput) : bool := false.

(** Lines 312-332. *)
Definition lr_graph_data (train_outputs : table) : option graph :=
  match getitem "epoch" train_outputs, getitem "learning_rate" train_outputs with
  | Some e, Some lr =>
      let stride := stride_of (data e) in
      Some (mkGraph [mkColumn "epoch" (slice_step stride (data e));
                     mkColumn "lr" (slice_step stride (data lr))]
                    {["lr" := "epoch"]} None {["lr" := "Learning Rate"]})
  | _, _ => None
  end.

(** Lines 334-375. *)
Definition loss_graph_data (train_outputs val_outputs : table) : option graph :=
  nonempty_graph
    (graph_side "val" ["epoch"] loss_kind no_kind val_outputs
       (graph_side "train" ["epoch"; "learning_rate"] loss_kind no_kind train_outputs
          (mkGraph [] ∅ None ∅))).

(** Lines 377-418. *)
Definition accuracy_graph_data (train_outputs val_outputs : table) : option graph :=
  nonempty_graph
    (graph_side "val" ["epoch"] is_Accuracy no_kind val_outputs
       (graph_side "train" ["epoch"; "learning_rate"] is_Accuracy no_kind train_outputs
          (mkGraph [] ∅ None ∅))).

(** Lines 420-464; the only formatter whose dict has an 'axes' key. *)
Definition combined_graph_data (train_outputs val_outputs : table) : option graph :=
  nonempty_graph
    (graph_side "val" ["epoch"] every_kind accuracy_kind val_outputs
       (graph_side "train" ["epoch"; "learning_rate"] every_kind accuracy_kind train_outputs
          (mkGraph [] ∅ (Some ∅) ∅))).

(** ** Python 2 arithmetic used by the progress update *)

(** *** binary64

    The finite floats are the numbers [m * 2^e] with [|m| < 2^53] and
    [-1074 <= e <= 971]. *)
Definition binary64 (q : Q) : Prop :=
  exists m e : Z, Z.abs m < 2 ^ 53 /\ -1074 <= e <= 971 /\ (q == inject_Z m * 2 ^ e)%Q.

(** The integer nearest to [x], a half going to the even neighbour. *)
Definition round_half_even (x : Q) : Z :=
  let f := Qfloor x in
  match (x - inject_Z f ?= 1 # 2)%Q with
  | Lt => f
  | Gt => f + 1
  | Eq => if Z.even f then f else f + 1
  end.

(** [floor(log2 q)] for [q > 0]: the difference of the bit lengths of
    numerator and denominator, or one less. *)
Definition ilog2 (q : Q) : Z :=
  let e := Z.log2 (Qnum q) - Z.log2 (Zpos (Qden q)) in
  if Qle_bool (2 ^ e) q then e else e - 1.

(** The spacing of the floats around [q]: 53 significant bits, and
    [2^-1074] throughout the subnormal range. *)
Definition ulp (q : Q) : Q := (2 ^ Z.max (ilog2 (Qabs q) - 52) (-1074))%Q.

(** The result of a binary64 operation whose exact result is [q]: [q]
    rounded to the nearest multiple of its [ulp], ties to even (the default
    rounding mode, which CPython never changes). *)
Definition round64 (q : Q) : Q :=
  if Qeq_bool q 0 then 0%Q
  else (inject_Z (round_half_even (q / ulp q)) * ulp q)%Q.

(** The operand of a float operation: a float as it is, an int converted
    ([PyInt_AS_LONG] cast to double, [PyLong_AsDouble]). *)
Definition to_float (n : num) : Q :=
  match n with
  | PyInt z => round64 (inject_Z z)
  | PyFloat q => q
  end.

(** [a / b]: floor division on two ints ([int_div]), binary64 division
    otherwise ([float_div]). *)
Definition py_div (a b : num) : outcome num :=
  match a, b with
  | PyInt x, PyInt y =>
      if y =? 0 then Raise ZeroDivisionError else Return (PyInt (x / y))
  | _, _ =>
      if Qeq_bool (to_float b) 0 then Raise ZeroDivisionError
      else Return (PyFloat (round64 (to_float a / to_float b)))
  end.

(** [a * b] *)
Definition py_mul (a b : num) : num :=
  match a, b with
  | PyInt x, PyInt y => PyInt (x * y)
  | _, _ => PyFloat (round64 (to_float a * to_float b))
  end.

(** [int(round(x))]: [round] takes its argument as a float and goes to the
    nearest integer, halves away from zero. *)
Definition int_round (x : num) : Z :=
  let q := to_float x in
  if Qle_bool 0 q then Qfloor (q + (1 # 2))%Q else Qceiling (q - (1 # 2))%Q.

(** ** The task *)

(** [last_train_update] once assigned: [None] or a [time.time()] reading. *)
Inductive timestamp : Type :=
| NoTime
| At (seconds : Q).

(** What the base class constructor [Task.__init__] provides. *)
Record Task : Type := mkTask {
  job_id : string;
  html_id : string;
  progress : num
}.

Record TrainTask : Type := mkTrainTask {
  base : Task;
  batch_size : option Z;
  val_interval : option num;
  pretrained_model : option string;
  crop_size : option Z;
  use_mean : option bool;
  pickver_task_train : Z;
  dataset : option string;
  train_epochs : num;
  snapshot_interval : num;
  learning_rate : num;
  lr_policy : list (string * string);
  current_epoch : num;
  snapshots : list (string * num);
  train_outputs : table;
  val_outputs : table;
  (** [None]: the attribute has never been assigned on the object. *)
  last_train_update : option timestamp
}.

(** The keyword arguments [__init__] pops; an absent one defaults to [None]. *)
Record kwargs : Type := mkKwargs {
  kw_batch_size : option Z;
  kw_val_interval : option num;
  kw_pretrained_model : option string;
  kw_crop_size : option Z;
  kw_use_mean : option bool;
  kw_task : Task
}.

(** Lines 21-57.  Nothing here assigns [last_train_update]. *)
Definition __init__ (dataset : string) (train_epochs snapshot_interval learning_rate : num)
    (lr_policy : list (string * string)) (kw : kwargs) : TrainTask :=
  mkTrainTask (kw_task kw)
    (kw_batch_size kw) (kw_val_interval kw) (kw_pretrained_model kw)
    (kw_crop_size kw) (kw_use_mean kw)
    PICKLE_VERSION
    (Some dataset) train_epochs snapshot_interval learning_rate lr_policy
    (PyInt 0) [] [] [] None.

Definition with_train_outputs (d : table) (t : TrainTask) : TrainTask :=
  mkTrainTask (base t) (batch_size t) (val_interval t) (pretrained_model t)
    (crop_size t) (use_mean t) (pickver_task_train t) (dataset t)
    (train_epochs t) (snapshot_interval t) (learning_rate t) (lr_policy t)
    (current_epoch t) (snapshots t) d (val_outputs t) (last_train_update t).

Definition with_val_outputs (d : table) (t : TrainTask) : TrainTask :=
  mkTrainTask (base t) (batch_size t) (val_interval t) (pretrained_model t)
    (crop_size t) (use_mean t) (pickver_task_train t) (dataset t)
    (train_epochs t) (snapshot_interval t) (learning_rate t) (lr_policy t)
    (current_epoch t) (snapshots t) (train_outputs t) d (last_train_update t).

Definition with_last_train_update (ts : timestamp) (t : TrainTask) : TrainTask :=
  mkTrainTask (base t) (batch_size t) (val_interval t) (pretrained_model t)
    (crop_size t) (use_mean t) (pickver_task_train t) (dataset t)
    (train_epochs t) (snapshot_interval t) (learning_rate t) (lr_policy t)
    (current_epoch t) (snapshots t) (train_outputs t) (val_outputs t) (Some ts).

Definition with_current_epoch (epoch : num) (t : TrainTask) : TrainTask :=
  mkTrainTask (base t) (batch_size t) (val_interval t) (pretrained_model t)
    (crop_size t) (use_mean t) (pickver_task_train t) (dataset t)
    (train_epochs t) (snapshot_interval t) (learning_rate t) (lr_policy t)
    epoch (snapshots t) (train_outputs t) (val_outputs t) (last_train_update t).

Definition with_progress (p : num) (t : TrainTask) : TrainTask :=
  mkTrainTask (mkTask (job_id (base t)) (html_id (base t)) p)
    (batch_size t) (val_interval t) (pretrained_model t)
    (crop_size t) (use_mean t) (pickver_task_train t) (dataset t)
    (train_epochs t) (snapshot_interval t) (learning_rate t) (lr_policy t)
    (current_epoch t) (snapshots t) (train_outputs t) (val_outputs t) (last_train_update t).

(** ** Messages to the notification channel *)

Inductive update : Type :=
| progress_update (percentage : Z) (eta : string)
| combined_graph (payload : graph)
| lr_graph (payload : graph).

(** [socketio.emit('task update', {'task': .., 'update': .., ..},
    namespace='/jobs', room=self.job_id)] *)
Record emission : Type := mkEmission {
  em_task : string;
  em_update : update;
  em_room : string
}.

Definition emit (t : TrainTask) (u : update) : emission :=
  mkEmission (html_id (base t)) u (job_id (base t)).

(** What a method leaves behind: its outcome, the task, the messages sent. *)
Definition effect (A : Type) : Type := outcome A * TrainTask * list emission.

(** [send_progress_update(self, epoch)], lines 96-117.  [eta] is the text
    that [print_time_diff(self.est_done())] produces, which is not this
    module's. *)
Definition send_progress_update (eta : string) (t : TrainTask) (epoch : num)
    : effect unit :=
  if num_eqb (current_epoch t) epoch then (Return tt, t, [])
  else
    let t1 := with_current_epoch epoch t in
    match py_div epoch (train_epochs t1) with
    | Raise e => (Raise e, t1, [])
    | Return p =>
        let t2 := with_progress p t1 in
        (Return tt, t2,
         [emit t2 (progress_update (int_round (py_mul (PyInt 100) (progress (base t2)))) eta)])
    end.

(** The messages of lines 132-156 (and 166-177): a payload is sent when the
    formatter returns one. *)
Definition graph_message (t : TrainTask) (mk : graph -> update)
    (payload : option graph) : list emission :=
  match payload with
  | Some g => [emit t (mk g)]
  | None => []
  end.

(** [save_train_output(self, *args)], lines 119-156.  [now] and [now'] are
    the readings of the two [time.time()] calls on lines 128 and 130. *)
Definition save_train_output (now now' : Q) (t : TrainTask)
    (name kind : string) (value : pyval) : effect unit :=
  let '(r, d) := save_output (current_epoch t) (train_outputs t) name kind value in
  let t1 := with_train_outputs d t in
  match r with
  | Raise e => (Raise e, t1, [])
  | Return false => (Return tt, t1, [])
  | Return true =>
      match last_train_update t1 with
      | None => (Raise (AttributeError "last_train_update"), t1, [])
      | Some ts =>
          let recent :=
            match ts with
            | NoTime => false
            | At s => negb (Qeq_bool s 0) && negb (Qle_bool 5 (now - s)%Q)
            end in
          if recent then (Return tt, t1, [])
          else
            let t2 := with_last_train_update (At now') t1 in
            (Return tt, t2,
             graph_message t2 combined_graph
               (combined_graph_data (train_outputs t2) (val_outputs t2))
             ++ graph_message t2 lr_graph (lr_graph_data (train_outputs t2)))
      end
  end.

(** [save_val_output(self, *args)], lines 158-177. *)
Definition save_val_output (t : TrainTask)
    (name kind : string) (value : pyval) : effect unit :=
  let '(r, d) := save_output (current_epoch t) (val_outputs t) name kind value in
  let t1 := with_val_outputs d t in
  match r with
  | Raise e => (Raise e, t1, [])
  | Return false => (Return tt, t1, [])
  | Return true =>
      (Return tt, t1,
       graph_message t1 combined_graph
         (combined_graph_data (train_outputs t1) (val_outputs t1)))
  end.

(** ** Pickled state *)

(** A version-1 update list: [None], or a list of [(epoch, value)] pairs. *)
Inductive updates : Type :=
| UNone
| UList (pairs : list (pyval * pyval)).

(** The state dict handed to [__setstate__]: the keys the method touches,
    each [None] when the dict has no such key, and the attributes it passes
    through untouched. *)
Record State : Type := mkState {
  st_pickver_task_train : Z;
  st_train_loss_updates : option updates;
  st_val_loss_updates : option updates;
  st_val_accuracy_updates : option updates;
  st_lr_updates : option updates;
  st_train_outputs : option table;
  st_val_outputs : option table;
  st_current_epoch : num;
  st_train_epochs : num;
  st_last_train_update : option timestamp;
  st_task : Task
}.

(** [state.pop(key, None)]: the value read (the key is gone afterwards). *)
Definition pop (entry : option updates) : updates :=
  match entry with
  | Some u => u
  | None => UNone
  end.

(** Truth value of an update list in [if tl:]. *)
Definition truthy (u : updates) : bool :=
  match u with
  | UList (_ :: _) => true
  | _ => false
  end.

(** [[u[0] for u in us]] and [[u[1] for u in us]]; iterating [None] is a
    [TypeError]. *)
Definition firsts (us : updates) : outcome (list pyval) :=
  match us with
  | UNone => Raise TypeError
  | UList pairs => Return (map fst pairs)
  end.

Definition seconds (us : updates) : outcome (list pyval) :=
  match us with
  | UNone => Raise TypeError
  | UList pairs => Return (map snd pairs)
  end.

(** A series built from a comprehension, stored under [key]. *)
Definition store_series (key kind : string) (rows : outcome (list pyval))
    (d : outcome table) : outcome table :=
  match d with
  | Raise e => Raise e
  | Return d' =>
      match rows with
      | Raise e => Raise e
      | Return rows' => Return (setitem key (mkNetworkOutput kind rows') d')
      end
  end.

(** Lines 70-88: bring a state dict to version 2. *)
Definition upgrade (state : State) : outcome State :=
  if st_pickver_task_train state <? 2 then
    let tl := pop (st_train_loss_updates state) in
    let vl := pop (st_val_loss_updates state) in
    let va := pop (st_val_accuracy_updates state) in
    let lr := pop (st_lr_updates state) in
    let train :=
      if truthy tl then
        store_series "learning_rate" "LearningRate" (seconds lr)
          (store_series "loss" "SoftmaxWithLoss" (seconds tl)
             (store_series "epoch" "Epoch" (firsts tl) (Return [])))
      else Return [] in
    let val :=
      if truthy vl then
        let val2 :=
          store_series "loss" "SoftmaxWithLoss" (seconds vl)
            (store_series "epoch" "Epoch" (firsts vl) (Return [])) in
        if truthy va
        then store_series "accuracy" "Accuracy" (seconds va) val2
        else val2
      else Return [] in
    match train, val with
    | Raise e, _ => Raise e
    | _, Raise e => Raise e
    | Return train_outputs, Return val_outputs =>
        Return (mkState PICKLE_VERSION None None None None
                  (Some train_outputs) (Some val_outputs)
                  (st_current_epoch state) (st_train_epochs state)
                  (st_last_train_update state) (st_task state))
    end
  else
    Return (mkState PICKLE_VERSION
              (st_train_loss_updates state) (st_val_loss_updates state)
              (st_val_accuracy_updates state) (st_lr_updates state)
              (st_train_outputs state) (st_val_outputs state)
              (st_current_epoch state) (st_train_epochs state)
              (st_last_train_update state) (st_task state)).

(** The object after [__setstate__]: the attributes the base class installs
    from the upgraded state, an empty snapshot list ([detect_snapshots]
    finds none) and no dataset. *)
Record Loaded : Type := mkLoaded {
  attributes : State;
  loaded_snapshots : list (string * num);
  loaded_dataset : option string
}.

(** Lines 69-94. *)
Definition __setstate__ (state : State) : outcome Loaded :=
  match upgrade state with
  | Raise e => Raise e
  | Return state' => Return (mkLoaded state' [] None)
  end.

(** ** Runs of calls and the alignment of a table *)

(** One report of the training backend: the epoch it belongs to and the
    arguments of [save_output]. *)
Record report : Type := mkReport {
  at_epoch : num;
  metric : string;
  metric_kind : string;
  reading : pyval
}.

(** [save_output] for each report in turn on the same table, whatever each
    call's outcome; the outcomes are listed in call order. *)
Fixpoint save_outputs (d : table) (reports : list report)
    : list (outcome bool) * table :=
  match reports with
  | [] => ([], d)
  | r :: reports' =>
      let '(res, d1) := save_output (at_epoch r) d (metric r) (metric_kind r) (reading r) in
      let '(ress, d2) := save_outputs d1 reports' in
      (res :: ress, d2)
  end.

(** Every series but 'epoch' and 'learning_rate' satisfies [R] between its
    length and the length of the 'epoch' series. *)
Definition tracked (R : Z -> Z -> Prop) (d : table) : Prop :=
  forall key o epoch_len,
    series_len "epoch" d = Some epoch_len ->
    getitem key d = Some o ->
    name_in key ["epoch"; "learning_rate"] = false ->
    R (Z.of_nat (length (data o))) epoch_len.

(** The shape every table built by this module has: it is empty, or it has
    an 'epoch' series with at least one row and no series longer than it. *)
Definition well_formed (d : table) : Prop :=
  match getitem "epoch" d with
  | Some e =>
      data e <> [] /\
      forall key o, getitem key d = Some o -> (length (data o) <= length (data e))%nat
  | None => d = []
  end.

(** The parts of what a method leaves behind. *)
Definition outcome_of {A : Type} (x : effect A) : outcome A := fst (fst x).
Definition task_of {A : Type} (x : effect A) : TrainTask := snd (fst x).
Definition sent {A : Type} (x : effect A) : list emission := snd x.


(** ** What a formatter is expected to plot

    The columns of one side, stated over the table as a whole: the series
    that are plotted, one column for each, and the x-axis column that
    follows when there is at least one. *)

Definition plotted (skipped : list string) (wanted : NetworkOutput -> bool)
    (d : table) : table :=
  match getitem "epoch" d with
  | Some _ =>
      List.filter (fun item => negb (name_in (fst item) skipped) && wanted (snd item)) d
  | None => []
  end.

Definition epoch_rows (d : table) : list pyval :=
  match getitem "epoch" d with
  | Some e => data e
  | None => []
  end.

Definition series_column (tag : string) (d : table) (item : string * NetworkOutput) : column :=
  mkColumn (fst item +:+ "-" +:+ tag)
           (slice_step (Nat.max (length (epoch_rows d) / 100) 1) (data (snd item))).

Definition side_columns (tag : string) (skipped : list string)
    (wanted : NetworkOutput -> bool) (d : table) : list column :=
  match plotted skipped wanted d with
  | [] => []
  | items =>
      map (series_column tag d) items
      ++ [mkColumn (tag +:+ "_epochs")
                   (slice_step (Nat.max (length (epoch_rows d) / 100) 1) (epoch_rows d))]
  end.

(** The four graph formatters and the columns each one emits. *)
Inductive formatter : Type :=
| lr_graph_formatter
| loss_graph_formatter
| accuracy_graph_formatter
| combined_graph_formatter.

Definition payload (f : formatter) (train_outputs val_outputs : table) : option graph :=
  match f with
  | lr_graph_formatter => lr_graph_data train_outputs
  | loss_graph_formatter => loss_graph_data train_outputs val_outputs
  | accuracy_graph_formatter => accuracy_graph_data train_outputs val_outputs
  | combined_graph_formatter => combined_graph_data train_outputs val_outputs
  end.

Definition emitted (f : formatter) (train_outputs val_outputs : table) : list column :=
  match payload f train_outputs val_outputs with
  | Some g => columns g
  | None => []
  end.

(** What a column is cut from: its id, the rows of the series, and the
    number of rows of the 'epoch' series of the table the series is in. *)
Record source : Type := mkSource {
  src_id : string;
  src_rows : list pyval;
  src_epochs : nat
}.

(** The series one side plots, in column order: the plotted series of the
    table, then its 'epoch' series for the x axis. *)
Definition side_sources (tag : string) (skipped : list string)
    (wanted : NetworkOutput -> bool) (d : table) : list source :=
  match plotted skipped wanted d with
  | [] => []
  | items =>
      map (fun item => mkSource (fst item +:+ "-" +:+ tag) (data (snd item))
                                (length (epoch_rows d))) items
      ++ [mkSource (tag +:+ "_epochs") (epoch_rows d) (length (epoch_rows d))]
  end.

(** The learning-rate graph plots 'epoch' and 'learning_rate' of
    [train_outputs], when both are there. *)
Definition lr_sources (d : table) : list source :=
  match getitem "epoch" d, getitem "learning_rate" d with
  | Some e, Some lr =>
      [mkSource "epoch" (data e) (length (data e));
       mkSource "lr" (data lr) (length (data e))]
  | _, _ => []
  end.

Definition sources (f : formatter) (train_outputs val_outputs : table) : list source :=
  match f with
  | lr_graph_formatter => lr_sources train_outputs
  | loss_graph_formatter =>
      side_sources "train" ["epoch"; "learning_rate"] loss_kind train_outputs ++
      side_sources "val" ["epoch"] loss_kind val_outputs
  | accuracy_graph_formatter =>
      side_sources "train" ["epoch"; "learning_rate"] is_Accuracy train_outputs ++
      side_sources "val" ["epoch"] is_Accuracy val_outputs
  | combined_graph_formatter =>
      side_sources "train" ["epoch"; "learning_rate"] every_kind train_outputs ++
      side_sources "val" ["epoch"] every_kind val_outputs
  end.

(** Down-sampling in the words of the specification: the stride is
    [max(floor(epoch_series_length / 100), 1)], and a column takes every
    stride-th row of its series, from the first on. *)
Definition stride_for (s : source) : nat := Nat.max (src_epochs s / 100) 1.

Definition down_sampled (c : column) (s : source) : Prop :=
  col_id c = src_id s /\
  forall j : nat, points c !! j = src_rows s !! (j * stride_for s)%nat.

(** Whether a call returned. *)
Definition returned {A : Type} (r : outcome A) : bool :=
  match r with
  | Return _ => true
  | Raise _ => false
  end.

(** ** Definitions for the further properties *)

(** The rows of an 'epoch' series that starts as [rows], after reports for
    the epochs [epochs] in turn: an epoch opens a row unless it equals the
    last row. *)
Fixpoint opened_rows (rows : list pyval) (epochs : list num) : list pyval :=
  match epochs with
  | [] => rows
  | epoch :: epochs' =>
      match last rows with
      | Some row =>
          if py_eqb row (VNum epoch) then opened_rows rows epochs'
          else opened_rows (rows ++ [VNum epoch]) epochs'
      | None => opened_rows (rows ++ [VNum epoch]) epochs'
      end
  end.

(** No row equals ([==]) the row after it. *)
Fixpoint distinct_neighbours (rows : list pyval) : Prop :=
  match rows with
  | a :: (b :: _) as rest => py_eqb a b = false /\ distinct_neighbours rest
  | _ => True
  end.

(** The pairs of an update list; [None] has none. *)
Definition pairs_of (us : updates) : list (pyval * pyval) :=
  match us with
  | UList pairs => pairs
  | UNone => []
  end.

(** ** Labels *)

(** [c.isspace()] for a byte: tab, line feed, vertical tab, form feed,
    carriage return and space. *)
Definition is_space (c : ascii) : bool :=
  let n := nat_of_ascii c in
  ((9 <=? n) && (n <=? 13) || (n =? 32))%nat.

Fixpoint lstrip (s : string) : string :=
  match s with
  | EmptyString => EmptyString
  | String c s' => if is_space c then lstrip s' else s
  end.

Fixpoint rstrip (s : string) : string :=
  match s with
  | EmptyString => EmptyString
  | String c s' =>
      match rstrip s' with
      | EmptyString => if is_space c then EmptyString else String c EmptyString
      | rest => String c rest
      end
  end.

(** [s.strip()] *)
Definition strip (s : string) : string := rstrip (lstrip s).

(** The dataset of a task, as [get_labels] uses it: the attribute
    [labels_file] ([None] when the object has no such attribute,
    [Some None] when it is [None]) and the method [path]. *)
Record DatasetJob : Type := mkDatasetJob {
  labels_file : option (option string);
  path : string -> string
}.

(** What is at a path of the file system. *)
Inductive path_state : Type :=
| Absent
| Unreadable
| File (lines : list string).

Inductive labels_error : Type :=
| AssertionError (message : string)
| IOError.

(** Lines 300-305: the labels of the lines read. *)
Fixpoint read_labels (lines : list string) : list string :=
  match lines with
  | [] => []
  | line :: lines' =>
      let label := strip line in
      match label with
      | EmptyString => read_labels lines'
      | _ => label :: read_labels lines'
      end
  end.

(** [get_labels(self)], lines 288-310.  [dataset] is [self.dataset]
    ([None] when it is [None]), [cached] is [self._labels] ([None] when the
    attribute is missing or [None]) and [fs] the file system.  The result
    comes with [self._labels] as the call leaves it. *)
Definition get_labels (fs : string -> path_state) (dataset : option DatasetJob)
    (cached : option (list string)) : (list string + labels_error) * option (list string) :=
  match cached with
  | Some (label :: labels) => (inl (label :: labels), cached)
  | _ =>
      match dataset with
      | None => (inr (AssertionError "labels_file not set"), cached)
      | Some ds =>
          match labels_file ds with
          | None | Some None | Some (Some EmptyString) =>
              (inr (AssertionError "labels_file not set"), cached)
          | Some (Some file) =>
              match fs (path ds file) with
              | Absent => (inr (AssertionError "labels_file does not exist"), cached)
              | Unreadable => (inr IOError, cached)
              | File lines =>
                  match read_labels lines with
                  | [] => (inr (AssertionError "no labels in labels_file"), cached)
                  | labels => (inl labels, Some labels)
                  end
              end
          end
      end
  end.

(** ** Pickling *)

(** [__getstate__(self)], lines 59-67, on the dict that the base class's
    [__getstate__] returns. *)
Definition __getstate__ {V : Type} (state : gmap string V) : gmap string V :=
  let state1 := if decide (is_Some (state !! "dataset")) then delete "dataset" state else state in
  let state2 := if decide (is_Some (state1 !! "snapshots")) then delete "snapshots" state1 else state1 in
  if decide (is_Some (state2 !! "_labels")) then delete "_labels" state2 else state2.

Fixpoint all_space (s : string) : bool :=
  match s with
  | EmptyString => true
  | String c s' => is_space c && all_space s'
  end.

Definition first_char (s : string) : option ascii :=
  match s with
  | EmptyString => None
  | String c _ => Some c
  end.

Fixpoint last_char (s : string) : option ascii :=
  match s with
  | EmptyString => None
  | String c EmptyString => Some c
  | String _ s' => last_char s'
  end.

(** A label as the file should give it: the line without the white space
    around it. *)
Definition label_of (line label : string) : Prop :=
  (exists before after,
     line = before +:+ label +:+ after /\
     all_space before = true /\ all_space after = true) /\
  label <> EmptyString /\
  (forall c, first_char label = Some c -> is_space c = false) /\
  (forall c, last_char label = Some c -> is_space c = false).

(** * Properties *)

(** ** Tables *)

Section table_facts.
Implicit Types (d : table) (o : NetworkOutput) (key k : string).

Lemma getitem_setitem_eq key o d : getitem key (setitem key o d) = Some o.
Proof.
  induction d as [|[k o'] d IH]; simpl.
  - by rewrite String.eqb_refl.
  - destruct (String.eqb key k) eqn:E; simpl; rewrite E; auto.
Qed.

Lemma getitem_setitem_ne key k o d :
  key <> k -> getitem k (setitem key o d) = getitem k d.
Proof.
  intros Hne. induction d as [|[k' o'] d IH]; simpl.
  - apply String.eqb_neq in Hne. rewrite String.eqb_sym in Hne. by rewrite Hne.
  - destruct (String.eqb key k') eqn:E; simpl.
    + apply String.eqb_eq in E. subst k'.
      assert (String.eqb k key = false) as -> by (apply String.eqb_neq; congruence).
      reflexivity.
    + destruct (String.eqb k k'); auto.
Qed.

Lemma getitem_set_data_eq key rows d o :
  getitem key d = Some o ->
  getitem key (set_data key rows d) = Some (mkNetworkOutput (kind o) rows).
Proof.
  induction d as [|[k o'] d IH]; simpl; [discriminate|].
  destruct (String.eqb key k) eqn:E; simpl; rewrite E; auto.
  intros [= ->]. reflexivity.
Qed.

Lemma getitem_set_data_ne key k rows d :
  key <> k -> getitem k (set_data key rows d) = getitem k d.
Proof.
  intros Hne. induction d as [|[k' o'] d IH]; simpl; [reflexivity|].
  destruct (String.eqb key k') eqn:E; simpl.
  - apply String.eqb_eq in E. subst k'.
    assert (String.eqb k key = false) as -> by (apply String.eqb_neq; congruence).
    reflexivity.
  - destruct (String.eqb k k'); auto.
Qed.

Lemma keys_set_data key rows d : keys (set_data key rows d) = keys d.
Proof.
  unfold keys. induction d as [|[k o'] d IH]; simpl; [reflexivity|].
  destruct (String.eqb key k); simpl; congruence.
Qed.

Lemma getitem_keys key d : In key (keys d) -> exists o, getitem key d = Some o.
Proof.
  unfold keys. induction d as [|[k o'] d IH]; simpl; [tauto|].
  intros [->|Hin].
  - rewrite String.eqb_refl. eauto.
  - destruct (String.eqb key k); eauto.
Qed.

Lemma keys_getitem key d o : getitem key d = Some o -> In key (keys d).
Proof.
  unfold keys. induction d as [|[k o'] d IH]; simpl; [discriminate|].
  destruct (String.eqb key k) eqn:E; auto.
  apply String.eqb_eq in E. auto.
Qed.

Lemma contains_true key d : contains key d = true <-> exists o, getitem key d = Some o.
Proof.
  unfold contains. destruct (getitem key d); split; eauto; try discriminate.
  intros [? ?]; discriminate.
Qed.
End table_facts.

(** ** The completeness scan *)

Lemma scan_spec (epoch_len : Z) (d : table) (ks : list string) :
  (forall key, In key ks -> In key (keys d)) ->
  exists b, scan epoch_len d ks = Return b /\
    (b = true <->
     forall key o, In key ks -> getitem key d = Some o ->
       name_in key ["epoch"; "learning_rate"] = false ->
       Z.of_nat (length (data o)) = epoch_len).
Proof.
  induction ks as [|key ks IH]; intros Hsub.
  - exists true. split; [reflexivity|]. split; [|reflexivity].
    intros _ key o [].
  - destruct IH as (b & Hb & Hiff); [intros k Hk; apply Hsub; by right|].
    cbn [scan]. destruct (name_in key ["epoch"; "learning_rate"]) eqn:Hskip; cbn [negb].
    + exists b. split; [exact Hb|]. rewrite Hiff. split.
      * intros H k o [<-|Hin] Hget Hk; [congruence|eauto].
      * intros H k o Hin. apply H. by right.
    + destruct (getitem_keys key d) as [o Ho]; [apply Hsub; by left|].
      unfold series_len. rewrite Ho.
      destruct (Z.of_nat (length (data o)) =? epoch_len) eqn:Hlen; cbn [negb].
      * apply Z.eqb_eq in Hlen. exists b. split; [exact Hb|]. rewrite Hiff. split.
        -- intros H k o' [<-|Hin] Hget Hk; [congruence|eauto].
        -- intros H k o' Hin. apply H. by right.
      * apply Z.eqb_neq in Hlen. exists false. split; [reflexivity|]. split; [discriminate|].
        intros H. exfalso. apply Hlen. apply (H key o); auto. by left.
Qed.

Lemma row_complete_spec (epoch_len : Z) (d : table) :
  exists b, row_complete epoch_len d = Return b /\
    (b = true <->
     forall key o, getitem key d = Some o ->
       name_in key ["epoch"; "learning_rate"] = false ->
       Z.of_nat (length (data o)) = epoch_len).
Proof.
  destruct (scan_spec epoch_len d (keys d)) as (b & Hb & Hiff); [auto|].
  exists b. split; [exact Hb|]. rewrite Hiff. split.
  - intros H key o Hget. apply H; eauto using keys_getitem.
  - intros H key o _. apply H.
Qed.

(** ** The table at the comparison point *)

Lemma getitem_set_data (key k : string) (rows : list pyval) (d : table) (o : NetworkOutput) :
  getitem key d = Some o ->
  getitem k (set_data key rows d) =
    if String.eqb k key then Some (mkNetworkOutput (kind o) rows) else getitem k d.
Proof.
  intros Hget. destruct (String.eqb_spec k key) as [->|Hne].
  - by apply getitem_set_data_eq.
  - apply getitem_set_data_ne. congruence.
Qed.

Lemma length_removelast_snoc {A : Type} (l : list A) (x : A) :
  l <> [] -> length (removelast l ++ [x]) = length l.
Proof.
  intros Hne. destruct (exists_last Hne) as (l' & y & ->).
  rewrite removelast_last. by rewrite !length_app.
Qed.

Lemma last_Some_nonempty {A : Type} (l : list A) (x : A) : last l = Some x -> l <> [].
Proof. by destruct l. Qed.

Lemma last_nonempty {A : Type} (l : list A) : l <> [] -> exists x, last l = Some x.
Proof.
  intros Hne. destruct (exists_last Hne) as (l' & y & ->).
  exists y. apply last_snoc.
Qed.

Lemma set_data_well_formed (name : string) (rows : list pyval) (d : table)
    (e o : NetworkOutput) :
  well_formed d ->
  getitem "epoch" d = Some e ->
  getitem name d = Some o ->
  (length rows <= length (data e))%nat ->
  (name = "epoch" -> length rows = length (data e)) ->
  well_formed (set_data name rows d).
Proof.
  unfold well_formed. intros Hwf He Ho Hle Heq. rewrite He in Hwf.
  destruct Hwf as [Hne Hall].
  rewrite (getitem_set_data name "epoch" rows d o Ho).
  assert (0 < length (data e))%nat by (destruct (data e); [done|simpl; lia]).
  destruct (String.eqb_spec "epoch" name) as [<-|Hname].
  - specialize (Heq eq_refl). simpl. split.
    + destruct rows; [simpl in *; lia|done].
    + intros key o'. rewrite (getitem_set_data _ key rows d o Ho).
      destruct (String.eqb key "epoch"); [intros [= <-]; simpl; lia|].
      intros Hk. rewrite Heq. eauto.
  - rewrite He. split; [done|].
    intros key o'. rewrite (getitem_set_data name key rows d o Ho).
    destruct (String.eqb key name); [intros [= <-]; simpl; lia|eauto].
Qed.

Lemma update_epoch_well_formed (current_epoch : num) (d : table) :
  well_formed d ->
  exists d1 e, update_epoch current_epoch d = Return d1 /\ well_formed d1 /\
    getitem "epoch" d1 = Some e.
Proof.
  unfold well_formed, update_epoch. intros Hwf.
  destruct (getitem "epoch" d) as [e|] eqn:He.
  - destruct Hwf as [Hne Hall].
    destruct (last_nonempty _ Hne) as [row ->].
    destruct (negb (py_eqb row (VNum current_epoch))).
    + eexists _, _. split; [reflexivity|].
      rewrite (getitem_set_data_eq "epoch" _ d e He). split; [|reflexivity].
      simpl. split; [by destruct (data e)|].
      intros key o. rewrite (getitem_set_data _ key _ d e He).
      destruct (String.eqb key "epoch"); [intros [= <-]; simpl; lia|].
      intros Hk. rewrite length_app. specialize (Hall _ _ Hk). lia.
    + exists d, e. rewrite He. auto.
  - subst d. eexists _, _. split; [reflexivity|]. simpl. split; [|reflexivity].
    split; [done|]. intros key o. destruct (String.eqb key "epoch"); [|done].
    by intros [= <-].
Qed.

Lemma ensure_series_well_formed (name kind : string) (d : table) (e : NetworkOutput) :
  well_formed d -> getitem "epoch" d = Some e ->
  well_formed (ensure_series name kind d) /\
  getitem "epoch" (ensure_series name kind d) = Some e /\
  exists o, getitem name (ensure_series name kind d) = Some o.
Proof.
  unfold ensure_series, contains. intros Hwf He.
  destruct (getitem name d) as [o|] eqn:Ho; [eauto|].
  assert (name <> "epoch") as Hne by congruence.
  assert (Hepoch : getitem "epoch" (setitem name (mkNetworkOutput kind []) d) = Some e)
    by (rewrite getitem_setitem_ne; auto).
  split; [|split; [exact Hepoch|rewrite getitem_setitem_eq; eauto]].
  unfold well_formed in *. rewrite Hepoch. rewrite He in Hwf.
  destruct Hwf as [Hn Hall]. split; [done|]. intros key o.
  destruct (String.eqb_spec name key) as [<-|Hk].
  - rewrite getitem_setitem_eq. intros [= <-]. simpl. lia.
  - rewrite getitem_setitem_ne; eauto.
Qed.

Lemma comparison_point_well_formed (current_epoch : num) (d : table) (name kind : string) :
  well_formed d ->
  exists d1 e o, comparison_point current_epoch d name kind = Return d1 /\
    well_formed d1 /\ getitem "epoch" d1 = Some e /\ getitem name d1 = Some o.
Proof.
  intros Hwf. unfold comparison_point.
  destruct (update_epoch_well_formed current_epoch d Hwf) as (d1 & e & -> & Hwf1 & He).
  destruct (ensure_series_well_formed name kind d1 e Hwf1 He) as (Hwf2 & He2 & o & Ho).
  eauto 10.
Qed.

Lemma comparison_point_reached (current_epoch : num) (d d1 : table) (name kind : string) :
  comparison_point current_epoch d name kind = Return d1 ->
  exists e o, getitem "epoch" d1 = Some e /\ data e <> [] /\ getitem name d1 = Some o.
Proof.
  unfold comparison_point, update_epoch.
  assert (Hens : forall d0 e, getitem "epoch" d0 = Some e -> data e <> [] ->
            exists e' o, getitem "epoch" (ensure_series name kind d0) = Some e' /\
              data e' <> [] /\ getitem name (ensure_series name kind d0) = Some o).
  { intros d0 e He Hne. unfold ensure_series, contains.
    destruct (getitem name d0) as [o|] eqn:Ho; [eauto|].
    exists e, (mkNetworkOutput kind []).
    rewrite getitem_setitem_ne by congruence. rewrite getitem_setitem_eq. auto. }
  destruct (getitem "epoch" d) as [e|] eqn:He.
  - destruct (last (data e)) as [row|] eqn:Hlast; [|discriminate].
    apply last_Some_nonempty in Hlast.
    destruct (negb (py_eqb row (VNum current_epoch))); intros [= <-].
    + eapply Hens; [by apply getitem_set_data_eq|]. simpl. by destruct (data e).
    + eauto.
  - intros [= <-]. eapply Hens; [apply getitem_setitem_eq|done].
Qed.

(** The three branches of lines 208-219, on a table that has the 'epoch'
    series [e] and the series [o] of [name]. *)
Lemma store_value_merge (d : table) (name : string) (value : pyval) (e o : NetworkOutput) :
  getitem "epoch" d = Some e -> getitem name d = Some o -> data e <> [] ->
  length (data o) = length (data e) ->
  exists rows row,
    data o = rows ++ [row] /\
    store_value d name value =
      let merged := match row with
                    | VList l => VList (l ++ [value])
                    | _ => VList [row; value]
                    end in
      let d' := set_data name (rows ++ [merged]) d in
      (row_complete (Z.of_nat (length (data e))) d', d').
Proof.
  intros He Ho Hne Hlen.
  assert (Hno : data o <> []) by (destruct (data o), (data e); simpl in *; congruence).
  destruct (exists_last Hno) as (rows & row & Hrows).
  exists rows, row. split; [exact Hrows|].
  unfold store_value, series_len. rewrite He, Ho, Hlen.
  assert ((Z.of_nat (length (data e)) >? Z.of_nat (length (data e))) = false) as -> by lia.
  rewrite Z.eqb_refl, Hrows, last_snoc, removelast_last. reflexivity.
Qed.

Lemma store_value_append (d : table) (name : string) (value : pyval) (e o : NetworkOutput) :
  getitem "epoch" d = Some e -> getitem name d = Some o ->
  S (length (data o)) = length (data e) ->
  store_value d name value =
    let d' := set_data name (data o ++ [value]) d in
    (row_complete (Z.of_nat (length (data e))) d', d').
Proof.
  intros He Ho Hlen. unfold store_value, series_len. rewrite He, Ho.
  assert ((Z.of_nat (length (data o)) >? Z.of_nat (length (data e))) = false) as -> by lia.
  assert ((Z.of_nat (length (data o)) =? Z.of_nat (length (data e))) = false) as -> by lia.
  assert ((Z.of_nat (length (data o)) =? Z.of_nat (length (data e)) - 1) = true) as -> by lia.
  reflexivity.
Qed.

Lemma store_value_gap (d : table) (name : string) (value : pyval) (e o : NetworkOutput) :
  getitem "epoch" d = Some e -> getitem name d = Some o ->
  (S (length (data o)) < length (data e))%nat ->
  store_value d name value =
    (Raise (AttributeError "data"),
     set_data name
       (data o ++ repeat VNone (length (data e) - length (data o) - 1) ++ [value]) d).
Proof.
  intros He Ho Hlen. unfold store_value, series_len. rewrite He, Ho.
  assert ((Z.of_nat (length (data o)) >? Z.of_nat (length (data e))) = false) as -> by lia.
  assert ((Z.of_nat (length (data o)) =? Z.of_nat (length (data e))) = false) as -> by lia.
  assert ((Z.of_nat (length (data o)) =? Z.of_nat (length (data e)) - 1) = false) as -> by lia.
  replace (Z.to_nat (Z.of_nat (length (data e)) - Z.of_nat (length (data o)) - 1))
    with (length (data e) - length (data o) - 1)%nat by lia.
  reflexivity.
Qed.

Lemma store_value_out_of_order (d : table) (name : string) (value : pyval) (e o : NetworkOutput) :
  getitem "epoch" d = Some e -> getitem name d = Some o ->
  (length (data e) < length (data o))%nat ->
  store_value d name value = (Raise OutOfOrderUpdate, d).
Proof.
  intros He Ho Hlen. unfold store_value, series_len. rewrite He, Ho.
  assert ((Z.of_nat (length (data o)) >? Z.of_nat (length (data e))) = true) as -> by lia.
  reflexivity.
Qed.

(** ** Calls on well-formed tables *)

Lemma tracked_eq_row_complete (d : table) (e : NetworkOutput) (b : bool) :
  getitem "epoch" d = Some e ->
  row_complete (Z.of_nat (length (data e))) d = Return b ->
  (b = true <-> tracked eq d).
Proof.
  intros He Hb.
  destruct (row_complete_spec (Z.of_nat (length (data e))) d) as (b' & Hb' & Hiff).
  rewrite Hb in Hb'. injection Hb' as <-. rewrite Hiff.
  unfold tracked, series_len. rewrite He. split.
  - intros H key o n [= <-]. apply H.
  - intros H key o. by apply H.
Qed.

Lemma well_formed_tracked_le (d : table) : well_formed d -> tracked Z.le d.
Proof.
  unfold well_formed, tracked, series_len. intros Hwf key o n.
  destruct (getitem "epoch" d) as [e|]; [|discriminate].
  intros [= <-] Ho _. destruct Hwf as [_ Hall]. specialize (Hall _ _ Ho). lia.
Qed.

(** A call on a well-formed table leaves a well-formed table with an
    'epoch' series, and either returns the verdict of the scan or stops at
    the store of line 219. *)
Lemma save_output_well_formed (current_epoch : num) (d : table)
    (name kind : string) (value : pyval) :
  well_formed d ->
  let r := save_output current_epoch d name kind value in
  well_formed (snd r) /\
  contains "epoch" (snd r) = true /\
  ((exists b, fst r = Return b /\ (b = true <-> tracked eq (snd r))) \/
   fst r = Raise (AttributeError "data")).
Proof.
  intros Hwf.
  destruct (comparison_point_well_formed current_epoch d name kind Hwf)
    as (d1 & e & o & Hcp & Hwf1 & He & Ho).
  unfold save_output. rewrite Hcp. cbv zeta.
  assert (Hle : (length (data o) <= length (data e))%nat).
  { unfold well_formed in Hwf1. rewrite He in Hwf1. by apply Hwf1 in Ho. }
  assert (Hne : data e <> []).
  { unfold well_formed in Hwf1. rewrite He in Hwf1. apply Hwf1. }
  assert (Hreturn : forall rows,
            (length rows <= length (data e))%nat ->
            (name = "epoch" -> length rows = length (data e)) ->
            let d' := set_data name rows d1 in
            well_formed d' /\ contains "epoch" d' = true /\
            ((exists b, row_complete (Z.of_nat (length (data e))) d' = Return b /\
                        (b = true <-> tracked eq d')) \/
             row_complete (Z.of_nat (length (data e))) d' = Raise (AttributeError "data"))).
  { intros rows Hrows Hsame d'.
    assert (Hwf' : well_formed d') by (eapply set_data_well_formed; eauto).
    split; [exact Hwf'|].
    assert (exists e', getitem "epoch" d' = Some e' /\ length (data e') = length (data e))
      as (e' & He' & Hlen').
    { unfold d'. rewrite (getitem_set_data name "epoch" rows d1 o Ho).
      destruct (String.eqb_spec "epoch" name) as [<-|_]; [|eauto].
      eexists. split; [reflexivity|]. simpl. auto. }
    split; [apply contains_true; eauto|]. left.
    destruct (row_complete_spec (Z.of_nat (length (data e))) d') as (b & Hb & _).
    exists b. split; [exact Hb|].
    rewrite <- Hlen' in Hb. by apply (tracked_eq_row_complete d' e'). }
  destruct (Nat.eq_dec (length (data o)) (length (data e))) as [Heq|Hneq].
  - destruct (store_value_merge d1 name value e o He Ho Hne Heq) as (rows & row & Hrows & ->).
    cbn [fst snd]. apply Hreturn.
    + rewrite <- Heq, Hrows, !length_app. simpl. lia.
    + intros _. rewrite <- Heq, Hrows, !length_app. simpl. lia.
  - assert (name <> "epoch") by congruence.
    destruct (Nat.eq_dec (S (length (data o))) (length (data e))) as [Heq|Hgap].
    + rewrite (store_value_append d1 name value e o He Ho Heq). cbn [fst snd].
      apply Hreturn; [rewrite length_app; simpl; lia|done].
    + rewrite (store_value_gap d1 name value e o He Ho) by lia. simpl.
      split; [|split; [|by right]].
      * eapply set_data_well_formed; eauto; [|done].
        rewrite !length_app, repeat_length. simpl. lia.
      * apply contains_true. rewrite getitem_set_data_ne by done. eauto.
Qed.

Lemma well_formed_empty : well_formed [].
Proof. reflexivity. Qed.

(** Along any run that starts from a well-formed table, every call leaves a
    well-formed table, and so no tracked series longer than 'epoch'. *)
Lemma save_outputs_well_formed (reports : list report) (d : table) :
  well_formed d ->
  well_formed (snd (save_outputs d reports)) /\
  Forall (fun r => (exists b, r = Return b) \/ r = Raise (AttributeError "data"))
         (fst (save_outputs d reports)).
Proof.
  revert d. induction reports as [|r reports IH]; intros d Hwf; simpl.
  - auto.
  - pose proof (save_output_well_formed (at_epoch r) d (metric r) (metric_kind r)
                  (reading r) Hwf) as Hcall.
    destruct (save_output (at_epoch r) d (metric r) (metric_kind r) (reading r))
      as [res d1]. simpl in Hcall. destruct Hcall as (Hwf1 & _ & Hres).
    specialize (IH d1 Hwf1). destruct (save_outputs d1 reports) as [ress d2].
    simpl in *. destruct IH as [Hwf2 Hall]. split; [exact Hwf2|].
    constructor; [|exact Hall].
    destruct Hres as [(b & -> & _)| ->]; eauto.
Qed.

(** From the empty table of a new task, whatever the reports, no tracked
    series ever gets longer than the 'epoch' series. *)
Lemma save_outputs_tracked_le (reports : list report) :
  tracked Z.le (snd (save_outputs [] reports)).
Proof.
  apply well_formed_tracked_le.
  apply (save_outputs_well_formed reports []), well_formed_empty.
Qed.

(** ** Claims about save_output *)

(** C1.  The run "learning_rate at epoch 0, then loss at epoch 1" on a fresh
    table has non-decreasing epochs and ends with every tracked series as
    long as the 'epoch' series, yet its second call does not return true: it
    raises at the store of line 219. *)
Theorem C1_complete_row_not_reported :
  let reports :=
    [mkReport (PyInt 0) "learning_rate" "LearningRate" (VNum (PyFloat 0.01));
     mkReport (PyInt 1) "loss" "SoftmaxWithLoss" (VNum (PyFloat 0.9))] in
  fst (save_outputs [] reports) = [Return true; Raise (AttributeError "data")] /\
  snd (save_outputs [] reports) =
    [("epoch", mkNetworkOutput "Epoch" [VNum (PyInt 0); VNum (PyInt 1)]);
     ("learning_rate", mkNetworkOutput "LearningRate" [VNum (PyFloat 0.01)]);
     ("loss", mkNetworkOutput "SoftmaxWithLoss" [VNone; VNum (PyFloat 0.9)])] /\
  tracked eq (snd (save_outputs [] reports)).
Proof.
  cbv zeta. split; [reflexivity|]. split; [reflexivity|].
  eapply (tracked_eq_row_complete _ _ true); reflexivity.
Qed.

(** C2.  At the comparison point, a series with as many rows as 'epoch' has
    its last row replaced: a row that is not a list becomes the two-element
    list of the old and the new value, a row that is a list gets the new
    value appended; the call returns.  On a fresh task (whether or not the
    backend has assigned [last_train_update]), after
    [send_progress_update(0)], three reports of loss 0.9 leave
    [train_outputs["loss"].data == [[0.9, 0.9, 0.9]]]. *)
Theorem C2_repeated_value_merges_into_row :
  (forall current_epoch d name k value d1 e o,
     comparison_point current_epoch d name k = Return d1 ->
     getitem "epoch" d1 = Some e ->
     getitem name d1 = Some o ->
     length (data o) = length (data e) ->
     exists rows row merged b,
       data o = rows ++ [row] /\
       fst (save_output current_epoch d name k value) = Return b /\
       getitem name (snd (save_output current_epoch d name k value)) =
         Some (mkNetworkOutput (kind o) (rows ++ [merged])) /\
       (is_list row = false -> merged = VList [row; value]) /\
       (forall l, row = VList l -> merged = VList (l ++ [value]))) /\
  (forall dataset train_epochs snapshot_interval learning_rate lr_policy kw
          assigned eta now1 now1' now2 now2' now3 now3',
     let loss := VNum (PyFloat 0.9) in
     let t := __init__ dataset train_epochs snapshot_interval learning_rate lr_policy kw in
     let t0 := match assigned with
               | Some ts => with_last_train_update ts t
               | None => t
               end in
     let t1 := task_of (send_progress_update eta t0 (PyInt 0)) in
     let t2 := task_of (save_train_output now1 now1' t1 "loss" "SoftmaxWithLoss" loss) in
     let t3 := task_of (save_train_output now2 now2' t2 "loss" "SoftmaxWithLoss" loss) in
     let t4 := task_of (save_train_output now3 now3' t3 "loss" "SoftmaxWithLoss" loss) in
     data <$> getitem "loss" (train_outputs t4) = Some [VList [loss; loss; loss]]).
Proof.
  split.
  - intros current_epoch d name k value d1 e o Hcp He Ho Hlen.
    destruct (comparison_point_reached _ _ _ _ _ Hcp) as (e' & _ & He' & Hne & _).
    rewrite He in He'. injection He' as <-.
    destruct (store_value_merge d1 name value e o He Ho Hne Hlen) as (rows & row & Hrows & Hst).
    unfold save_output. rewrite Hcp, Hst. cbn [fst snd].
    destruct (row_complete_spec (Z.of_nat (length (data e)))
                (set_data name
                   (rows ++ [match row with
                             | VList l => VList (l ++ [value])
                             | _ => VList [row; value]
                             end]) d1)) as (b & Hb & _).
    eexists rows, row, _, b. split; [exact Hrows|]. split; [exact Hb|].
    split; [by apply getitem_set_data_eq|].
    split; [by destruct row|]. by intros l ->.
  - intros. 
    assert (Hsame : forall now now' t n k v,
              train_outputs (task_of (save_train_output now now' t n k v)) =
                snd (save_output (current_epoch t) (train_outputs t) n k v) /\
              current_epoch (task_of (save_train_output now now' t n k v)) = current_epoch t).
    { intros now now' u n k v. unfold save_train_output, task_of.
      destruct (save_output (current_epoch u) (train_outputs u) n k v) as [[[|]|] d'];
        simpl; auto.
      destruct (last_train_update u) as [ts|]; simpl; auto.
      destruct (match ts with NoTime => false | At s => _ end); simpl; auto. }
    assert (Ht1 : train_outputs t1 = [] /\ current_epoch t1 = PyInt 0).
    { subst t1 t0 t. destruct assigned; auto. }
    destruct Ht1 as [Hd1 Hc1].
    destruct (Hsame now1 now1' t1 "loss" "SoftmaxWithLoss" loss) as [Hd2 Hc2]. fold t2 in Hd2, Hc2.
    destruct (Hsame now2 now2' t2 "loss" "SoftmaxWithLoss" loss) as [Hd3 Hc3]. fold t3 in Hd3, Hc3.
    destruct (Hsame now3 now3' t3 "loss" "SoftmaxWithLoss" loss) as [Hd4 _]. fold t4 in Hd4.
    rewrite Hd4, Hc3, Hc2, Hc1, Hd3, Hc2, Hc1, Hd2, Hc1, Hd1. reflexivity.
Qed.

Lemma C2_witness :
  let d := [("epoch", mkNetworkOutput "Epoch" [VNum (PyInt 0)]);
            ("loss", mkNetworkOutput "SoftmaxWithLoss" [VNum (PyFloat 0.9)])] in
  let e := mkNetworkOutput "Epoch" [VNum (PyInt 0)] in
  let o := mkNetworkOutput "SoftmaxWithLoss" [VNum (PyFloat 0.9)] in
  (comparison_point (PyInt 0) d "loss" "SoftmaxWithLoss" = Return d /\
   getitem "epoch" d = Some e /\ getitem "loss" d = Some o /\
   length (data o) = length (data e)) /\
  exists rows row merged b,
    data o = rows ++ [row] /\
    fst (save_output (PyInt 0) d "loss" "SoftmaxWithLoss" (VNum (PyFloat 0.8))) = Return b /\
    getitem "loss" (snd (save_output (PyInt 0) d "loss" "SoftmaxWithLoss" (VNum (PyFloat 0.8)))) =
      Some (mkNetworkOutput (kind o) (rows ++ [merged])) /\
    (is_list row = false -> merged = VList [row; VNum (PyFloat 0.8)]) /\
    (forall l, row = VList l -> merged = VList (l ++ [VNum (PyFloat 0.8)])).
Proof.
  intros d e o. split.
  - repeat split; reflexivity.
  - apply (proj1 C2_repeated_value_merges_into_row (PyInt 0) d "loss" "SoftmaxWithLoss"
             (VNum (PyFloat 0.8)) d e o); reflexivity.
Defined.

(** C3.  At the comparison point, a series more than one row short of
    'epoch' is extended in place with [epoch_len - name_len - 1] times
    [None] and then the value, which brings it to the length of the 'epoch'
    series. *)
Theorem C3_gap_is_backfilled (current_epoch : num) (d d1 : table)
    (name k : string) (value : pyval) (e o : NetworkOutput) :
  comparison_point current_epoch d name k = Return d1 ->
  getitem "epoch" d1 = Some e ->
  getitem name d1 = Some o ->
  (length (data o) < length (data e) - 1)%nat ->
  let d' := snd (save_output current_epoch d name k value) in
  exists o',
    getitem name d' = Some o' /\
    data o' =
      data o ++ repeat VNone (length (data e) - length (data o) - 1) ++ [value] /\
    getitem "epoch" d' = Some e /\
    length (data o') = length (data e).
Proof.
  intros Hcp He Ho Hlen d'. subst d'. unfold save_output. rewrite Hcp.
  rewrite (store_value_gap d1 name value e o He Ho) by lia. cbn [snd].
  assert (name <> "epoch") by (intros ->; rewrite He in Ho; injection Ho as <-; lia).
  eexists. split; [by apply getitem_set_data_eq|]. cbn [data].
  split; [reflexivity|]. split; [by rewrite getitem_set_data_ne|].
  rewrite !length_app, repeat_length. simpl. lia.
Qed.

Lemma C3_witness :
  let d := [("epoch", mkNetworkOutput "Epoch" [VNum (PyInt 0); VNum (PyInt 1)]);
            ("loss", mkNetworkOutput "SoftmaxWithLoss" [VNum (PyFloat 1.0); VNum (PyFloat 0.8)])] in
  let d1 := [("epoch", mkNetworkOutput "Epoch" [VNum (PyInt 0); VNum (PyInt 1); VNum (PyInt 3)]);
             ("loss", mkNetworkOutput "SoftmaxWithLoss" [VNum (PyFloat 1.0); VNum (PyFloat 0.8)]);
             ("accuracy", mkNetworkOutput "Accuracy" [])] in
  let e := mkNetworkOutput "Epoch" [VNum (PyInt 0); VNum (PyInt 1); VNum (PyInt 3)] in
  let o := mkNetworkOutput "Accuracy" [] in
  let value := VNum (PyFloat 0.5) in
  (comparison_point (PyInt 3) d "accuracy" "Accuracy" = Return d1 /\
   getitem "epoch" d1 = Some e /\ getitem "accuracy" d1 = Some o /\
   (length (data o) < length (data e) - 1)%nat) /\
  exists o',
    getitem "accuracy" (snd (save_output (PyInt 3) d "accuracy" "Accuracy" value)) = Some o' /\
    data o' = data o ++ repeat VNone (length (data e) - length (data o) - 1) ++ [value] /\
    getitem "epoch" (snd (save_output (PyInt 3) d "accuracy" "Accuracy" value)) = Some e /\
    length (data o') = length (data e).
Proof.
  intros d d1 e o value. split.
  - repeat split; try reflexivity. simpl. lia.
  - apply (C3_gap_is_backfilled (PyInt 3) d d1 "accuracy" "Accuracy" value e o);
      try reflexivity. simpl. lia.
Defined.

(** The error of line 207 is raised exactly when the series is longer than
    'epoch' at the comparison point. *)
Lemma save_output_out_of_order_iff (current_epoch : num) (d d1 : table)
    (name k : string) (value : pyval) (e o : NetworkOutput) :
  comparison_point current_epoch d name k = Return d1 ->
  getitem "epoch" d1 = Some e ->
  getitem name d1 = Some o ->
  fst (save_output current_epoch d name k value) = Raise OutOfOrderUpdate <->
  (length (data e) < length (data o))%nat.
Proof.
  intros Hcp He Ho. unfold save_output. rewrite Hcp.
  destruct (comparison_point_reached _ _ _ _ _ Hcp) as (e' & _ & He' & Hne & _).
  rewrite He in He'. injection He' as <-.
  destruct (lt_eq_lt_dec (length (data o)) (length (data e))) as [[Hlt|Heq]|Hgt].
  - destruct (Nat.eq_dec (S (length (data o))) (length (data e))) as [Heq|Hgap].
    + rewrite (store_value_append d1 name value e o He Ho Heq). cbn [fst].
      destruct (row_complete_spec (Z.of_nat (length (data e)))
                  (set_data name (data o ++ [value]) d1)) as (b & -> & _).
      split; [discriminate|lia].
    + rewrite (store_value_gap d1 name value e o He Ho) by lia.
      split; [discriminate|lia].
  - destruct (store_value_merge d1 name value e o He Ho Hne Heq) as (rows & row & _ & ->).
    cbn [fst].
    match goal with |- context [row_complete ?n ?t] =>
      destruct (row_complete_spec n t) as (b & -> & _) end.
    split; [discriminate|lia].
  - rewrite (store_value_out_of_order d1 name value e o He Ho Hgt). tauto.
Qed.

(** C4.  On the table a version-1 upgrade produces, a first report of
    "accuracy" at epoch 1 finds the new series two rows short of 'epoch'
    (0 rows against 2): the series is not longer than 'epoch', yet the call
    does not return a boolean; it raises at the store of line 219. *)
Theorem C4_gap_call_does_not_return :
  let d := [("epoch", mkNetworkOutput "Epoch" [VNum (PyInt 0); VNum (PyInt 1)]);
            ("loss", mkNetworkOutput "SoftmaxWithLoss" [VNum (PyFloat 1.0); VNum (PyFloat 0.8)]);
            ("learning_rate", mkNetworkOutput "LearningRate" [VNum (PyFloat 0.01); VNum (PyFloat 0.01)])] in
  let value := VNum (PyFloat 0.5) in
  comparison_point (PyInt 1) d "accuracy" "Accuracy" =
    Return (d ++ [("accuracy", mkNetworkOutput "Accuracy" [])]) /\
  save_output (PyInt 1) d "accuracy" "Accuracy" value =
    (Raise (AttributeError "data"),
     d ++ [("accuracy", mkNetworkOutput "Accuracy" [VNone; value])]).
Proof. split; reflexivity. Qed.

(** ** Claims about the pickle upgrade *)

Lemma store_series_returns (key k : string) (rows : list pyval) (d : table) :
  store_series key k (Return rows) (Return d) = Return (setitem key (mkNetworkOutput k rows) d).
Proof. reflexivity. Qed.

(** The validation branch of the upgrade never fails. *)
Lemma upgrade_val_returns (vl va : updates) :
  exists val_outputs,
    (if truthy vl then
       let val2 :=
         store_series "loss" "SoftmaxWithLoss" (seconds vl)
           (store_series "epoch" "Epoch" (firsts vl) (Return [])) in
       if truthy va
       then store_series "accuracy" "Accuracy" (seconds va) val2
       else val2
     else Return []) = Return val_outputs.
Proof.
  destruct vl as [|[|p ps]]; simpl; eauto.
  destruct va as [|[|q qs]]; simpl; eauto.
Qed.

(** C8.  A state older than version 2 with
    [train_loss_updates = [(0, 1.0), (1, 0.8)]] and
    [lr_updates = [(0, 0.01), (1, 0.01)]] loads, and its [train_outputs]
    holds 'epoch', 'loss' and 'learning_rate', in that order, with kinds
    'Epoch', 'SoftmaxWithLoss', 'LearningRate' and data [0, 1],
    [1.0, 0.8], [0.01, 0.01]. *)
Theorem C8_version_1_state_migrates (state : State) :
  st_pickver_task_train state < 2 ->
  st_train_loss_updates state =
    Some (UList [(VNum (PyInt 0), VNum (PyFloat 1.0)); (VNum (PyInt 1), VNum (PyFloat 0.8))]) ->
  st_lr_updates state =
    Some (UList [(VNum (PyInt 0), VNum (PyFloat 0.01)); (VNum (PyInt 1), VNum (PyFloat 0.01))]) ->
  exists loaded,
    __setstate__ state = Return loaded /\
    st_pickver_task_train (attributes loaded) = PICKLE_VERSION /\
    st_train_outputs (attributes loaded) =
      Some [("epoch", mkNetworkOutput "Epoch" [VNum (PyInt 0); VNum (PyInt 1)]);
            ("loss", mkNetworkOutput "SoftmaxWithLoss" [VNum (PyFloat 1.0); VNum (PyFloat 0.8)]);
            ("learning_rate",
             mkNetworkOutput "LearningRate" [VNum (PyFloat 0.01); VNum (PyFloat 0.01)])].
Proof.
  intros Hver Htl Hlr. unfold __setstate__, upgrade.
  assert ((st_pickver_task_train state <? 2) = true) as -> by lia.
  rewrite Htl, Hlr.
  destruct (upgrade_val_returns (pop (st_val_loss_updates state))
              (pop (st_val_accuracy_updates state))) as [val_outputs Hval].
  cbv zeta in Hval |- *. rewrite Hval. simpl. eauto.
Qed.

Lemma C8_witness :
  let state :=
    mkState 1
      (Some (UList [(VNum (PyInt 0), VNum (PyFloat 1.0)); (VNum (PyInt 1), VNum (PyFloat 0.8))]))
      None None
      (Some (UList [(VNum (PyInt 0), VNum (PyFloat 0.01)); (VNum (PyInt 1), VNum (PyFloat 0.01))]))
      None None (PyInt 1) (PyInt 30) None (mkTask "job" "task" (PyInt 0)) in
  st_pickver_task_train state < 2 /\
  exists loaded,
    __setstate__ state = Return loaded /\
    st_pickver_task_train (attributes loaded) = PICKLE_VERSION /\
    st_train_outputs (attributes loaded) =
      Some [("epoch", mkNetworkOutput "Epoch" [VNum (PyInt 0); VNum (PyInt 1)]);
            ("loss", mkNetworkOutput "SoftmaxWithLoss" [VNum (PyFloat 1.0); VNum (PyFloat 0.8)]);
            ("learning_rate",
             mkNetworkOutput "LearningRate" [VNum (PyFloat 0.01); VNum (PyFloat 0.01)])].
Proof.
  intros state. split; [reflexivity|].
  apply (C8_version_1_state_migrates state); reflexivity.
Defined.

(** C10.  A state older than version 2 whose [train_loss_updates] is a
    non-empty list and whose [lr_updates] is missing or [None] does not
    load: [__setstate__] raises a [TypeError] at line 82. *)
Theorem C10_upgrade_needs_lr_updates (state : State) (pairs : list (pyval * pyval)) :
  st_pickver_task_train state < 2 ->
  st_train_loss_updates state = Some (UList pairs) ->
  pairs <> [] ->
  st_lr_updates state = None \/ st_lr_updates state = Some UNone ->
  __setstate__ state = Raise TypeError.
Proof.
  intros Hver Htl Hne Hlr. unfold __setstate__, upgrade.
  assert ((st_pickver_task_train state <? 2) = true) as -> by lia.
  rewrite Htl. destruct pairs as [|p ps]; [done|].
  assert (pop (st_lr_updates state) = UNone) as -> by (destruct Hlr as [-> | ->]; reflexivity).
  reflexivity.
Qed.

Lemma C10_witness :
  let pairs := [(VNum (PyInt 0), VNum (PyFloat 1.0))] in
  let state :=
    mkState 1 (Some (UList pairs)) None None None
      None None (PyInt 1) (PyInt 30) None (mkTask "job" "task" (PyInt 0)) in
  (st_pickver_task_train state < 2 /\ pairs <> [] /\ st_lr_updates state = None) /\
  __setstate__ state = Raise TypeError.
Proof.
  intros pairs state. split.
  - split; [reflexivity|]. split; [discriminate|reflexivity].
  - apply (C10_upgrade_needs_lr_updates state pairs);
      [reflexivity|reflexivity|discriminate|left; reflexivity].
Defined.

(** ** Claims about the reports of the training backend *)

(** C9.  The constructor leaves [last_train_update] unassigned and
    [__setstate__] passes the state's entry through as it is.  While the
    attribute is unassigned, a report leaves it unassigned and sends
    nothing, and a report whose row is complete raises [AttributeError] at
    line 128; the first report on a freshly constructed task is such a
    report. *)
Theorem C9_last_train_update_read_before_assignment :
  (forall dataset train_epochs snapshot_interval learning_rate lr_policy kw,
     last_train_update
       (__init__ dataset train_epochs snapshot_interval learning_rate lr_policy kw) = None) /\
  (forall state loaded,
     __setstate__ state = Return loaded ->
     st_last_train_update (attributes loaded) = st_last_train_update state) /\
  (forall now now' t name k value,
     last_train_update t = None ->
     let call := save_train_output now now' t name k value in
     last_train_update (task_of call) = None /\
     sent call = [] /\
     (fst (save_output (current_epoch t) (train_outputs t) name k value) = Return true ->
      outcome_of call = Raise (AttributeError "last_train_update"))) /\
  (forall dataset train_epochs snapshot_interval learning_rate lr_policy kw
          now now' name k value,
     let t := __init__ dataset train_epochs snapshot_interval learning_rate lr_policy kw in
     outcome_of (save_train_output now now' t name k value) =
       Raise (AttributeError "last_train_update")).
Proof.
  assert (Hcall : forall now now' t name k value,
     last_train_update t = None ->
     let call := save_train_output now now' t name k value in
     last_train_update (task_of call) = None /\
     sent call = [] /\
     (fst (save_output (current_epoch t) (train_outputs t) name k value) = Return true ->
      outcome_of call = Raise (AttributeError "last_train_update"))).
  { intros now now' t name k value Hunset call. subst call.
    unfold save_train_output, task_of, sent, outcome_of.
    destruct (save_output (current_epoch t) (train_outputs t) name k value) as [[[|]|ex] d'];
      cbn [fst snd with_train_outputs last_train_update]; rewrite ?Hunset; cbn [fst snd];
      repeat split; auto; discriminate. }
  split; [reflexivity|]. split; [|split; [exact Hcall|]].
  - intros state loaded. unfold __setstate__.
    destruct (upgrade state) as [state'|ex] eqn:Hup; [|discriminate].
    intros [= <-]. cbn [attributes]. unfold upgrade in Hup.
    destruct (st_pickver_task_train state <? 2).
    + repeat match type of Hup with
             | match ?x with _ => _ end = _ => destruct x; try discriminate
             end.
      by injection Hup as <-.
    + by injection Hup as <-.
  - intros. apply Hcall; [reflexivity|].
    subst t. cbn [current_epoch train_outputs __init__].
    unfold save_output, comparison_point, update_epoch. cbn [getitem setitem].
    unfold ensure_series, contains. cbn [getitem].
    destruct (String.eqb_spec name "epoch") as [->|Hne].
    + reflexivity.
    + cbn [setitem]. assert (String.eqb name "epoch" = false) as Hf by by apply String.eqb_neq.
      rewrite Hf. unfold store_value, series_len. cbn [getitem]. rewrite Hf.
      cbn [getitem]. rewrite String.eqb_refl. cbn.
      unfold row_complete, keys. rewrite Hf. cbn. rewrite String.eqb_refl.
      cbn. rewrite Hf. cbn.
      unfold series_len. cbn. rewrite Hf, String.eqb_refl. cbn.
      by destruct (String.eqb name "learning_rate").
Qed.

Lemma C9_witness :
  let kw := mkKwargs None None None None None (mkTask "job" "task" (PyInt 0)) in
  let t := __init__ "mnist" (PyInt 30) (PyInt 1) (PyFloat 0.01) [] kw in
  let call := save_train_output 10 10 t "loss" "SoftmaxWithLoss" (VNum (PyFloat 0.9)) in
  (last_train_update t = None /\
   fst (save_output (current_epoch t) (train_outputs t) "loss" "SoftmaxWithLoss"
          (VNum (PyFloat 0.9))) = Return true) /\
  last_train_update (task_of call) = None /\
  sent call = [] /\
  outcome_of call = Raise (AttributeError "last_train_update").
Proof.
  intros kw t call. split; [split; reflexivity|].
  destruct (proj1 (proj2 (proj2 C9_last_train_update_read_before_assignment))
              10%Q 10%Q t "loss" "SoftmaxWithLoss" (VNum (PyFloat 0.9)) eq_refl)
    as (Hunset & Hsent & Hraise).
  split; [exact Hunset|]. split; [exact Hsent|]. apply Hraise. reflexivity.
Defined.

(** ** Down-sampling *)

Lemma slice_from_length {A : Type} (step : nat) (l : list A) (skip : nat) :
  (1 <= step)%nat ->
  length (slice_from skip step l) =
    if (length l <=? skip)%nat then 0%nat else ((length l - skip - 1) / step + 1)%nat.
Proof.
  intros Hstep. revert skip. induction l as [|x l IH]; intros skip; [reflexivity|].
  destruct skip as [|skip]; cbn [slice_from length].
  - rewrite IH. replace (S (length l) <=? 0)%nat with false by (symmetry; apply Nat.leb_gt; lia).
    replace (S (length l) - 0 - 1)%nat with (length l) by lia.
    destruct (Nat.leb_spec (length l) (step - 1)) as [Hle|Hgt].
    + rewrite Nat.div_small by lia. reflexivity.
    + replace (length l) with ((length l - (step - 1) - 1) + 1 * step)%nat at 2 by lia.
      rewrite Nat.div_add by lia. lia.
  - rewrite IH.
    destruct (Nat.leb_spec (length l) skip) as [Hle|Hgt].
    + replace (S (length l) <=? S skip)%nat with true by (symmetry; apply Nat.leb_le; lia).
      reflexivity.
    + replace (S (length l) <=? S skip)%nat with false by (symmetry; apply Nat.leb_gt; lia).
      reflexivity.
Qed.

Lemma slice_step_length {A : Type} (step : nat) (l : list A) :
  (1 <= step)%nat -> l <> [] ->
  length (slice_step step l) = ((length l - 1) / step + 1)%nat.
Proof.
  intros Hstep Hne. unfold slice_step. rewrite slice_from_length by done.
  destruct l; [done|]. cbn [length].
  replace (S (length l) <=? 0)%nat with false by (symmetry; apply Nat.leb_gt; lia).
  do 2 f_equal; lia.
Qed.

Lemma slice_step_1 {A : Type} (l : list A) : slice_step 1 l = l.
Proof.
  unfold slice_step. induction l as [|x l IH]; [reflexivity|].
  cbn [slice_from]. simpl Nat.sub. by rewrite IH.
Qed.

(** ** The loop of a formatter *)

Section graph_side_facts.
Variables (tag : string) (stride : nat) (skipped : list string).
Variables (wanted y2 : NetworkOutput -> bool).

Let keep (item : string * NetworkOutput) : bool :=
  negb (name_in (fst item) skipped) && wanted (snd item).
Let column_of (item : string * NetworkOutput) : column :=
  mkColumn (fst item +:+ "-" +:+ tag) (slice_step stride (data (snd item))).

Lemma fold_add_series_columns (d : table) (g : graph) (added : bool) :
  let r := fold_left (add_series tag stride skipped wanted y2) d (g, added) in
  columns (fst r) = columns g ++ map column_of (List.filter keep d) /\
  snd r = added || match List.filter keep d with [] => false | _ => true end.
Proof.
  revert g added. induction d as [|[name o] d IH]; intros g added; cbn [fold_left].
  - simpl. rewrite app_nil_r, orb_false_r. auto.
  - cbn [List.filter add_series].
    change (keep (name, o)) with (negb (name_in name skipped) && wanted o).
    destruct (negb (name_in name skipped) && wanted o) eqn:Hkeep.
    + destruct (IH (mkGraph (columns g ++ [mkColumn (name +:+ "-" +:+ tag) (slice_step stride (data o))])
                   (<[name +:+ "-" +:+ tag := tag +:+ "_epochs"]> (xs g))
                   (if y2 o then (fun m => <[name +:+ "-" +:+ tag := "y2"]> m) <$> axes g else axes g)
                   (<[name +:+ "-" +:+ tag := name +:+ " (" +:+ tag +:+ ")"]> (names g))) true)
        as [Hcols Hadded].
      cbv zeta in Hcols, Hadded |- *. rewrite Hcols, Hadded. cbn [columns map].
      rewrite <- app_assoc. split; [reflexivity|]. by destruct added.
    + apply IH.
Qed.

Lemma fold_add_series_axes (d : table) (g : graph) (added : bool) (m : gmap string string) :
  axes g = Some m ->
  exists m',
    axes (fst (fold_left (add_series tag stride skipped wanted y2) d (g, added))) = Some m' /\
    forall id,
      m' !! id = Some "y2" <->
      m !! id = Some "y2" \/
      exists item, In item (List.filter keep d) /\ y2 (snd item) = true /\
                   id = fst item +:+ "-" +:+ tag.
Proof.
  revert g added m. induction d as [|[name o] d IH]; intros g added m Hm; cbn [fold_left].
  - exists m. split; [exact Hm|]. intros id. split; [auto|].
    intros [H|(item & [] & _)]. exact H.
  - cbn [List.filter add_series].
    change (keep (name, o)) with (negb (name_in name skipped) && wanted o).
    destruct (negb (name_in name skipped) && wanted o) eqn:Hkeep.
    + destruct (y2 o) eqn:Hy2.
      * edestruct (IH (mkGraph (columns g ++ [mkColumn (name +:+ "-" +:+ tag) (slice_step stride (data o))])
                   (<[name +:+ "-" +:+ tag := tag +:+ "_epochs"]> (xs g))
                   ((fun m => <[name +:+ "-" +:+ tag := "y2"]> m) <$> axes g)
                   (<[name +:+ "-" +:+ tag := name +:+ " (" +:+ tag +:+ ")"]> (names g))) true)
          as (m' & Hm' & Hiff); [cbn [axes]; rewrite Hm; reflexivity|].
        exists m'. split; [exact Hm'|]. intros id. rewrite Hiff.
        rewrite lookup_insert. split.
        -- intros [H|(item & Hin & Hy & Hid)].
           ++ case_decide as Hd; [|by left].
              right. exists (name, o). split; [by left|]. split; [exact Hy2|]. by subst id.
           ++ right. exists item. split; [by right|]. auto.
        -- intros [H|(item & [<-|Hin] & Hy & Hid)].
           ++ left. case_decide; [reflexivity|exact H].
           ++ left. cbn [fst] in Hid. subst id. by rewrite decide_True.
           ++ right. eauto.
      * edestruct (IH (mkGraph (columns g ++ [mkColumn (name +:+ "-" +:+ tag) (slice_step stride (data o))])
                   (<[name +:+ "-" +:+ tag := tag +:+ "_epochs"]> (xs g))
                   (axes g)
                   (<[name +:+ "-" +:+ tag := name +:+ " (" +:+ tag +:+ ")"]> (names g))) true)
          as (m' & Hm' & Hiff); [exact Hm|].
        exists m'. split; [exact Hm'|]. intros id. rewrite Hiff. split.
        -- intros [H|(item & Hin & Hy & Hid)]; [by left|].
           right. exists item. split; [by right|]. auto.
        -- intros [H|(item & [<-|Hin] & Hy & Hid)]; [by left| |right; eauto].
           cbn [snd] in Hy. congruence.
    + apply IH. exact Hm.
Qed.
End graph_side_facts.

Lemma getitem_In (key : string) (d : table) (o : NetworkOutput) :
  getitem key d = Some o -> In (key, o) d.
Proof.
  induction d as [|[k o'] d IH]; simpl; [discriminate|].
  destruct (String.eqb_spec key k) as [->|_]; [intros [= ->]; by left|auto].
Qed.

Lemma graph_side_unfold (tag : string) (skipped : list string)
    (wanted y2 : NetworkOutput -> bool) (d : table) (g : graph) :
  graph_side tag skipped wanted y2 d g =
    match getitem "epoch" d with
    | Some e =>
        let r := fold_left (add_series tag (stride_of (data e)) skipped wanted y2) d (g, false) in
        if snd r
        then mkGraph (columns (fst r) ++
                        [mkColumn (tag +:+ "_epochs") (slice_step (stride_of (data e)) (data e))])
                     (xs (fst r)) (axes (fst r)) (names (fst r))
        else fst r
    | None => g
    end.
Proof.
  unfold graph_side. destruct d as [|p d]; [reflexivity|].
  destruct (getitem "epoch" (p :: d)) as [e|]; [|reflexivity].
  cbv zeta. by destruct (fold_left _ _ _) as [g' []].
Qed.

Lemma graph_side_columns (tag : string) (skipped : list string)
    (wanted y2 : NetworkOutput -> bool) (d : table) (g : graph) :
  columns (graph_side tag skipped wanted y2 d g) =
    columns g ++ side_columns tag skipped wanted d.
Proof.
  rewrite graph_side_unfold. unfold side_columns, plotted, series_column, epoch_rows.
  destruct (getitem "epoch" d) as [e|] eqn:He; [|by rewrite app_nil_r].
  pose proof (fold_add_series_columns tag (stride_of (data e)) skipped wanted y2
                d g false) as [Hcols Hadded].
  cbv zeta in Hcols, Hadded |- *. rewrite Hadded. unfold stride_of in *.
  destruct (List.filter _ d) as [|item items]; cbn [orb].
  - by rewrite Hcols.
  - cbn [columns]. rewrite Hcols. by rewrite <- app_assoc.
Qed.

Lemma graph_side_axes (tag : string) (skipped : list string)
    (wanted y2 : NetworkOutput -> bool) (d : table) (g : graph) (m : gmap string string) :
  axes g = Some m ->
  exists m',
    axes (graph_side tag skipped wanted y2 d g) = Some m' /\
    forall id,
      m' !! id = Some "y2" <->
      m !! id = Some "y2" \/
      exists item, In item (plotted skipped wanted d) /\ y2 (snd item) = true /\
                   id = fst item +:+ "-" +:+ tag.
Proof.
  intros Hm. rewrite graph_side_unfold. unfold plotted.
  destruct (getitem "epoch" d) as [e|] eqn:He.
  - destruct (fold_add_series_axes tag (stride_of (data e)) skipped wanted y2
                d g false m Hm) as (m' & Hm' & Hiff).
    cbv zeta. exists m'. split; [|exact Hiff].
    by destruct (snd (fold_left _ _ _)).
  - exists m. split; [exact Hm|]. intros id. split; [auto|].
    intros [H|(item & [] & _)]. exact H.
Qed.

Lemma side_columns_points (tag : string) (skipped : list string)
    (wanted : NetworkOutput -> bool) (d : table) (c : column) :
  In c (side_columns tag skipped wanted d) ->
  exists e name o,
    getitem "epoch" d = Some e /\ In (name, o) d /\
    points c = slice_step (Nat.max (length (data e) / 100) 1) (data o).
Proof.
  unfold side_columns, plotted, epoch_rows.
  destruct (getitem "epoch" d) as [e|] eqn:He; [|intros []].
  destruct (List.filter _ d) as [|item items] eqn:Hf; [intros []|].
  rewrite in_app_iff, in_map_iff. intros [([name o] & <- & Hin)|[<-|[]]].
  - exists e, name, o. split; [reflexivity|].
    split; [|unfold series_column, epoch_rows; by rewrite He].
    rewrite <- Hf in Hin. by apply filter_In in Hin as [Hin _].
  - exists e, "epoch", e. split; [reflexivity|]. split; [by apply getitem_In|reflexivity].
Qed.

(** The columns of each formatter come from one table and are cut with the
    stride of that table's 'epoch' series. *)
Lemma emitted_points (f : formatter) (train_outputs val_outputs : table) (c : column) :
  In c (emitted f train_outputs val_outputs) ->
  exists d e name o,
    (d = train_outputs \/ d = val_outputs) /\
    getitem "epoch" d = Some e /\ In (name, o) d /\
    points c = slice_step (Nat.max (length (data e) / 100) 1) (data o).
Proof.
  assert (Hsides : forall skipped skipped' wanted y2 ax,
            In c (match nonempty_graph
                          (graph_side "val" skipped' wanted y2 val_outputs
                             (graph_side "train" skipped wanted y2 train_outputs
                                (mkGraph [] ∅ ax ∅))) with
                  | Some g => columns g
                  | None => []
                  end) ->
            exists d e name o,
              (d = train_outputs \/ d = val_outputs) /\
              getitem "epoch" d = Some e /\ In (name, o) d /\
              points c = slice_step (Nat.max (length (data e) / 100) 1) (data o)).
  { intros skipped skipped' wanted y2 ax Hc.
    assert (Hin : In c (side_columns "train" skipped wanted train_outputs ++
                        side_columns "val" skipped' wanted val_outputs)).
    { rewrite <- (app_nil_l (side_columns "train" _ _ _ ++ _)).
      change (@nil column) with (columns (mkGraph [] ∅ ax ∅)).
      rewrite app_assoc, <- (graph_side_columns "train" skipped wanted y2),
        <- (graph_side_columns "val" skipped' wanted y2).
      unfold nonempty_graph in Hc.
      destruct (columns (graph_side "val" _ _ _ _ _)) eqn:Hcols in Hc; [destruct Hc|exact Hc]. }
    apply in_app_iff in Hin as [Hin|Hin];
      apply side_columns_points in Hin as (e & name & o & He & Hin & Hpts).
    - exists train_outputs, e, name, o. auto.
    - exists val_outputs, e, name, o. auto. }
  unfold emitted, payload. destruct f; try apply Hsides.
  unfold lr_graph_data.
  destruct (getitem "epoch" train_outputs) as [e|] eqn:He; [|intros []].
  destruct (getitem "learning_rate" train_outputs) as [lr|] eqn:Hlr; [|intros []].
  cbn [columns]. intros [<-|[<-|[]]].
  - exists train_outputs, e, "epoch", e. split; [by left|].
    split; [exact He|]. split; [by apply getitem_In|reflexivity].
  - exists train_outputs, e, "learning_rate", lr. split; [by left|].
    split; [exact He|]. split; [by apply getitem_In|reflexivity].
Qed.

(** ** Claims about the graph payloads *)

Lemma plotted_every_kind (skipped : list string) (d : table) (name : string) (o : NetworkOutput) :
  In (name, o) (plotted skipped every_kind d) <->
  In (name, o) d /\ contains "epoch" d = true /\ name_in name skipped = false.
Proof.
  unfold plotted, contains. destruct (getitem "epoch" d) as [e|].
  - rewrite filter_In. cbn [fst snd every_kind]. rewrite andb_true_r, negb_true_iff. tauto.
  - split; [intros []|]. intros (_ & [=] & _).
Qed.

(** C5, the claim as stated, fails: a 'learning_rate' series of
    [val_outputs] is plotted.  With 'epoch' = [0] and 'learning_rate' =
    [0.01] on the val side only, the payload has the data column
    "learning_rate-val". *)
Lemma C5_counterexample_val_learning_rate :
  let val_outputs :=
    [("epoch", mkNetworkOutput "Epoch" [VNum (PyInt 0)]);
     ("learning_rate", mkNetworkOutput "LearningRate" [VNum (PyFloat 0.01)])] in
  exists g,
    combined_graph_data [] val_outputs = Some g /\
    columns g = [mkColumn "learning_rate-val" [VNum (PyFloat 0.01)];
                 mkColumn "val_epochs" [VNum (PyInt 0)]].
Proof. eexists. split; reflexivity. Qed.

(** C5, as amended.  From a table with an 'epoch' series (a table without
    one gives no column), [combined_graph_data] plots every series of
    [train_outputs] but 'epoch' and 'learning_rate' and every series of
    [val_outputs] but 'epoch': one data column for each, in table order,
    then the x-axis column of that side.  The columns on the secondary axis
    "y2" are exactly those of the plotted series whose kind, in lower case,
    contains "accuracy".  There is no payload when nothing is plotted. *)
Theorem C5_combined_graph_plots (train_outputs val_outputs : table) :
  let train := plotted ["epoch"; "learning_rate"] every_kind train_outputs in
  let val := plotted ["epoch"] every_kind val_outputs in
  (forall name o,
     In (name, o) train <->
     In (name, o) train_outputs /\ contains "epoch" train_outputs = true /\
     name <> "epoch" /\ name <> "learning_rate") /\
  (forall name o,
     In (name, o) val <->
     In (name, o) val_outputs /\ contains "epoch" val_outputs = true /\ name <> "epoch") /\
  match combined_graph_data train_outputs val_outputs with
  | None => train = [] /\ val = []
  | Some g =>
      columns g =
        side_columns "train" ["epoch"; "learning_rate"] every_kind train_outputs ++
        side_columns "val" ["epoch"] every_kind val_outputs /\
      exists m,
        axes g = Some m /\
        forall id,
          m !! id = Some "y2" <->
          (exists name o,
             In (name, o) train /\ substring_in "accuracy" (lower (kind o)) = true /\
             id = name +:+ "-train") \/
          (exists name o,
             In (name, o) val /\ substring_in "accuracy" (lower (kind o)) = true /\
             id = name +:+ "-val")
  end.
Proof.
  intros train val. split; [|split].
  - intros name o. unfold train. rewrite plotted_every_kind. cbn [name_in existsb].
    rewrite orb_false_r, orb_false_iff, !String.eqb_neq. tauto.
  - intros name o. unfold val. rewrite plotted_every_kind. cbn [name_in existsb].
    rewrite orb_false_r, String.eqb_neq. tauto.
  - unfold combined_graph_data, nonempty_graph.
    set (g0 := mkGraph [] ∅ (Some ∅) ∅).
    set (g1 := graph_side "train" ["epoch"; "learning_rate"] every_kind accuracy_kind
                 train_outputs g0).
    set (g2 := graph_side "val" ["epoch"] every_kind accuracy_kind val_outputs g1).
    assert (Hcols : columns g2 =
              side_columns "train" ["epoch"; "learning_rate"] every_kind train_outputs ++
              side_columns "val" ["epoch"] every_kind val_outputs).
    { unfold g2, g1. by rewrite !graph_side_columns. }
    destruct (columns g2) as [|c cs] eqn:Hg2.
    + symmetry in Hcols. apply app_eq_nil in Hcols as [Htrain Hval].
      unfold side_columns in Htrain, Hval. fold train in Htrain. fold val in Hval.
      destruct train; [|by destruct (map _ _)].
      destruct val; [done|by destruct (map _ _)].
    + split; [by rewrite Hg2|].
      destruct (graph_side_axes "train" ["epoch"; "learning_rate"] every_kind accuracy_kind
                  train_outputs g0 ∅ eq_refl) as (m1 & Hm1 & Hiff1). fold g1 in Hm1.
      destruct (graph_side_axes "val" ["epoch"] every_kind accuracy_kind
                  val_outputs g1 m1 Hm1) as (m2 & Hm2 & Hiff2). fold g2 in Hm2.
      exists m2. split; [exact Hm2|]. intros id. rewrite Hiff2, Hiff1, lookup_empty.
      fold train val. unfold accuracy_kind. split.
      * intros [[[=]|([name o] & Hin & Hacc & ->)]|([name o] & Hin & Hacc & ->)].
        -- left. exists name, o. auto.
        -- right. exists name, o. auto.
      * intros [(name & o & Hin & Hacc & ->)|(name & o & Hin & Hacc & ->)].
        -- left. right. exists (name, o). auto.
        -- right. exists (name, o). auto.
Qed.

Lemma slice_from_lookup {A : Type} (step : nat) (l : list A) (skip j : nat) :
  (1 <= step)%nat ->
  slice_from skip step l !! j = l !! (skip + j * step)%nat.
Proof.
  intros Hstep. revert skip j. induction l as [|x l IH]; intros skip j; [reflexivity|].
  destruct skip as [|skip]; cbn [slice_from].
  - destruct j as [|j]; [reflexivity|]. cbn [lookup list_lookup]. rewrite IH.
    replace (0 + S j * step)%nat with (S (step - 1 + j * step)) by lia. reflexivity.
  - rewrite IH. reflexivity.
Qed.

Lemma slice_step_lookup {A : Type} (step : nat) (l : list A) (j : nat) :
  (1 <= step)%nat -> slice_step step l !! j = l !! (j * step)%nat.
Proof. intros Hstep. unfold slice_step. by rewrite slice_from_lookup. Qed.

(** Every [step]-th element of [n] elements: [n / step], rounded up. *)
Lemma slice_step_length_up {A : Type} (step : nat) (l : list A) :
  (1 <= step)%nat -> length (slice_step step l) = ((length l + step - 1) / step)%nat.
Proof.
  intros Hstep. destruct l as [|x l].
  - cbn [slice_step slice_from length]. rewrite Nat.div_small; lia.
  - rewrite slice_step_length by done. cbn [length].
    replace (S (length l) + step - 1)%nat with (length l + 1 * step)%nat by lia.
    rewrite Nat.div_add by lia. f_equal. f_equal. lia.
Qed.

(** The payload of a formatter that loops over both tables has the columns
    of the train side, then those of the val side. *)
Lemma two_sided_columns (wanted y2 : NetworkOutput -> bool) (ax : option (gmap string string))
    (train_outputs val_outputs : table) :
  match nonempty_graph
          (graph_side "val" ["epoch"] wanted y2 val_outputs
             (graph_side "train" ["epoch"; "learning_rate"] wanted y2 train_outputs
                (mkGraph [] ∅ ax ∅))) with
  | Some g => columns g
  | None => []
  end =
  side_columns "train" ["epoch"; "learning_rate"] wanted train_outputs ++
  side_columns "val" ["epoch"] wanted val_outputs.
Proof.
  unfold nonempty_graph. set (g2 := graph_side "val" _ _ _ _ _).
  assert (Hcols : columns g2 =
            side_columns "train" ["epoch"; "learning_rate"] wanted train_outputs ++
            side_columns "val" ["epoch"] wanted val_outputs).
  { unfold g2. by rewrite !graph_side_columns. }
  rewrite <- Hcols. by destruct (columns g2) eqn:Hg2.
Qed.

(** A slice with the stride of its table is down-sampled as specified. *)
Lemma slice_is_down_sampled (id : string) (rows : list pyval) (n : nat) :
  let c := mkColumn id (slice_step (Nat.max (n / 100) 1) rows) in
  let s := mkSource id rows n in
  down_sampled c s /\
  length (points c) = ((length (src_rows s) + stride_for s - 1) / stride_for s)%nat /\
  (src_epochs s = 250%nat ->
   stride_for s = 2%nat /\
   (length (src_rows s) = 250%nat -> length (points c) = 125%nat)) /\
  (src_epochs s = 50%nat -> stride_for s = 1%nat /\ points c = src_rows s).
Proof.
  intros c s. unfold down_sampled, stride_for. cbn [c s col_id points src_id src_rows src_epochs].
  split; [split; [reflexivity|intros j; apply slice_step_lookup; lia]|].
  split; [apply slice_step_length_up; lia|]. split.
  - intros ->. split; [reflexivity|]. intros Hlen.
    rewrite slice_step_length_up, Hlen by (cbn; lia). reflexivity.
  - intros ->. split; [reflexivity|]. apply slice_step_1.
Qed.

Section sides.
Variable P : column -> source -> Prop.
Hypothesis slices :
  forall id rows n, P (mkColumn id (slice_step (Nat.max (n / 100) 1) rows)) (mkSource id rows n).

Lemma side_columns_sources (tag : string) (skipped : list string)
    (wanted : NetworkOutput -> bool) (d : table) :
  Forall2 P (side_columns tag skipped wanted d) (side_sources tag skipped wanted d).
Proof.
  unfold side_columns, side_sources.
  destruct (plotted skipped wanted d) as [|item items]; [constructor|].
  apply Forall2_app.
  - unfold series_column.
    induction (item :: items) as [|it its IH]; cbn [map]; constructor; [apply slices|exact IH].
  - constructor; [apply slices|constructor].
Qed.

Lemma lr_columns_sources (train_outputs val_outputs : table) :
  Forall2 P (emitted lr_graph_formatter train_outputs val_outputs) (lr_sources train_outputs).
Proof.
  unfold emitted, payload, lr_graph_data, lr_sources.
  destruct (getitem "epoch" train_outputs) as [e|]; [|constructor].
  destruct (getitem "learning_rate" train_outputs) as [lr|]; [|constructor].
  cbn [columns]. unfold stride_of. repeat constructor; apply slices.
Qed.

Lemma emitted_sources (f : formatter) (train_outputs val_outputs : table) :
  Forall2 P (emitted f train_outputs val_outputs) (sources f train_outputs val_outputs).
Proof.
  destruct f; [apply lr_columns_sources|..];
    unfold emitted, payload, sources, loss_graph_data, accuracy_graph_data, combined_graph_data;
    rewrite two_sided_columns; apply Forall2_app; apply side_columns_sources.
Qed.
End sides.

(** C7, the claim as stated, fails: with 250 'epoch' rows a column carries
    125 points only if its series has 250 rows (or 249).  Metrics reported
    for epochs 0 to 247, 'loss' and 'accuracy' each, then 'loss' alone for
    epochs 248 and 249: every call returns, the 'epoch' series has 250 rows
    and the stride is 2, and the combined graph has 125 points of 'loss',
    124 of 'accuracy' and 125 on the x axis. *)
Lemma C7_counterexample_short_series :
  let both (i : nat) :=
    [mkReport (PyInt (Z.of_nat i)) "loss" "SoftmaxWithLoss" (VNum (PyFloat 0.5));
     mkReport (PyInt (Z.of_nat i)) "accuracy" "Accuracy" (VNum (PyFloat 0.5))] in
  let reports :=
    flat_map both (seq 0 248) ++
    [mkReport (PyInt 248) "loss" "SoftmaxWithLoss" (VNum (PyFloat 0.5));
     mkReport (PyInt 249) "loss" "SoftmaxWithLoss" (VNum (PyFloat 0.5))] in
  let train_outputs := snd (save_outputs [] reports) in
  forallb returned (fst (save_outputs [] reports)) = true /\
  length (epoch_rows train_outputs) = 250%nat /\
  stride_of (epoch_rows train_outputs) = 2%nat /\
  map (fun c => (col_id c, length (points c)))
      (emitted combined_graph_formatter train_outputs []) =
    [("loss-train", 125%nat); ("accuracy-train", 124%nat); ("train_epochs", 125%nat)].
Proof. vm_compute. repeat split. Qed.

(** C7, as amended.  The columns of every formatter are, one for one and
    in order, cut from the series it plots ([sources]): for the
    learning-rate graph 'epoch' and 'learning_rate' of [train_outputs], for
    the others the plotted series of each table followed by its 'epoch'
    series.  A column has the id of its series and takes every stride-th
    row of it from the first on, where the stride is
    [max(floor(n / 100), 1)] for the [n] rows of the 'epoch' series of the
    same table; so a series of [m] rows gives [m / stride] points, rounded
    up.  With 250 'epoch' rows the stride is 2 and a series of 250 rows
    gives 125 points; with 50 'epoch' rows the stride is 1 and the column
    is the series. *)
Theorem C7_down_sampling (f : formatter) (train_outputs val_outputs : table) :
  Forall2
    (fun c s =>
       down_sampled c s /\
       length (points c) = ((length (src_rows s) + stride_for s - 1) / stride_for s)%nat /\
       (src_epochs s = 250%nat ->
        stride_for s = 2%nat /\
        (length (src_rows s) = 250%nat -> length (points c) = 125%nat)) /\
       (src_epochs s = 50%nat -> stride_for s = 1%nat /\ points c = src_rows s))
    (emitted f train_outputs val_outputs) (sources f train_outputs val_outputs).
Proof. apply emitted_sources. intros id rows n. apply slice_is_down_sampled. Qed.

(** ** binary64 rounding *)













Lemma Qabs_le_iff (x y : Q) : (Qabs x <= y)%Q <-> (- y <= x)%Q /\ (x <= y)%Q.
Proof. apply Qabs_Qle_condition. Qed.











Lemma binary64_small_int (z : Z) : Z.abs z < 2 ^ 53 -> binary64 (inject_Z z).
Proof. intros Hz. exists z, 0. split; [exact Hz|]. split; [lia|]. change (2 ^ 0)%Q with 1%Q. ring. Qed.



(** ** Conversions and [int(round(x))] *)









(** ** Claims about the progress update *)


(** With a float the quotient is not exact either.  At epoch 57.0 of 200
    the progress is the float nearest to 57/200, which is below it, the
    product with 100 is the float 28.499999999999996, and the percentage
    sent is 28, where the exact quotient gives 28.5. *)
Lemma progress_of_57_in_200 :
  let kw := mkKwargs None None None None None (mkTask "job" "task" (PyInt 0)) in
  let t := __init__ "mnist" (PyInt 200) (PyInt 1) (PyFloat 0.01) [] kw in
  let call := send_progress_update "eta" t (PyFloat 57) in
  outcome_of call = Return tt /\
  (exists p, progress (base (task_of call)) = PyFloat p /\
             (p == 5134103575202365 # 18014398509481984)%Q /\ (p < 57 / 200)%Q) /\
  (100 * (57 / 200) == 57 # 2)%Q /\
  map em_update (sent call) = [progress_update 28 "eta"].
Proof.
  cbv zeta. split; [reflexivity|]. split; [|split; reflexivity].
  eexists. split; [reflexivity|]. split; reflexivity.
Qed.



(** * Further properties of the recorder *)

(** ** What a call to save_output leaves alone *)

Lemma keys_setitem (key : string) (o : NetworkOutput) (d : table) :
  keys (setitem key o d) = if contains key d then keys d else keys d ++ [key].
Proof.
  unfold keys, contains. induction d as [|[k o'] d IH]; [reflexivity|].
  cbn [setitem getitem]. destruct (String.eqb key k); [reflexivity|].
  cbn [map]. rewrite IH. by destruct (getitem key d).
Qed.

Lemma store_value_table (d : table) (name : string) (value : pyval) :
  snd (store_value d name value) = d \/
  exists o rows,
    getitem name d = Some o /\ (length (data o) <= length rows)%nat /\
    snd (store_value d name value) = set_data name rows d.
Proof.
  unfold store_value, series_len.
  destruct (getitem "epoch" d) as [e|]; [|by left].
  destruct (getitem name d) as [o|] eqn:Ho; [|by left].
  destruct (_ >? _); [by left|].
  destruct (_ =? _).
  - destruct (last (data o)) as [row|] eqn:Hlast; [|by left].
    right. eexists o, _. split; [reflexivity|]. split; [|reflexivity].
    rewrite length_removelast_snoc; [lia|]. by eapply last_Some_nonempty.
  - destruct (_ =? _); right; eexists o, _; (split; [reflexivity|]);
      (split; [|reflexivity]); rewrite length_app; lia.
Qed.

(** A series keeps its kind and its rows are never fewer after an update of
    its list. *)
Lemma set_data_grows (key k : string) (rows : list pyval) (d : table) (o o0 : NetworkOutput) :
  getitem key d = Some o -> (length (data o) <= length rows)%nat ->
  getitem k d = Some o0 ->
  exists o', getitem k (set_data key rows d) = Some o' /\ kind o' = kind o0 /\
             (length (data o0) <= length (data o'))%nat.
Proof.
  intros Ho Hlen Hk. rewrite (getitem_set_data key k rows d o Ho).
  destruct (String.eqb_spec k key) as [->|_].
  - rewrite Ho in Hk. injection Hk as <-. eexists. split; [reflexivity|]. simpl. auto.
  - eauto.
Qed.

Lemma comparison_point_frame (current_epoch : num) (d d1 : table) (name k : string) :
  comparison_point current_epoch d name k = Return d1 ->
  (forall key, key <> "epoch" -> key <> name -> getitem key d1 = getitem key d) /\
  (forall key o, getitem key d = Some o ->
     exists o', getitem key d1 = Some o' /\ kind o' = kind o /\
                (length (data o) <= length (data o'))%nat) /\
  (exists added, keys d1 = keys d ++ added /\
                 forall key, In key added ->
                   (key = "epoch" \/ key = name) /\ getitem key d = None).
Proof.
  unfold comparison_point.
  destruct (update_epoch current_epoch d) as [d0|] eqn:Hup; [|discriminate].
  intros [= <-].
  assert (H0 : (forall key, key <> "epoch" -> getitem key d0 = getitem key d) /\
               (forall key o, getitem key d = Some o ->
                  exists o', getitem key d0 = Some o' /\ kind o' = kind o /\
                             (length (data o) <= length (data o'))%nat) /\
               (exists added, keys d0 = keys d ++ added /\
                              forall key, In key added ->
                                key = "epoch" /\ getitem key d = None)).
  { unfold update_epoch in Hup. destruct (getitem "epoch" d) as [e|] eqn:He.
    - destruct (last (data e)) as [row|]; [|discriminate].
      destruct (negb _); injection Hup as <-.
      + split; [intros key Hk; apply getitem_set_data_ne; congruence|].
        split; [|exists []; rewrite keys_set_data, app_nil_r; split; [done|intros ? []]].
        intros key o Hget. eapply set_data_grows; eauto. rewrite length_app. lia.
      + split; [done|]. split; [eauto|].
        exists []. rewrite app_nil_r. split; [done|intros ? []].
    - injection Hup as <-.
      split; [intros key Hk; apply getitem_setitem_ne; congruence|].
      split.
      + intros key o Hget. rewrite getitem_setitem_ne by congruence. eauto.
      + exists ["epoch"]. rewrite keys_setitem. unfold contains. rewrite He.
        split; [done|]. intros key [<-|[]]. auto. }
  destruct H0 as (Hframe & Hgrow & added & Hkeys & Hadded).
  unfold ensure_series. destruct (contains name d0) eqn:Hc.
  - split; [auto|]. split; [auto|]. exists added. split; [done|].
    intros key Hin. destruct (Hadded key Hin). auto.
  - assert (Hnone : getitem name d0 = None).
    { unfold contains in Hc. by destruct (getitem name d0). }
    split; [|split].
    + intros key Hk Hn. rewrite getitem_setitem_ne by congruence. auto.
    + intros key o Hget. destruct (Hgrow key o Hget) as (o' & Ho' & Hkind & Hlen).
      exists o'. rewrite getitem_setitem_ne by congruence. auto.
    + exists (added ++ [name]). rewrite keys_setitem, Hc, Hkeys, app_assoc.
      split; [done|]. intros key Hin. apply in_app_iff in Hin as [Hin|[<-|[]]].
      * destruct (Hadded key Hin). auto.
      * split; [by right|]. destruct (getitem name d) as [o|] eqn:Hget; [|done].
        destruct (Hgrow name o Hget) as (o' & Ho' & _). congruence.
Qed.

(** X1.  Whatever its outcome, a call to [save_output] leaves every series
    other than 'epoch' and the one reported untouched; a series that was in
    the table is still there, with the kind it was created with and no fewer
    rows. *)
Theorem save_output_frame (current_epoch : num) (d : table) (name k : string) (value : pyval) :
  let d' := snd (save_output current_epoch d name k value) in
  (forall key, key <> "epoch" -> key <> name -> getitem key d' = getitem key d) /\
  (forall key o, getitem key d = Some o ->
     exists o', getitem key d' = Some o' /\ kind o' = kind o /\
                (length (data o) <= length (data o'))%nat).
Proof.
  unfold save_output.
  destruct (comparison_point current_epoch d name k) as [d1|] eqn:Hcp; [|cbn; eauto].
  destruct (comparison_point_frame _ _ _ _ _ Hcp) as (Hframe & Hgrow & _).
  destruct (store_value_table d1 name value) as [->|(o1 & rows & Ho1 & Hlen & ->)]; [auto|].
  cbv zeta. split.
  - intros key Hk Hn. rewrite getitem_set_data_ne by congruence. auto.
  - intros key o Hget. destruct (Hgrow key o Hget) as (o' & Ho' & Hkind & Hle).
    destruct (set_data_grows name key rows d1 o1 o' Ho1 Hlen Ho') as (o'' & Ho'' & Hk'' & Hl'').
    exists o''. split; [exact Ho''|]. split; [congruence|lia].
Qed.

Lemma save_output_frame_witness :
  let d := [("epoch", mkNetworkOutput "Epoch" [VNum (PyInt 0)]);
            ("loss", mkNetworkOutput "SoftmaxWithLoss" [VNum (PyFloat 0.9)]);
            ("accuracy", mkNetworkOutput "Accuracy" [VNum (PyFloat 0.5)])] in
  let d' := snd (save_output (PyInt 1) d "loss" "Other" (VNum (PyFloat 0.8))) in
  getitem "accuracy" d' = getitem "accuracy" d /\
  exists o', getitem "loss" d' = Some o' /\ kind o' = "SoftmaxWithLoss" /\
             (1 <= length (data o'))%nat.
Proof.
  intros d d'.
  destruct (save_output_frame (PyInt 1) d "loss" "Other" (VNum (PyFloat 0.8)))
    as [Hframe Hgrow].
  split.
  - apply Hframe; discriminate.
  - exact (Hgrow "loss" (mkNetworkOutput "SoftmaxWithLoss" [VNum (PyFloat 0.9)]) eq_refl).
Defined.

(** X2.  The keys keep their order: a call adds at most 'epoch' and the name
    reported, each only when the table did not have it, at the end, and
    moves or removes no key. *)
Theorem save_output_keeps_key_order (current_epoch : num) (d : table)
    (name k : string) (value : pyval) :
  exists added,
    keys (snd (save_output current_epoch d name k value)) = keys d ++ added /\
    forall key, In key added ->
      (key = "epoch" \/ key = name) /\ contains key d = false.
Proof.
  unfold save_output.
  destruct (comparison_point current_epoch d name k) as [d1|] eqn:Hcp.
  - destruct (comparison_point_frame _ _ _ _ _ Hcp) as (_ & _ & added & Hkeys & Hadded).
    assert (Hsame : keys (snd (store_value d1 name value)) = keys d1).
    { destruct (store_value_table d1 name value) as [->|(o1 & rows & _ & _ & ->)];
        [done|apply keys_set_data]. }
    exists added. rewrite Hsame. split; [exact Hkeys|].
    intros key Hin. destruct (Hadded key Hin) as [Hwhich Hnone].
    split; [exact Hwhich|]. unfold contains. by rewrite Hnone.
  - exists []. rewrite app_nil_r. split; [done|]. intros key [].
Qed.

(** X3.  An 'epoch' series without rows makes the call fail at line 197
    with an [IndexError], before anything is changed. *)
Theorem save_output_empty_epoch_series (current_epoch : num) (d : table)
    (name k : string) (value : pyval) (e : NetworkOutput) :
  getitem "epoch" d = Some e -> data e = [] ->
  save_output current_epoch d name k value = (Raise IndexError, d).
Proof.
  intros He Hnil. unfold save_output, comparison_point, update_epoch.
  by rewrite He, Hnil.
Qed.

Lemma save_output_empty_epoch_series_witness :
  let d := [("epoch", mkNetworkOutput "Epoch" []);
            ("loss", mkNetworkOutput "SoftmaxWithLoss" [])] in
  (getitem "epoch" d = Some (mkNetworkOutput "Epoch" []) /\
   data (mkNetworkOutput "Epoch" []) = []) /\
  save_output (PyInt 0) d "loss" "SoftmaxWithLoss" (VNum (PyFloat 0.9)) = (Raise IndexError, d).
Proof.
  intros d. split; [split; reflexivity|].
  apply (save_output_empty_epoch_series (PyInt 0) d "loss" "SoftmaxWithLoss"
           (VNum (PyFloat 0.9)) (mkNetworkOutput "Epoch" [])); reflexivity.
Defined.

(** ** The 'epoch' series along a run *)

Lemma store_value_epoch_rows (d : table) (name : string) (value : pyval) :
  name <> "epoch" ->
  getitem "epoch" (snd (store_value d name value)) = getitem "epoch" d.
Proof.
  intros Hne.
  destruct (store_value_table d name value) as [->|(o & rows & _ & _ & ->)]; [done|].
  by apply getitem_set_data_ne.
Qed.

Lemma save_output_epoch_rows (current_epoch : num) (d : table)
    (name k : string) (value : pyval) :
  name <> "epoch" ->
  (contains "epoch" d = true -> epoch_rows d <> []) ->
  epoch_rows (snd (save_output current_epoch d name k value)) =
    opened_rows (epoch_rows d) [current_epoch].
Proof.
  intros Hne Hrows. unfold save_output, comparison_point, update_epoch, epoch_rows in *.
  unfold contains in Hrows. cbn [opened_rows].
  assert (Hens : forall d0, getitem "epoch" (ensure_series name k d0) = getitem "epoch" d0).
  { intros d0. unfold ensure_series. destruct (contains name d0); [done|].
    by apply getitem_setitem_ne. }
  destruct (getitem "epoch" d) as [e|] eqn:He.
  - destruct (last (data e)) as [row|] eqn:Hlast.
    + destruct (py_eqb row (VNum current_epoch)); cbn [negb];
        rewrite store_value_epoch_rows, Hens by done.
      * by rewrite He.
      * by rewrite (getitem_set_data_eq "epoch" _ d e He).
    + exfalso. apply Hrows; [done|]. destruct (data e) as [|a rows]; [done|].
      destruct (last_nonempty (a :: rows)) as [y Hy]; [done|congruence].
  - rewrite store_value_epoch_rows, Hens, getitem_setitem_eq by done. reflexivity.
Qed.

Lemma opened_rows_app (rows : list pyval) (epochs epochs' : list num) :
  opened_rows rows (epochs ++ epochs') = opened_rows (opened_rows rows epochs) epochs'.
Proof.
  revert rows. induction epochs as [|x epochs IH]; intros rows; [reflexivity|].
  cbn [app opened_rows]. destruct (last rows) as [row|]; [destruct (py_eqb _ _)|]; apply IH.
Qed.

Lemma opened_rows_nonempty (rows : list pyval) (epochs : list num) :
  rows <> [] \/ epochs <> [] -> opened_rows rows epochs <> [].
Proof.
  revert rows. induction epochs as [|x epochs IH]; intros rows Hne.
  - by destruct Hne.
  - cbn [opened_rows]. destruct (last rows) as [row|] eqn:Hlast.
    + destruct (py_eqb _ _); apply IH; left; [by eapply last_Some_nonempty|].
      by destruct rows.
    + apply IH. left. by destruct rows.
Qed.

Lemma distinct_neighbours_snoc (rows : list pyval) (row x : pyval) :
  distinct_neighbours rows -> last rows = Some row -> py_eqb row x = false ->
  distinct_neighbours (rows ++ [x]).
Proof.
  induction rows as [|a rows IH]; [discriminate|].
  destruct rows as [|b rows]; cbn [app distinct_neighbours].
  - intros _ [= ->] Hneq. auto.
  - intros [Hab Hrest] Hlast Hneq. split; [exact Hab|]. apply IH; auto.
Qed.

Lemma opened_rows_distinct (rows : list pyval) (epochs : list num) :
  distinct_neighbours rows -> distinct_neighbours (opened_rows rows epochs).
Proof.
  revert rows. induction epochs as [|x epochs IH]; intros rows Hd; [exact Hd|].
  cbn [opened_rows]. destruct (last rows) as [row|] eqn:Hlast.
  - destruct (py_eqb row (VNum x)) eqn:Heq; apply IH; [exact Hd|].
    by eapply distinct_neighbours_snoc.
  - apply IH. destruct rows as [|a rows]; [exact I|].
    destruct (last_nonempty (a :: rows)) as [y Hy]; [done|congruence].
Qed.

(** X4.  Along a run of reports on a new table, none of them for the name
    'epoch', the 'epoch' series depends on the epochs reported only: each
    report opens a row for its epoch unless that epoch equals the last row.
    So no row equals its neighbour, and the calls that raise open their row
    like the others. *)
Theorem save_outputs_epoch_series (reports : list report) :
  Forall (fun r => metric r <> "epoch") reports ->
  epoch_rows (snd (save_outputs [] reports)) = opened_rows [] (map at_epoch reports) /\
  distinct_neighbours (epoch_rows (snd (save_outputs [] reports))).
Proof.
  intros Hnames.
  assert (Hgen : forall d,
            (contains "epoch" d = true -> epoch_rows d <> []) ->
            epoch_rows (snd (save_outputs d reports)) =
              opened_rows (epoch_rows d) (map at_epoch reports)).
  { induction Hnames as [|r reports Hr Hnames IH]; intros d Hd; [reflexivity|].
    cbn [save_outputs map].
    pose proof (save_output_epoch_rows (at_epoch r) d (metric r) (metric_kind r)
                  (reading r) Hr Hd) as Hcall.
    destruct (save_output (at_epoch r) d (metric r) (metric_kind r) (reading r))
      as [res d1]. cbn [snd] in Hcall.
    specialize (IH d1). destruct (save_outputs d1 reports) as [ress d2]. cbn [snd] in *.
    rewrite IH.
    - rewrite Hcall. change (at_epoch r :: map at_epoch reports)
        with ([at_epoch r] ++ map at_epoch reports). by rewrite opened_rows_app.
    - intros _. rewrite Hcall. apply opened_rows_nonempty. by right. }
  rewrite Hgen by discriminate. split; [reflexivity|].
  by apply opened_rows_distinct.
Qed.

Lemma save_outputs_epoch_series_witness :
  let reports :=
    [mkReport (PyInt 0) "loss" "SoftmaxWithLoss" (VNum (PyFloat 0.9));
     mkReport (PyFloat 0) "accuracy" "Accuracy" (VNum (PyFloat 0.5));
     mkReport (PyInt 1) "loss" "SoftmaxWithLoss" (VNum (PyFloat 0.8))] in
  Forall (fun r => metric r <> "epoch") reports /\
  epoch_rows (snd (save_outputs [] reports)) = [VNum (PyInt 0); VNum (PyInt 1)] /\
  distinct_neighbours (epoch_rows (snd (save_outputs [] reports))).
Proof.
  intros reports.
  assert (Hnames : Forall (fun r => metric r <> "epoch") reports).
  { repeat constructor; discriminate. }
  split; [exact Hnames|].
  destruct (save_outputs_epoch_series reports Hnames) as [Hrows Hdistinct].
  split; [rewrite Hrows; reflexivity|exact Hdistinct].
Defined.

(** ** The progress update at its edges *)







(** ** Loading a pickled state *)

(** X7.  [__setstate__] fails in one case only: a state older than version
    2 with a non-empty [train_loss_updates] and [lr_updates] missing or
    [None]; the error is then a [TypeError].  Every other state loads. *)
Theorem setstate_fails_exactly_when (state : State) :
  ((exists e, __setstate__ state = Raise e) <->
   st_pickver_task_train state < 2 /\
   truthy (pop (st_train_loss_updates state)) = true /\
   pop (st_lr_updates state) = UNone) /\
  (forall e, __setstate__ state = Raise e -> e = TypeError).
Proof.
  unfold __setstate__, upgrade.
  destruct (upgrade_val_returns (pop (st_val_loss_updates state))
              (pop (st_val_accuracy_updates state))) as [val_outputs Hval].
  cbv zeta in Hval |- *. rewrite Hval. clear Hval.
  destruct (Z.ltb_spec (st_pickver_task_train state) 2) as [Hver|Hver].
  - destruct (pop (st_train_loss_updates state)) as [|[|p ps]]; cbn [truthy].
    + split; [split; [intros [e [=]]|intros (_ & [=] & _)]|intros e [=]].
    + split; [split; [intros [e [=]]|intros (_ & [=] & _)]|intros e [=]].
    + destruct (pop (st_lr_updates state)) as [|lrs]; cbn.
      * split; [split; [auto|eauto]|by intros e [= <-]].
      * split; [split; [intros [e [=]]|intros (_ & _ & [=])]|intros e [=]].
  - split; [split; [intros [e [=]]|intros (Hlt & _); lia]|intros e [=]].
Qed.

(** X8.  A state that loads is stamped with version 2, whatever its version
    was, and loading the loaded state again gives the same object.  A state
    of version 2 or later keeps its tables and its version-1 lists as they
    are. *)
Theorem setstate_is_idempotent (state : State) (loaded : Loaded) :
  __setstate__ state = Return loaded ->
  st_pickver_task_train (attributes loaded) = 2 /\
  __setstate__ (attributes loaded) = Return loaded /\
  (2 <= st_pickver_task_train state ->
   st_train_outputs (attributes loaded) = st_train_outputs state /\
   st_val_outputs (attributes loaded) = st_val_outputs state /\
   st_train_loss_updates (attributes loaded) = st_train_loss_updates state /\
   st_val_loss_updates (attributes loaded) = st_val_loss_updates state /\
   st_val_accuracy_updates (attributes loaded) = st_val_accuracy_updates state /\
   st_lr_updates (attributes loaded) = st_lr_updates state).
Proof.
  unfold __setstate__.
  destruct (upgrade state) as [state'|] eqn:Hup; [|discriminate].
  intros [= <-]. cbn [attributes].
  assert (Hver : st_pickver_task_train state' = 2).
  { unfold upgrade in Hup. destruct (_ <? 2).
    - repeat match type of Hup with
             | match ?x with _ => _ end = _ => destruct x; try discriminate
             end.
      by injection Hup as <-.
    - by injection Hup as <-. }
  split; [exact Hver|]. split.
  - unfold upgrade at 1. rewrite Hver. cbn. by destruct state'; cbn in *; subst.
  - intros Hnew. unfold upgrade in Hup.
    assert ((st_pickver_task_train state <? 2) = false) as Hge by lia.
    rewrite Hge in Hup. by injection Hup as <-.
Qed.

Lemma setstate_is_idempotent_witness :
  let tables := [("epoch", mkNetworkOutput "Epoch" [VNum (PyInt 0)]);
                 ("loss", mkNetworkOutput "SoftmaxWithLoss" [VNum (PyFloat 0.9)])] in
  let state :=
    mkState 3 None None None None (Some tables) (Some [])
      (PyInt 0) (PyInt 30) None (mkTask "job" "task" (PyInt 0)) in
  let loaded :=
    mkLoaded
      (mkState 2 None None None None (Some tables) (Some [])
         (PyInt 0) (PyInt 30) None (mkTask "job" "task" (PyInt 0))) [] None in
  __setstate__ state = Return loaded /\
  st_pickver_task_train (attributes loaded) = 2 /\
  __setstate__ (attributes loaded) = Return loaded.
Proof.
  intros tables state loaded. split; [reflexivity|].
  destruct (setstate_is_idempotent state loaded eq_refl) as (Hver & Hagain & _).
  split; [exact Hver|exact Hagain].
Defined.

Lemma store_series_well_formed (key k : string) (rows : list pyval) (d : table) (e : NetworkOutput) :
  well_formed d -> getitem "epoch" d = Some e -> key <> "epoch" ->
  (length rows <= length (data e))%nat ->
  well_formed (setitem key (mkNetworkOutput k rows) d).
Proof.
  unfold well_formed. intros Hwf He Hkey Hlen. rewrite He in Hwf.
  rewrite getitem_setitem_ne, He by done. destruct Hwf as [Hne Hall].
  split; [exact Hne|]. intros key' o.
  destruct (String.eqb_spec key key') as [<-|Hk].
  - rewrite getitem_setitem_eq. by intros [= <-].
  - rewrite getitem_setitem_ne by done. apply Hall.
Qed.

(** X9.  When a version-1 state loads and holds no more learning rates
    than training losses and no more validation accuracies than validation
    losses, both tables it gets are well-formed: empty, or with a non-empty
    'epoch' series that no series exceeds.  Reports on them later on never
    fail with the error of line 207 or an [IndexError]. *)
Theorem upgraded_tables_are_well_formed (state : State) (loaded : Loaded) :
  st_pickver_task_train state < 2 ->
  (length (pairs_of (pop (st_lr_updates state))) <=
   length (pairs_of (pop (st_train_loss_updates state))))%nat ->
  (length (pairs_of (pop (st_val_accuracy_updates state))) <=
   length (pairs_of (pop (st_val_loss_updates state))))%nat ->
  __setstate__ state = Return loaded ->
  exists train_outputs val_outputs,
    st_train_outputs (attributes loaded) = Some train_outputs /\
    st_val_outputs (attributes loaded) = Some val_outputs /\
    well_formed train_outputs /\ well_formed val_outputs /\
    forall d reports,
      d = train_outputs \/ d = val_outputs ->
      Forall (fun r => r <> Raise OutOfOrderUpdate /\ r <> Raise IndexError)
             (fst (save_outputs d reports)).
Proof.
  intros Hver Hlr Hva. unfold __setstate__, upgrade.
  assert ((st_pickver_task_train state <? 2) = true) as -> by lia.
  assert (Hbase : forall ps p,
            well_formed [("epoch", mkNetworkOutput "Epoch" (map fst (p :: ps)));
                         ("loss", mkNetworkOutput "SoftmaxWithLoss" (map snd (p :: ps)))]).
  { intros ps p. unfold well_formed. cbn [getitem String.eqb Ascii.eqb Bool.eqb data].
    split; [done|]. intros key o. cbn [getitem].
    destruct (String.eqb key "epoch"); [by intros [= <-]|].
    destruct (String.eqb key "loss"); [|discriminate].
    intros [= <-]. simpl. by rewrite !length_map. }
  assert (Hsafe : forall d, well_formed d -> forall reports,
            Forall (fun r => r <> Raise OutOfOrderUpdate /\ r <> Raise IndexError)
                   (fst (save_outputs d reports))).
  { intros d Hwf reports.
    destruct (save_outputs_well_formed reports d Hwf) as [_ Hall].
    eapply Forall_impl; [exact Hall|]. intros r [[b ->]| ->]; split; discriminate. }
  assert (Hval : exists val_outputs,
            (if truthy (pop (st_val_loss_updates state)) then
               let val2 :=
                 store_series "loss" "SoftmaxWithLoss" (seconds (pop (st_val_loss_updates state)))
                   (store_series "epoch" "Epoch" (firsts (pop (st_val_loss_updates state)))
                      (Return [])) in
               if truthy (pop (st_val_accuracy_updates state))
               then store_series "accuracy" "Accuracy"
                      (seconds (pop (st_val_accuracy_updates state))) val2
               else val2
             else Return []) = Return val_outputs /\ well_formed val_outputs).
  { destruct (pop (st_val_loss_updates state)) as [|[|p ps]]; cbn [truthy];
      try (exists []; split; [reflexivity|apply well_formed_empty]).
    destruct (pop (st_val_accuracy_updates state)) as [|[|q qs]]; cbn [truthy];
      try (eexists; split; [reflexivity|apply Hbase]).
    eexists. split; [reflexivity|].
    eapply (store_series_well_formed "accuracy" "Accuracy" _ _ _ (Hbase ps p));
      [reflexivity|discriminate|].
    cbn [pairs_of] in Hva. cbn [data]. by rewrite !length_map. }
  destruct Hval as (val_outputs & Hval & Hwfv). cbv zeta in Hval |- *. rewrite Hval.
  destruct (pop (st_train_loss_updates state)) as [|[|p ps]]; cbn [truthy].
  - intros [= <-]. exists [], val_outputs. cbn [attributes st_train_outputs st_val_outputs].
    repeat (split; [done || apply well_formed_empty|]).
    intros d reports [-> | ->]; apply Hsafe; [apply well_formed_empty|done].
  - intros [= <-]. exists [], val_outputs. cbn [attributes st_train_outputs st_val_outputs].
    repeat (split; [done || apply well_formed_empty|]).
    intros d reports [-> | ->]; apply Hsafe; [apply well_formed_empty|done].
  - destruct (pop (st_lr_updates state)) as [|lrs]; [discriminate|].
    cbn [seconds firsts store_series]. intros [= <-].
    eexists _, val_outputs. cbn [attributes st_train_outputs st_val_outputs].
    assert (Hwft : well_formed
              (setitem "learning_rate" (mkNetworkOutput "LearningRate" (map snd lrs))
                 (setitem "loss" (mkNetworkOutput "SoftmaxWithLoss" (map snd (p :: ps)))
                    (setitem "epoch" (mkNetworkOutput "Epoch" (map fst (p :: ps))) [])))).
    { eapply (store_series_well_formed "learning_rate" "LearningRate" _ _ _ (Hbase ps p));
        [reflexivity|discriminate|].
      cbn [pairs_of] in Hlr. cbn [data]. by rewrite !length_map. }
    split; [reflexivity|]. split; [reflexivity|]. split; [exact Hwft|]. split; [exact Hwfv|].
    intros d reports [-> | ->]; by apply Hsafe.
Qed.

Lemma upgraded_tables_are_well_formed_witness :
  let state :=
    mkState 1
      (Some (UList [(VNum (PyInt 0), VNum (PyFloat 1.0)); (VNum (PyInt 1), VNum (PyFloat 0.8))]))
      (Some (UList [(VNum (PyInt 1), VNum (PyFloat 0.7))]))
      (Some (UList [(VNum (PyInt 1), VNum (PyFloat 0.9))]))
      (Some (UList [(VNum (PyInt 0), VNum (PyFloat 0.01)); (VNum (PyInt 1), VNum (PyFloat 0.01))]))
      None None (PyInt 1) (PyInt 30) None (mkTask "job" "task" (PyInt 0)) in
  exists loaded,
    __setstate__ state = Return loaded /\
    exists train_outputs val_outputs,
      st_train_outputs (attributes loaded) = Some train_outputs /\
      st_val_outputs (attributes loaded) = Some val_outputs /\
      well_formed train_outputs /\ well_formed val_outputs /\
      forall d reports,
        d = train_outputs \/ d = val_outputs ->
        Forall (fun r => r <> Raise OutOfOrderUpdate /\ r <> Raise IndexError)
               (fst (save_outputs d reports)).
Proof.
  intros state. eexists. split; [reflexivity|].
  apply (upgraded_tables_are_well_formed state); [reflexivity|simpl; lia|simpl; lia|reflexivity].
Defined.

(** ** The loss and accuracy graphs *)

Lemma plotted_iff (skipped : list string) (wanted : NetworkOutput -> bool)
    (d : table) (name : string) (o : NetworkOutput) :
  In (name, o) (plotted skipped wanted d) <->
  In (name, o) d /\ contains "epoch" d = true /\ name_in name skipped = false /\
  wanted o = true.
Proof.
  unfold plotted, contains. destruct (getitem "epoch" d) as [e|].
  - rewrite filter_In. cbn [fst snd]. rewrite andb_true_iff, negb_true_iff. tauto.
  - split; [intros []|]. intros (_ & [=] & _).
Qed.

Lemma fold_add_series_no_axes (tag : string) (stride : nat) (skipped : list string)
    (wanted y2 : NetworkOutput -> bool) (d : table) (g : graph) (added : bool) :
  axes g = None ->
  axes (fst (fold_left (add_series tag stride skipped wanted y2) d (g, added))) = None.
Proof.
  revert g added. induction d as [|[name o] d IH]; intros g added Hg; [exact Hg|].
  cbn [fold_left add_series]. destruct (negb _ && wanted o); [|by apply IH].
  apply IH. cbn [axes]. rewrite Hg. by destruct (y2 o).
Qed.

Lemma graph_side_no_axes (tag : string) (skipped : list string)
    (wanted y2 : NetworkOutput -> bool) (d : table) (g : graph) :
  axes g = None -> axes (graph_side tag skipped wanted y2 d g) = None.
Proof.
  intros Hg. rewrite graph_side_unfold. destruct (getitem "epoch" d) as [e|]; [|exact Hg].
  cbv zeta.
  pose proof (fold_add_series_no_axes tag (stride_of (data e)) skipped wanted y2 d g false Hg).
  by destruct (snd _).
Qed.

(** A side that plots a series has a column for it and the x-axis column. *)
Lemma side_columns_length (tag : string) (skipped : list string)
    (wanted : NetworkOutput -> bool) (d : table) :
  length (side_columns tag skipped wanted d) =
    match plotted skipped wanted d with
    | [] => 0%nat
    | items => S (length items)
    end.
Proof.
  unfold side_columns. destruct (plotted skipped wanted d) as [|item items]; [reflexivity|].
  rewrite length_app, length_map. cbn [length]. lia.
Qed.

Lemma two_sides_length (wanted : NetworkOutput -> bool) (train_outputs val_outputs : table) :
  plotted ["epoch"; "learning_rate"] wanted train_outputs <> [] \/
  plotted ["epoch"] wanted val_outputs <> [] ->
  (2 <= length (side_columns "train" ["epoch"; "learning_rate"] wanted train_outputs ++
                side_columns "val" ["epoch"] wanted val_outputs))%nat.
Proof.
  rewrite length_app, !side_columns_length.
  intros [H|H]; destruct (plotted _ _ train_outputs), (plotted _ _ val_outputs);
    cbn [length]; try done; lia.
Qed.

(** The payload of a formatter that loops over both tables with one test:
    there is none exactly when neither table has a series to plot. *)
Lemma two_sided_payload (wanted y2 : NetworkOutput -> bool) (train_outputs val_outputs : table) :
  let g0 := mkGraph [] ∅ None ∅ in
  let train := plotted ["epoch"; "learning_rate"] wanted train_outputs in
  let val := plotted ["epoch"] wanted val_outputs in
  match nonempty_graph
          (graph_side "val" ["epoch"] wanted y2 val_outputs
             (graph_side "train" ["epoch"; "learning_rate"] wanted y2 train_outputs g0)) with
  | None => train = [] /\ val = []
  | Some g =>
      (train <> [] \/ val <> []) /\
      columns g =
        side_columns "train" ["epoch"; "learning_rate"] wanted train_outputs ++
        side_columns "val" ["epoch"] wanted val_outputs /\
      axes g = None
  end.
Proof.
  intros g0 train val. unfold nonempty_graph.
  set (g2 := graph_side "val" _ _ _ _ _).
  assert (Hcols : columns g2 =
            side_columns "train" ["epoch"; "learning_rate"] wanted train_outputs ++
            side_columns "val" ["epoch"] wanted val_outputs).
  { unfold g2. by rewrite !graph_side_columns. }
  destruct (columns g2) as [|c cs] eqn:Hg2.
  - symmetry in Hcols. apply app_eq_nil in Hcols as [Htrain Hval].
    unfold side_columns in Htrain, Hval. fold train in Htrain. fold val in Hval.
    destruct train; [|by destruct (map _ _)].
    destruct val; [done|by destruct (map _ _)].
  - split; [|split; [by rewrite Hg2|unfold g2; by do 2 apply graph_side_no_axes]].
    unfold side_columns in Hcols. fold train val in Hcols.
    destruct train; [|by left]. destruct val; [discriminate Hcols|by right].
Qed.

(** X10.  [loss_graph_data] plots, from a table with an 'epoch' series, the
    series whose kind in lower case contains "loss" (but never 'epoch', nor
    'learning_rate' of [train_outputs]): one column each in table order,
    then the x-axis column of that side.  Its dict has no 'axes'.  It
    returns [None] exactly when there is no such series in either table;
    otherwise the dict has at least two columns. *)
Theorem loss_graph_plots (train_outputs val_outputs : table) :
  let train := plotted ["epoch"; "learning_rate"] loss_kind train_outputs in
  let val := plotted ["epoch"] loss_kind val_outputs in
  (forall name o,
     In (name, o) train <->
     In (name, o) train_outputs /\ contains "epoch" train_outputs = true /\
     (name <> "epoch" /\ name <> "learning_rate") /\
     substring_in "loss" (lower (kind o)) = true) /\
  (forall name o,
     In (name, o) val <->
     In (name, o) val_outputs /\ contains "epoch" val_outputs = true /\
     name <> "epoch" /\ substring_in "loss" (lower (kind o)) = true) /\
  (loss_graph_data train_outputs val_outputs = None <-> train = [] /\ val = []) /\
  match loss_graph_data train_outputs val_outputs with
  | None => train = [] /\ val = []
  | Some g =>
      (train <> [] \/ val <> []) /\
      columns g =
        side_columns "train" ["epoch"; "learning_rate"] loss_kind train_outputs ++
        side_columns "val" ["epoch"] loss_kind val_outputs /\
      (2 <= length (columns g))%nat /\
      axes g = None
  end.
Proof.
  intros train val. split; [|split].
  - intros name o. unfold train. rewrite plotted_iff. cbn [name_in existsb].
    rewrite orb_false_r, orb_false_iff, !String.eqb_neq. unfold loss_kind. tauto.
  - intros name o. unfold val. rewrite plotted_iff. cbn [name_in existsb].
    rewrite orb_false_r, String.eqb_neq. unfold loss_kind. tauto.
  - pose proof (two_sided_payload loss_kind no_kind train_outputs val_outputs) as Hp.
    cbv zeta in Hp. fold (loss_graph_data train_outputs val_outputs) train val in Hp.
    destruct (loss_graph_data train_outputs val_outputs) as [g|].
    + destruct Hp as (Hsome & Hcols & Haxes). split.
      * split; [discriminate|]. intros [Ht Hv]. destruct Hsome; congruence.
      * split; [exact Hsome|]. split; [exact Hcols|]. split; [|exact Haxes].
        rewrite Hcols. by apply two_sides_length.
    + split; [|exact Hp]. split; [by intros _|reflexivity].
Qed.

(** X11.  [accuracy_graph_data] plots the series whose kind is exactly
    'Accuracy', under the same rules; a kind such as 'accuracy' or
    'Top5Accuracy' is left out.  It returns [None] exactly when neither
    table has such a series. *)
Theorem accuracy_graph_plots (train_outputs val_outputs : table) :
  let train := plotted ["epoch"; "learning_rate"] is_Accuracy train_outputs in
  let val := plotted ["epoch"] is_Accuracy val_outputs in
  (forall name o,
     In (name, o) train <->
     In (name, o) train_outputs /\ contains "epoch" train_outputs = true /\
     (name <> "epoch" /\ name <> "learning_rate") /\ kind o = "Accuracy") /\
  (forall name o,
     In (name, o) val <->
     In (name, o) val_outputs /\ contains "epoch" val_outputs = true /\
     name <> "epoch" /\ kind o = "Accuracy") /\
  (accuracy_graph_data train_outputs val_outputs = None <-> train = [] /\ val = []) /\
  match accuracy_graph_data train_outputs val_outputs with
  | None => train = [] /\ val = []
  | Some g =>
      (train <> [] \/ val <> []) /\
      columns g =
        side_columns "train" ["epoch"; "learning_rate"] is_Accuracy train_outputs ++
        side_columns "val" ["epoch"] is_Accuracy val_outputs /\
      (2 <= length (columns g))%nat /\
      axes g = None
  end.
Proof.
  intros train val. split; [|split].
  - intros name o. unfold train. rewrite plotted_iff. cbn [name_in existsb].
    rewrite orb_false_r, orb_false_iff, !String.eqb_neq. unfold is_Accuracy.
    rewrite String.eqb_eq. tauto.
  - intros name o. unfold val. rewrite plotted_iff. cbn [name_in existsb].
    rewrite orb_false_r, String.eqb_neq. unfold is_Accuracy. rewrite String.eqb_eq. tauto.
  - pose proof (two_sided_payload is_Accuracy no_kind train_outputs val_outputs) as Hp.
    cbv zeta in Hp. fold (accuracy_graph_data train_outputs val_outputs) train val in Hp.
    destruct (accuracy_graph_data train_outputs val_outputs) as [g|].
    + destruct Hp as (Hsome & Hcols & Haxes). split.
      * split; [discriminate|]. intros [Ht Hv]. destruct Hsome; congruence.
      * split; [exact Hsome|]. split; [exact Hcols|]. split; [|exact Haxes].
        rewrite Hcols. by apply two_sides_length.
    + split; [|exact Hp]. split; [by intros _|reflexivity].
Qed.

Lemma side_columns_every_kind (tag : string) (skipped : list string)
    (wanted : NetworkOutput -> bool) (d : table) (c : column) :
  In c (side_columns tag skipped wanted d) ->
  In c (side_columns tag skipped every_kind d).
Proof.
  assert (Hsub : forall item, In item (plotted skipped wanted d) ->
                              In item (plotted skipped every_kind d)).
  { intros [name o]. rewrite !plotted_iff. unfold every_kind. tauto. }
  unfold side_columns.
  destruct (plotted skipped wanted d) as [|item items] eqn:Hw; [intros []|].
  destruct (plotted skipped every_kind d) as [|item' items'] eqn:He.
  - destruct (Hsub item). by left.
  - rewrite !in_app_iff, !in_map_iff. intros [(it & <- & Hin)|Hx]; [left|by right].
    exists it. split; [reflexivity|]. by apply Hsub.
Qed.

(** X12.  Every column of the loss graph and of the accuracy graph is a
    column of the combined graph, with the same id and the same points. *)
Theorem combined_graph_has_loss_and_accuracy_columns
    (train_outputs val_outputs : table) (c : column) :
  In c (emitted loss_graph_formatter train_outputs val_outputs) \/
  In c (emitted accuracy_graph_formatter train_outputs val_outputs) ->
  In c (emitted combined_graph_formatter train_outputs val_outputs).
Proof.
  assert (Hany : forall wanted,
            In c (side_columns "train" ["epoch"; "learning_rate"] wanted train_outputs ++
                  side_columns "val" ["epoch"] wanted val_outputs) ->
            In c (emitted combined_graph_formatter train_outputs val_outputs)).
  { intros wanted Hin.
    assert (Hc : In c (side_columns "train" ["epoch"; "learning_rate"] every_kind train_outputs ++
                       side_columns "val" ["epoch"] every_kind val_outputs)).
    { apply in_app_iff. apply in_app_iff in Hin as [Hin|Hin];
        [left|right]; by eapply side_columns_every_kind. }
    unfold emitted, payload.
    unfold combined_graph_data, nonempty_graph.
    set (g2 := graph_side "val" _ _ _ _ _).
    assert (Hcols : columns g2 =
              side_columns "train" ["epoch"; "learning_rate"] every_kind train_outputs ++
              side_columns "val" ["epoch"] every_kind val_outputs).
    { unfold g2. by rewrite !graph_side_columns. }
    rewrite <- Hcols in Hc. destruct (columns g2) eqn:Hg2; [destruct Hc|]. by rewrite Hg2. }
  unfold emitted at 1 2, payload. intros [Hin|Hin].
  - pose proof (two_sided_payload loss_kind no_kind train_outputs val_outputs) as Hp.
    cbv zeta in Hp. fold (loss_graph_data train_outputs val_outputs) in Hp.
    destruct (loss_graph_data train_outputs val_outputs) as [g|]; [|destruct Hin].
    destruct Hp as (_ & Hcols & _). rewrite Hcols in Hin. by eapply Hany.
  - pose proof (two_sided_payload is_Accuracy no_kind train_outputs val_outputs) as Hp.
    cbv zeta in Hp. fold (accuracy_graph_data train_outputs val_outputs) in Hp.
    destruct (accuracy_graph_data train_outputs val_outputs) as [g|]; [|destruct Hin].
    destruct Hp as (_ & Hcols & _). rewrite Hcols in Hin. by eapply Hany.
Qed.

Lemma combined_graph_has_loss_and_accuracy_columns_witness :
  let train_outputs :=
    [("epoch", mkNetworkOutput "Epoch" [VNum (PyInt 0)]);
     ("loss", mkNetworkOutput "SoftmaxWithLoss" [VNum (PyFloat 0.9)])] in
  let c := mkColumn "loss-train" [VNum (PyFloat 0.9)] in
  In c (emitted loss_graph_formatter train_outputs []) /\
  In c (emitted combined_graph_formatter train_outputs []).
Proof.
  intros train_outputs c.
  assert (Hc : In c (emitted loss_graph_formatter train_outputs [])) by (left; reflexivity).
  split; [exact Hc|].
  exact (combined_graph_has_loss_and_accuracy_columns train_outputs [] c (or_introl Hc)).
Defined.

(** ** What down-sampling keeps *)

Lemma slice_points_bounds (epoch_len n : nat) (l : list pyval) :
  length l = n -> (n <= epoch_len)%nat ->
  let points := slice_step (Nat.max (epoch_len / 100) 1) l in
  (length points <= 199)%nat /\
  (epoch_len < 200 -> points = l)%nat /\
  (n = epoch_len -> 100 <= n -> 100 <= length points)%nat.
Proof.
  intros Hlen Hle points. subst points.
  set (s := Nat.max (epoch_len / 100) 1).
  assert (Hs : (1 <= s)%nat) by (unfold s; lia).
  assert (Hdiv : (100 * (epoch_len / 100) <= epoch_len < 100 * (epoch_len / 100) + 100)%nat).
  { pose proof (Nat.div_mod epoch_len 100 ltac:(lia)).
    pose proof (Nat.mod_upper_bound epoch_len 100 ltac:(lia)). lia. }
  split; [|split].
  - destruct l as [|x l']; [cbn; lia|].
    rewrite slice_step_length by done.
    assert (((length (x :: l') - 1) / s <= 198)%nat); [|lia].
    apply Nat.Div0.div_le_upper_bound. unfold s. nia.
  - intros Hsmall. assert (s = 1%nat) as ->; [|apply slice_step_1].
    unfold s. lia.
  - intros Heq Hbig. subst n. destruct l as [|x l']; [cbn in *; lia|].
    rewrite slice_step_length by done.
    assert ((99 <= (length (x :: l') - 1) / s)%nat); [|lia].
    assert (s = (epoch_len / 100)%nat) as Hs' by (unfold s; nia).
    apply Nat.div_le_lower_bound; [lia|]. rewrite Heq, Hs'. nia.
Qed.

Lemma In_getitem (d : table) (name : string) (o : NetworkOutput) :
  NoDup (keys d) -> In (name, o) d -> getitem name d = Some o.
Proof.
  unfold keys. induction d as [|[k o'] d IH]; [intros _ []|].
  cbn [map fst getitem]. rewrite NoDup_cons. intros [Hk Hnd] [[= -> ->]|Hin].
  - by rewrite String.eqb_refl.
  - destruct (String.eqb_spec name k) as [->|_]; [|auto].
    exfalso. apply Hk. apply list_elem_of_In. apply in_map_iff. by exists (k, o).
Qed.

(** X14.  On well-formed tables (whose keys, as in any dict, are distinct)
    every column of every payload carries at most 199 points.  Under 200
    'epoch' rows nothing is dropped, and a series as long as the 'epoch'
    series with 100 rows or more keeps at least 100 points (the "100-200
    values or fewer" of line 319). *)
Theorem emitted_columns_are_bounded (f : formatter) (train_outputs val_outputs : table)
    (c : column) :
  NoDup (keys train_outputs) -> NoDup (keys val_outputs) ->
  well_formed train_outputs -> well_formed val_outputs ->
  In c (emitted f train_outputs val_outputs) ->
  exists d e name o,
    (d = train_outputs \/ d = val_outputs) /\
    getitem "epoch" d = Some e /\ In (name, o) d /\
    (length (points c) <= 199)%nat /\
    ((length (data e) < 200)%nat -> points c = data o) /\
    (length (data o) = length (data e) -> (100 <= length (data o))%nat ->
     (100 <= length (points c))%nat).
Proof.
  intros Hndt Hndv Hwft Hwfv Hc.
  destruct (emitted_points _ _ _ _ Hc) as (d & e & name & o & Hd & He & Hin & Hpts).
  exists d, e, name, o. repeat (split; [done|]).
  assert (Hwf : well_formed d) by (by destruct Hd as [-> | ->]).
  assert (Hnd : NoDup (keys d)) by (by destruct Hd as [-> | ->]).
  assert (Hle : (length (data o) <= length (data e))%nat).
  { unfold well_formed in Hwf. rewrite He in Hwf. destruct Hwf as [_ Hall].
    apply (Hall name). by apply In_getitem. }
  rewrite Hpts. by apply (slice_points_bounds (length (data e)) (length (data o))).
Qed.

Lemma emitted_columns_are_bounded_witness :
  let rows := map (fun n => VNum (PyInt (Z.of_nat n))) (seq 0 250) in
  let train_outputs :=
    [("epoch", mkNetworkOutput "Epoch" rows);
     ("loss", mkNetworkOutput "SoftmaxWithLoss" rows)] in
  let c := mkColumn "loss-train" (slice_step 2 rows) in
  (well_formed train_outputs /\ In c (emitted combined_graph_formatter train_outputs [])) /\
  exists d e name o,
    (d = train_outputs \/ d = []) /\
    getitem "epoch" d = Some e /\ In (name, o) d /\
    (length (points c) <= 199)%nat /\
    ((length (data e) < 200)%nat -> points c = data o) /\
    (length (data o) = length (data e) -> (100 <= length (data o))%nat ->
     (100 <= length (points c))%nat).
Proof.
  intros rows train_outputs c.
  assert (Hwf : well_formed train_outputs).
  { unfold well_formed. cbn [train_outputs getitem String.eqb Ascii.eqb Bool.eqb data].
    split; [discriminate|]. intros key o. cbn [getitem].
    destruct (String.eqb key "epoch"); [by intros [= <-]|].
    destruct (String.eqb key "loss"); [by intros [= <-]|discriminate]. }
  assert (Hnd : NoDup (keys train_outputs)).
  { unfold train_outputs, keys. cbn [map fst]. apply NoDup_cons.
    split; [|apply NoDup_singleton]. rewrite list_elem_of_In. intros [H|[]]. discriminate H. }
  assert (Hc : In c (emitted combined_graph_formatter train_outputs [])) by (left; reflexivity).
  split; [split; [exact Hwf|exact Hc]|].
  exact (emitted_columns_are_bounded combined_graph_formatter train_outputs [] c
           Hnd (NoDup_nil_2 : NoDup (keys [])) Hwf well_formed_empty Hc).
Defined.

(** ** The payload as a whole *)

Section payload_facts.
Variables (tag : string) (stride : nat) (skipped : list string).
Variables (wanted y2 : NetworkOutput -> bool).

Let keep (item : string * NetworkOutput) : bool :=
  negb (name_in (fst item) skipped) && wanted (snd item).

Lemma fold_add_series_xs (d : table) (g : graph) (added : bool) :
  let g' := fst (fold_left (add_series tag stride skipped wanted y2) d (g, added)) in
  (forall id x, xs g' !! id = Some x ->
     xs g !! id = Some x \/
     x = tag +:+ "_epochs" /\
     exists item, In item (List.filter keep d) /\ id = fst item +:+ "-" +:+ tag) /\
  (forall id, is_Some (xs g !! id) -> is_Some (xs g' !! id)) /\
  (forall id, is_Some (names g !! id) -> is_Some (names g' !! id)) /\
  (forall item, In item (List.filter keep d) ->
     is_Some (xs g' !! (fst item +:+ "-" +:+ tag)) /\
     is_Some (names g' !! (fst item +:+ "-" +:+ tag))).
Proof.
  revert g added. induction d as [|[name o] d IH]; intros g added; cbn [fold_left].
  - cbn. split; [auto|]. split; [auto|]. split; [auto|]. intros ? [].
  - cbn [List.filter add_series].
    change (keep (name, o)) with (negb (name_in name skipped) && wanted o).
    destruct (negb (name_in name skipped) && wanted o); [|apply IH].
    match goal with |- context [fold_left _ d (?g1, true)] =>
      destruct (IH g1 true) as (Hfrom & Hxs & Hnames & Hitems) end.
    cbv zeta in *. cbn [xs names] in *. split; [|split; [|split]].
    + intros id x Hx. destruct (Hfrom id x Hx) as [Hold|(-> & item & Hin & ->)].
      * rewrite lookup_insert in Hold. case_decide as Hid; [|by left].
        injection Hold as <-. subst id. right. split; [done|].
        exists (name, o). split; [by left|done].
      * right. split; [done|]. exists item. split; [by right|done].
    + intros id Hsome. apply Hxs. rewrite lookup_insert. by case_decide.
    + intros id Hsome. apply Hnames. rewrite lookup_insert. by case_decide.
    + intros item [<-|Hin]; [|by apply Hitems]. cbn [fst]. split.
      * apply Hxs. rewrite lookup_insert_eq. eauto.
      * apply Hnames. rewrite lookup_insert_eq. eauto.
Qed.
End payload_facts.

Lemma graph_side_xs (tag : string) (skipped : list string)
    (wanted y2 : NetworkOutput -> bool) (d : table) (g : graph) :
  let g' := graph_side tag skipped wanted y2 d g in
  (forall id x, xs g' !! id = Some x ->
     xs g !! id = Some x \/
     x = tag +:+ "_epochs" /\
     exists item, In item (plotted skipped wanted d) /\ id = fst item +:+ "-" +:+ tag) /\
  (forall id, is_Some (xs g !! id) -> is_Some (xs g' !! id)) /\
  (forall id, is_Some (names g !! id) -> is_Some (names g' !! id)) /\
  (forall item, In item (plotted skipped wanted d) ->
     is_Some (xs g' !! (fst item +:+ "-" +:+ tag)) /\
     is_Some (names g' !! (fst item +:+ "-" +:+ tag))).
Proof.
  cbv zeta. rewrite graph_side_unfold. unfold plotted.
  destruct (getitem "epoch" d) as [e|].
  - pose proof (fold_add_series_xs tag (stride_of (data e)) skipped wanted y2 d g false) as H.
    cbv zeta in H |- *. by destruct (snd _).
  - split; [auto|]. split; [auto|]. split; [auto|]. intros ? [].
Qed.

Lemma side_columns_cases (tag : string) (skipped : list string)
    (wanted : NetworkOutput -> bool) (d : table) (c : column) :
  In c (side_columns tag skipped wanted d) ->
  (exists item, In item (plotted skipped wanted d) /\ col_id c = fst item +:+ "-" +:+ tag) \/
  col_id c = tag +:+ "_epochs".
Proof.
  unfold side_columns. destruct (plotted skipped wanted d) as [|item items]; [intros []|].
  rewrite in_app_iff, in_map_iff. intros [(it & <- & Hin)|[<-|[]]]; [left|by right].
  by exists it.
Qed.

Lemma side_columns_of_plotted (tag : string) (skipped : list string)
    (wanted : NetworkOutput -> bool) (d : table) (item : string * NetworkOutput) :
  In item (plotted skipped wanted d) ->
  (exists c, In c (side_columns tag skipped wanted d) /\ col_id c = fst item +:+ "-" +:+ tag) /\
  (exists c, In c (side_columns tag skipped wanted d) /\ col_id c = tag +:+ "_epochs").
Proof.
  unfold side_columns. destruct (plotted skipped wanted d) as [|it items]; [intros []|].
  intros Hin. split.
  - exists (series_column tag d item). split; [|reflexivity].
    apply in_app_iff. left. by apply in_map.
  - eexists. split; [apply in_app_iff; right; by left|reflexivity].
Qed.

(** X15.  Every payload is closed: each entry of 'xs' maps the id of a
    column of the payload to the id of a column of the payload, and each
    column is either an x-axis column ("train_epochs", "val_epochs", or
    "epoch" in the learning-rate graph) or has an entry in both 'xs' and
    'names'. *)
Theorem payload_is_closed (f : formatter) (train_outputs val_outputs : table) (g : graph) :
  payload f train_outputs val_outputs = Some g ->
  (forall id x, xs g !! id = Some x ->
     (exists c, In c (columns g) /\ col_id c = id) /\
     (exists c, In c (columns g) /\ col_id c = x)) /\
  (forall c, In c (columns g) ->
     (is_Some (xs g !! col_id c) /\ is_Some (names g !! col_id c)) \/
     In (col_id c) ["train_epochs"; "val_epochs"; "epoch"]).
Proof.
  assert (Hsides : forall wanted y2 ax,
            nonempty_graph
              (graph_side "val" ["epoch"] wanted y2 val_outputs
                 (graph_side "train" ["epoch"; "learning_rate"] wanted y2 train_outputs
                    (mkGraph [] ∅ ax ∅))) = Some g ->
            (forall id x, xs g !! id = Some x ->
               (exists c, In c (columns g) /\ col_id c = id) /\
               (exists c, In c (columns g) /\ col_id c = x)) /\
            (forall c, In c (columns g) ->
               (is_Some (xs g !! col_id c) /\ is_Some (names g !! col_id c)) \/
               In (col_id c) ["train_epochs"; "val_epochs"; "epoch"])).
  { intros wanted y2 ax. unfold nonempty_graph.
    set (g0 := mkGraph [] ∅ ax ∅).
    set (g1 := graph_side "train" ["epoch"; "learning_rate"] wanted y2 train_outputs g0).
    set (g2 := graph_side "val" ["epoch"] wanted y2 val_outputs g1).
    assert (Hcols : columns g2 =
              side_columns "train" ["epoch"; "learning_rate"] wanted train_outputs ++
              side_columns "val" ["epoch"] wanted val_outputs).
    { unfold g2, g1. by rewrite !graph_side_columns. }
    destruct (columns g2) as [|c0 cs0] eqn:Hg2; [discriminate|]. intros [= <-].
    rewrite Hg2, Hcols. clear c0 cs0 Hg2 Hcols.
    destruct (graph_side_xs "train" ["epoch"; "learning_rate"] wanted y2 train_outputs g0)
      as (Hfrom1 & _ & _ & Hitems1). fold g1 in Hfrom1, Hitems1.
    destruct (graph_side_xs "val" ["epoch"] wanted y2 val_outputs g1)
      as (Hfrom2 & Hxs2 & Hnames2 & Hitems2). fold g2 in Hfrom2, Hxs2, Hnames2, Hitems2.
    split.
    - intros id x Hx.
      destruct (Hfrom2 id x Hx) as [Hx1|(-> & item & Hin & ->)].
      + destruct (Hfrom1 id x Hx1) as [Hx0|(-> & item & Hin & ->)];
          [unfold g0 in Hx0; cbn [xs] in Hx0; by rewrite lookup_empty in Hx0|].
        destruct (side_columns_of_plotted "train" _ _ _ _ Hin) as [(c & Hc & Hid) (c' & Hc' & Hid')].
        split; [exists c|exists c']; (split; [apply in_app_iff; by left|done]).
      + destruct (side_columns_of_plotted "val" _ _ _ _ Hin) as [(c & Hc & Hid) (c' & Hc' & Hid')].
        split; [exists c|exists c']; (split; [apply in_app_iff; by right|done]).
    - intros c Hc. apply in_app_iff in Hc as [Hc|Hc];
        apply side_columns_cases in Hc as [(item & Hin & Hid)|Hid]; rewrite Hid.
      + left. destruct (Hitems1 item Hin). split; [by apply Hxs2|by apply Hnames2].
      + right. by left.
      + left. by apply Hitems2.
      + right. right. by left. }
  unfold payload. destruct f; try apply Hsides.
  unfold lr_graph_data.
  destruct (getitem "epoch" train_outputs) as [e|]; [|discriminate].
  destruct (getitem "learning_rate" train_outputs) as [lr|]; [|discriminate].
  clear Hsides. intros [= <-]. cbn [columns xs names col_id]. split.
  - intros id x Hx. apply lookup_singleton_Some in Hx as [<- <-]. split.
    + exists (mkColumn "lr" (slice_step (stride_of (data e)) (data lr))).
      split; [right; by left|reflexivity].
    + exists (mkColumn "epoch" (slice_step (stride_of (data e)) (data e))).
      split; [by left|reflexivity].
  - intros c [<-|[<-|[]]]; cbn [col_id].
    + right. right. right. by left.
    + left. rewrite !lookup_singleton_eq. eauto.
Qed.

Lemma payload_is_closed_witness :
  let train_outputs :=
    [("epoch", mkNetworkOutput "Epoch" [VNum (PyInt 0)]);
     ("learning_rate", mkNetworkOutput "LearningRate" [VNum (PyFloat 0.01)])] in
  exists g,
    payload lr_graph_formatter train_outputs [] = Some g /\
    (forall id x, xs g !! id = Some x ->
       (exists c, In c (columns g) /\ col_id c = id) /\
       (exists c, In c (columns g) /\ col_id c = x)) /\
    (forall c, In c (columns g) ->
       (is_Some (xs g !! col_id c) /\ is_Some (names g !! col_id c)) \/
       In (col_id c) ["train_epochs"; "val_epochs"; "epoch"]).
Proof.
  intros train_outputs. eexists. split; [reflexivity|].
  apply (payload_is_closed lr_graph_formatter train_outputs []). reflexivity.
Defined.

(** ** Columns and their x axis *)

Lemma stride_of_positive (rows : list pyval) : (1 <= stride_of rows)%nat.
Proof. unfold stride_of. lia. Qed.

(** A plotted series has its column, and the x-axis column of its side,
    cut with the same stride. *)
Lemma side_columns_of_item (tag : string) (skipped : list string)
    (wanted : NetworkOutput -> bool) (d : table) (name : string) (o : NetworkOutput) :
  In (name, o) (plotted skipped wanted d) ->
  exists e,
    getitem "epoch" d = Some e /\ In (name, o) d /\
    In (mkColumn (name +:+ "-" +:+ tag) (slice_step (stride_of (data e)) (data o)))
       (side_columns tag skipped wanted d) /\
    In (mkColumn (tag +:+ "_epochs") (slice_step (stride_of (data e)) (data e)))
       (side_columns tag skipped wanted d).
Proof.
  intros Hin. pose proof Hin as Hd. apply plotted_iff in Hd as (Hd & He & _).
  apply contains_true in He as [e He]. exists e. split; [exact He|]. split; [exact Hd|].
  unfold side_columns, series_column, epoch_rows, stride_of. rewrite He.
  destruct (plotted skipped wanted d) as [|it items]; [destruct Hin|]. split.
  - apply in_app_iff. left.
    apply (in_map (fun item => mkColumn (fst item +:+ "-" +:+ tag)
                     (slice_step (Nat.max (length (data e) / 100) 1) (data (snd item))))
                  _ (name, o) Hin).
  - apply in_app_iff. right. by left.
Qed.

(** X13.  In every payload, an entry of 'xs' pairs a data column with the
    x-axis column of the same table.  The data column is named after a
    series of that table ("name-train", "name-val", or "lr" for
    'learning_rate') and its point [j] is row [j * stride] of that series;
    the x-axis column ("train_epochs", "val_epochs" or "epoch") has as
    point [j] row [j * stride] of the 'epoch' series of the same table,
    with the same stride: the two columns pair rows of the same index, the
    first row is always plotted, and rows are never reordered or
    repeated. *)
Theorem emitted_point_is_row (f : formatter) (train_outputs val_outputs : table)
    (g : graph) (id x_id : string) :
  payload f train_outputs val_outputs = Some g ->
  xs g !! id = Some x_id ->
  exists d e name o c cx,
    getitem "epoch" d = Some e /\ In (name, o) d /\
    (NoDup (keys d) -> getitem name d = Some o) /\
    match f with
    | lr_graph_formatter =>
        d = train_outputs /\ name = "learning_rate" /\ id = "lr" /\ x_id = "epoch"
    | _ =>
        exists tag,
          (tag = "train" /\ d = train_outputs \/ tag = "val" /\ d = val_outputs) /\
          id = name +:+ "-" +:+ tag /\ x_id = tag +:+ "_epochs"
    end /\
    In c (columns g) /\ col_id c = id /\
    In cx (columns g) /\ col_id cx = x_id /\
    forall j : nat,
      points c !! j = data o !! (j * stride_of (data e))%nat /\
      points cx !! j = data e !! (j * stride_of (data e))%nat.
Proof.
  assert (Hsides : forall wanted y2 ax,
            nonempty_graph
              (graph_side "val" ["epoch"] wanted y2 val_outputs
                 (graph_side "train" ["epoch"; "learning_rate"] wanted y2 train_outputs
                    (mkGraph [] ∅ ax ∅))) = Some g ->
            xs g !! id = Some x_id ->
            exists d e name o c cx,
              getitem "epoch" d = Some e /\ In (name, o) d /\
              (NoDup (keys d) -> getitem name d = Some o) /\
              (exists tag,
                 (tag = "train" /\ d = train_outputs \/ tag = "val" /\ d = val_outputs) /\
                 id = name +:+ "-" +:+ tag /\ x_id = tag +:+ "_epochs") /\
              In c (columns g) /\ col_id c = id /\
              In cx (columns g) /\ col_id cx = x_id /\
              forall j : nat,
                points c !! j = data o !! (j * stride_of (data e))%nat /\
                points cx !! j = data e !! (j * stride_of (data e))%nat).
  { intros wanted y2 ax. unfold nonempty_graph.
    set (g0 := mkGraph [] ∅ ax ∅).
    set (g1 := graph_side "train" ["epoch"; "learning_rate"] wanted y2 train_outputs g0).
    set (g2 := graph_side "val" ["epoch"] wanted y2 val_outputs g1).
    assert (Hcols : columns g2 =
              side_columns "train" ["epoch"; "learning_rate"] wanted train_outputs ++
              side_columns "val" ["epoch"] wanted val_outputs).
    { unfold g2, g1. by rewrite !graph_side_columns. }
    destruct (columns g2) as [|c0 cs0] eqn:Hg2; [discriminate|]. intros [= <-] Hx.
    rewrite Hg2, Hcols. clear c0 cs0 Hg2 Hcols.
    destruct (graph_side_xs "train" ["epoch"; "learning_rate"] wanted y2 train_outputs g0)
      as (Hfrom1 & _). fold g1 in Hfrom1.
    destruct (graph_side_xs "val" ["epoch"] wanted y2 val_outputs g1)
      as (Hfrom2 & _). fold g2 in Hfrom2.
    assert (Hitem : exists tag d skipped name o,
               (tag = "train" /\ d = train_outputs /\ skipped = ["epoch"; "learning_rate"] \/
                tag = "val" /\ d = val_outputs /\ skipped = ["epoch"]) /\
               In (name, o) (plotted skipped wanted d) /\
               id = name +:+ "-" +:+ tag /\ x_id = tag +:+ "_epochs").
    { destruct (Hfrom2 id x_id Hx) as [Hx1|(-> & [name o] & Hin & ->)].
      - destruct (Hfrom1 id x_id Hx1) as [Hx0|(-> & [name o] & Hin & ->)];
          [unfold g0 in Hx0; cbn [xs] in Hx0; by rewrite lookup_empty in Hx0|].
        exists "train", train_outputs, ["epoch"; "learning_rate"], name, o. auto 10.
      - exists "val", val_outputs, ["epoch"], name, o. auto 10. }
    destruct Hitem as (tag & d & skipped & name & o & Hside & Hin & -> & ->).
    destruct (side_columns_of_item tag skipped wanted d name o Hin)
      as (e & He & Hd & Hc & Hcx).
    exists d, e, name, o,
      (mkColumn (name +:+ "-" +:+ tag) (slice_step (stride_of (data e)) (data o))),
      (mkColumn (tag +:+ "_epochs") (slice_step (stride_of (data e)) (data e))).
    split; [exact He|]. split; [exact Hd|].
    split; [intros Hnd; by apply In_getitem|].
    split; [exists tag; split; [|done]; destruct Hside as [(-> & -> & _)|(-> & -> & _)]; auto|].
    cbn [col_id points].
    split; [apply in_app_iff; destruct Hside as [(-> & -> & ->)|(-> & -> & ->)]; auto|].
    split; [reflexivity|].
    split; [apply in_app_iff; destruct Hside as [(-> & -> & ->)|(-> & -> & ->)]; auto|].
    split; [reflexivity|].
    intros j. pose proof (stride_of_positive (data e)).
    by rewrite !slice_step_lookup. }
  unfold payload. destruct f; try apply Hsides.
  clear Hsides. unfold lr_graph_data.
  destruct (getitem "epoch" train_outputs) as [e|] eqn:He; [|discriminate].
  destruct (getitem "learning_rate" train_outputs) as [lr|] eqn:Hlr; [|discriminate].
  intros [= <-]. cbn [columns xs]. intros Hx.
  apply lookup_singleton_Some in Hx as [<- <-].
  exists train_outputs, e, "learning_rate", lr,
    (mkColumn "lr" (slice_step (stride_of (data e)) (data lr))),
    (mkColumn "epoch" (slice_step (stride_of (data e)) (data e))).
  split; [exact He|]. split; [by apply getitem_In|]. split; [done|]. split; [done|].
  cbn [col_id points].
  split; [right; by left|]. split; [reflexivity|]. split; [by left|]. split; [reflexivity|].
  intros j. pose proof (stride_of_positive (data e)).
  by rewrite !slice_step_lookup.
Qed.

Lemma emitted_point_is_row_witness :
  let train_outputs :=
    [("epoch", mkNetworkOutput "Epoch" [VNum (PyInt 0); VNum (PyInt 1)]);
     ("loss", mkNetworkOutput "SoftmaxWithLoss" [VNum (PyFloat 0.9); VNum (PyFloat 0.8)])] in
  exists g,
    (payload loss_graph_formatter train_outputs [] = Some g /\
     xs g !! "loss-train" = Some "train_epochs") /\
    exists d e name o c cx,
      getitem "epoch" d = Some e /\ In (name, o) d /\
      (NoDup (keys d) -> getitem name d = Some o) /\
      (exists tag,
         (tag = "train" /\ d = train_outputs \/ tag = "val" /\ d = []) /\
         "loss-train" = name +:+ "-" +:+ tag /\ "train_epochs" = tag +:+ "_epochs") /\
      In c (columns g) /\ col_id c = "loss-train" /\
      In cx (columns g) /\ col_id cx = "train_epochs" /\
      forall j : nat,
        points c !! j = data o !! (j * stride_of (data e))%nat /\
        points cx !! j = data e !! (j * stride_of (data e))%nat.
Proof.
  intros train_outputs.
  set (g := graph_side "val" ["epoch"] loss_kind no_kind []
              (graph_side "train" ["epoch"; "learning_rate"] loss_kind no_kind train_outputs
                 (mkGraph [] ∅ None ∅))).
  exists g.
  assert (Hg : payload loss_graph_formatter train_outputs [] = Some g) by reflexivity.
  assert (Hx : xs g !! "loss-train" = Some "train_epochs") by (vm_compute; reflexivity).
  split; [split; [exact Hg|exact Hx]|].
  exact (emitted_point_is_row loss_graph_formatter train_outputs [] g
           "loss-train" "train_epochs" Hg Hx).
Defined.

(** ** Reports and the messages they send *)

(** A call that returns leaves both the 'epoch' series and the series
    reported in the table. *)
Lemma save_output_returns_series (current_epoch : num) (d : table)
    (name k : string) (value : pyval) (b : bool) :
  fst (save_output current_epoch d name k value) = Return b ->
  let d' := snd (save_output current_epoch d name k value) in
  (exists e, getitem "epoch" d' = Some e) /\ (exists o, getitem name d' = Some o).
Proof.
  unfold save_output.
  destruct (comparison_point current_epoch d name k) as [d1|] eqn:Hcp; [|discriminate].
  destruct (comparison_point_reached _ _ _ _ _ Hcp) as (e & o & He & _ & Ho).
  intros _. cbv zeta.
  destruct (store_value_table d1 name value) as [->|(o1 & rows & Ho1 & Hlen & ->)]; [eauto|].
  destruct (set_data_grows name "epoch" rows d1 o1 e Ho1 Hlen He) as (e' & He' & _).
  destruct (set_data_grows name name rows d1 o1 o Ho1 Hlen Ho) as (o' & Ho' & _).
  eauto.
Qed.

Lemma combined_graph_data_some (train_outputs val_outputs : table) (name : string)
    (o : NetworkOutput) :
  contains "epoch" val_outputs = true -> getitem name val_outputs = Some o ->
  name <> "epoch" ->
  exists g, combined_graph_data train_outputs val_outputs = Some g.
Proof.
  intros Hepoch Ho Hname. unfold combined_graph_data, nonempty_graph.
  set (g2 := graph_side "val" _ _ _ _ _).
  assert (Hcols : columns g2 =
            side_columns "train" ["epoch"; "learning_rate"] every_kind train_outputs ++
            side_columns "val" ["epoch"] every_kind val_outputs).
  { unfold g2. by rewrite !graph_side_columns. }
  assert (Hin : In (name, o) (plotted ["epoch"] every_kind val_outputs)).
  { apply plotted_every_kind. split; [by apply getitem_In|]. split; [exact Hepoch|].
    cbn. rewrite orb_false_r. by apply String.eqb_neq. }
  destruct (side_columns_of_plotted "val" _ _ _ _ Hin) as [(c & Hc & _) _].
  destruct (columns g2) eqn:Hg2; [|by exists g2].
  symmetry in Hcols. apply app_eq_nil in Hcols as [_ Hval]. rewrite Hval in Hc. destruct Hc.
Qed.

(** X16.  [save_val_output] stores the report in [val_outputs] as
    [save_output] does and touches nothing else of the task.  It sends a
    message only when the row is complete; for any name but 'epoch' it then
    sends exactly one, the combined graph. *)
Theorem save_val_output_effects (t : TrainTask) (name k : string) (value : pyval) :
  let stored := save_output (current_epoch t) (val_outputs t) name k value in
  let call := save_val_output t name k value in
  val_outputs (task_of call) = snd stored /\
  train_outputs (task_of call) = train_outputs t /\
  current_epoch (task_of call) = current_epoch t /\
  last_train_update (task_of call) = last_train_update t /\
  base (task_of call) = base t /\
  (fst stored <> Return true -> sent call = []) /\
  (fst stored = Return true -> name <> "epoch" ->
   outcome_of call = Return tt /\
   exists g,
     combined_graph_data (train_outputs t) (snd stored) = Some g /\
     sent call = [emit (task_of call) (combined_graph g)]).
Proof.
  intros stored call. subst call. unfold save_val_output, task_of, sent, outcome_of.
  pose proof (save_output_returns_series (current_epoch t) (val_outputs t) name k value true)
    as Hseries.
  fold stored in Hseries |- *. destruct stored as [[[|]|ex] d']; cbn [fst snd] in *.
  - do 5 (split; [reflexivity|]). split; [done|].
    intros _ Hname. split; [reflexivity|].
    destruct (Hseries eq_refl) as [[e He] [o Ho]].
    destruct (combined_graph_data_some (train_outputs t) d' name o) as [g Hg];
      [unfold contains; by rewrite He|done|done|].
    exists g. split; [exact Hg|]. cbn [train_outputs val_outputs with_val_outputs].
    by rewrite Hg.
  - do 5 (split; [reflexivity|]). split; [done|discriminate].
  - do 5 (split; [reflexivity|]). split; [done|discriminate].
Qed.

Lemma save_val_output_effects_witness :
  let kw := mkKwargs None None None None None (mkTask "job" "task" (PyInt 0)) in
  let t := __init__ "mnist" (PyInt 30) (PyInt 1) (PyFloat 0.01) [] kw in
  let stored := save_output (current_epoch t) (val_outputs t) "loss" "SoftmaxWithLoss"
                  (VNum (PyFloat 0.7)) in
  let call := save_val_output t "loss" "SoftmaxWithLoss" (VNum (PyFloat 0.7)) in
  fst stored = Return true /\
  outcome_of call = Return tt /\
  exists g,
    combined_graph_data (train_outputs t) (snd stored) = Some g /\
    sent call = [emit (task_of call) (combined_graph g)].
Proof.
  intros kw t stored call. split; [reflexivity|].
  apply (save_val_output_effects t "loss" "SoftmaxWithLoss" (VNum (PyFloat 0.7)));
    [reflexivity|discriminate].
Defined.

(** X17.  [save_train_output] always stores the report in [train_outputs]
    as [save_output] does, whatever the throttle and the outcome, and never
    touches [val_outputs], the current epoch or the progress.  Unless the
    row is complete it sends nothing and leaves [last_train_update] alone;
    it raises exactly when [save_output] raises or the row is complete and
    [last_train_update] was never assigned. *)
Theorem save_train_output_always_stores (now now' : Q) (t : TrainTask)
    (name k : string) (value : pyval) :
  let stored := save_output (current_epoch t) (train_outputs t) name k value in
  let call := save_train_output now now' t name k value in
  train_outputs (task_of call) = snd stored /\
  val_outputs (task_of call) = val_outputs t /\
  current_epoch (task_of call) = current_epoch t /\
  base (task_of call) = base t /\
  (fst stored <> Return true ->
   sent call = [] /\ last_train_update (task_of call) = last_train_update t) /\
  (forall ex, outcome_of call = Raise ex <->
     fst stored = Raise ex \/
     fst stored = Return true /\ last_train_update t = None /\
     ex = AttributeError "last_train_update").
Proof.
  intros stored call. subst call. unfold save_train_output, task_of, sent, outcome_of.
  fold stored. destruct stored as [[[|]|ex0] d']; cbn [fst snd].
  - cbn [last_train_update with_train_outputs].
    destruct (last_train_update t) as [ts|] eqn:Hts.
    + destruct (match ts with NoTime => false | At s => _ end); cbn [fst snd];
        (do 4 (split; [reflexivity|])); (split; [done|]);
        intros ex; (split; [discriminate|]); intros [[=]|(_ & [=] & _)].
    + cbn [fst snd]. do 4 (split; [reflexivity|]). split; [done|].
      intros ex. split.
      * intros [= <-]. right. auto.
      * intros [[=]|(_ & _ & ->)]. reflexivity.
  - do 4 (split; [reflexivity|]). split; [auto|].
    intros ex. split; [discriminate|]. intros [[=]|([=] & _)].
  - do 4 (split; [reflexivity|]). split; [auto|].
    intros ex. split; [intros [= <-]; by left|]. by intros [[= <-]|([=] & _)].
Qed.

Lemma save_train_output_always_stores_witness :
  let kw := mkKwargs None None None None None (mkTask "job" "task" (PyInt 0)) in
  let t := with_current_epoch (PyInt 1)
             (with_train_outputs
                [("epoch", mkNetworkOutput "Epoch" [VNum (PyInt 0)]);
                 ("loss", mkNetworkOutput "SoftmaxWithLoss" [VNum (PyFloat 0.9)]);
                 ("accuracy", mkNetworkOutput "Accuracy" [VNum (PyFloat 0.5)])]
                (__init__ "mnist" (PyInt 30) (PyInt 1) (PyFloat 0.01) [] kw)) in
  let stored := save_output (current_epoch t) (train_outputs t) "loss" "SoftmaxWithLoss"
                  (VNum (PyFloat 0.8)) in
  let call := save_train_output 10 10 t "loss" "SoftmaxWithLoss" (VNum (PyFloat 0.8)) in
  fst stored <> Return true /\
  sent call = [] /\ last_train_update (task_of call) = last_train_update t.
Proof.
  intros kw t stored call.
  assert (Hnot : fst stored <> Return true) by (intros H; discriminate H).
  split; [exact Hnot|].
  destruct (save_train_output_always_stores 10 10 t "loss" "SoftmaxWithLoss"
              (VNum (PyFloat 0.8))) as (_ & _ & _ & _ & Hquiet & _).
  exact (Hquiet Hnot).
Defined.




(** X19.  When the row is complete and [last_train_update] is [None], zero,
    or 5 seconds or more behind the clock, the call returns,
    [last_train_update] becomes the second clock reading, and at most two
    messages go out: the combined graph if there is one, then the
    learning-rate graph, which is sent exactly when [train_outputs] has a
    'learning_rate' series. *)
Theorem save_train_output_pushes (now now' : Q) (t : TrainTask)
    (name k : string) (value : pyval) (ts : timestamp) :
  last_train_update t = Some ts ->
  match ts with
  | NoTime => True
  | At s => (s == 0)%Q \/ (5 <= now - s)%Q
  end ->
  let stored := save_output (current_epoch t) (train_outputs t) name k value in
  let call := save_train_output now now' t name k value in
  fst stored = Return true ->
  outcome_of call = Return tt /\
  last_train_update (task_of call) = Some (At now') /\
  sent call =
    graph_message (task_of call) combined_graph
      (combined_graph_data (snd stored) (val_outputs t))
    ++ graph_message (task_of call) lr_graph (lr_graph_data (snd stored)) /\
  (length (sent call) <= 2)%nat /\
  ((exists g, In (emit (task_of call) (lr_graph g)) (sent call)) <->
   contains "learning_rate" (snd stored) = true).
Proof.
  intros Hts Hold stored call Htrue. subst call.
  pose proof (save_output_returns_series (current_epoch t) (train_outputs t) name k value true)
    as Hseries. fold stored in Hseries.
  unfold save_train_output, task_of, sent, outcome_of. fold stored.
  destruct stored as [r d']. cbn [fst snd] in *. subst r.
  destruct (Hseries eq_refl) as [[e He] _]. clear Hseries.
  cbn [last_train_update with_train_outputs]. rewrite Hts.
  assert (Hnot : match ts with
                 | NoTime => false
                 | At s => negb (Qeq_bool s 0) && negb (Qle_bool 5 (now - s))
                 end = false).
  { destruct ts as [|s]; [reflexivity|]. destruct Hold as [Hz|Hfive].
    - apply Qeq_bool_iff in Hz. by rewrite Hz.
    - apply Qle_bool_iff in Hfive. rewrite Hfive. apply andb_false_r. }
  rewrite Hnot. cbn [fst snd last_train_update with_last_train_update with_train_outputs
                       train_outputs val_outputs].
  split; [reflexivity|]. split; [reflexivity|]. split; [reflexivity|].
  unfold lr_graph_data, contains. rewrite He.
  destruct (combined_graph_data d' (val_outputs t)) as [g|];
    destruct (getitem "learning_rate" d') as [lr|]; cbn [graph_message app length].
  - split; [lia|]. split; [done|]. intros _. eexists. right. by left.
  - split; [lia|]. split; [|discriminate].
    intros [g' [Hin|[]]]. discriminate Hin.
  - split; [lia|]. split; [done|]. intros _. eexists. by left.
  - split; [lia|]. split; [|discriminate]. intros [g' []].
Qed.

Lemma save_train_output_pushes_witness :
  let kw := mkKwargs None None None None None (mkTask "job" "task" (PyInt 0)) in
  let t := with_last_train_update NoTime
             (__init__ "mnist" (PyInt 30) (PyInt 1) (PyFloat 0.01) [] kw) in
  let stored := save_output (current_epoch t) (train_outputs t) "learning_rate" "LearningRate"
                  (VNum (PyFloat 0.01)) in
  let call := save_train_output 103 104 t "learning_rate" "LearningRate" (VNum (PyFloat 0.01)) in
  (last_train_update t = Some NoTime /\ fst stored = Return true) /\
  outcome_of call = Return tt /\
  last_train_update (task_of call) = Some (At 104) /\
  (length (sent call) <= 2)%nat /\
  ((exists g, In (emit (task_of call) (lr_graph g)) (sent call)) <->
   contains "learning_rate" (snd stored) = true).
Proof.
  intros kw t stored call. split; [split; reflexivity|].
  destruct (save_train_output_pushes 103 104 t "learning_rate" "LearningRate"
              (VNum (PyFloat 0.01)) NoTime eq_refl I eq_refl)
    as (Hout & Hts & _ & Hlen & Hlr).
  split; [exact Hout|]. split; [exact Hts|]. split; [exact Hlen|exact Hlr].
Defined.

(** ** Labels *)

Lemma append_cons (c : ascii) (a b : string) : String c a +:+ b = String c (a +:+ b).
Proof. reflexivity. Qed.

Lemma lstrip_spec (s : string) :
  (exists before, s = before +:+ lstrip s /\ all_space before = true) /\
  (forall c, first_char (lstrip s) = Some c -> is_space c = false).
Proof.
  induction s as [|c s [(before & Hs & Hb) Hfirst]]; cbn [lstrip].
  - split; [by exists EmptyString|discriminate].
  - destruct (is_space c) eqn:Hc.
    + split; [|exact Hfirst]. exists (String c before).
      split; [rewrite append_cons; congruence|cbn [all_space]; by rewrite Hc, Hb].
    + split; [by exists EmptyString|]. by intros c' [= <-].
Qed.

Lemma rstrip_spec (s : string) :
  (exists after, s = rstrip s +:+ after /\ all_space after = true) /\
  (forall c, last_char (rstrip s) = Some c -> is_space c = false) /\
  (rstrip s = EmptyString \/ first_char (rstrip s) = first_char s).
Proof.
  induction s as [|c s ((after & Hs & Ha) & Hlast & Hfirst)]; cbn [rstrip].
  - split; [by exists EmptyString|]. split; [discriminate|by left].
  - destruct (rstrip s) as [|c' r] eqn:Hr.
    + destruct (is_space c) eqn:Hc.
      * split; [|split; [discriminate|by left]].
        exists (String c after).
        split; [by rewrite Hs at 1|cbn [all_space]; by rewrite Hc, Ha].
      * split; [|split; [by intros ? [= <-]|by right]].
        exists after. split; [rewrite append_cons; by rewrite Hs at 1|done].
    + split; [|split; [|by right]].
      * exists after. split; [rewrite append_cons; congruence|done].
      * intros c0. cbn [last_char]. apply Hlast.
Qed.

Lemma strip_spec (s : string) : strip s = EmptyString \/ label_of s (strip s).
Proof.
  unfold strip.
  destruct (lstrip_spec s) as [(before & Hs & Hb) Hfirst].
  destruct (rstrip_spec (lstrip s)) as ((after & Hl & Ha) & Hlast & Hhead).
  destruct (rstrip (lstrip s)) as [|c r] eqn:Hr; [by left|right].
  split; [|split; [done|split; [|exact Hlast]]].
  - exists before, after. split; [|done]. by rewrite <- Hl.
  - destruct Hhead as [[=]|Hhead]. intros c0 Hc0. apply Hfirst. by rewrite <- Hhead.
Qed.

Lemma read_labels_spec (lines : list string) :
  read_labels lines = List.filter (fun s => negb (String.eqb s "")) (map strip lines).
Proof.
  induction lines as [|line lines IH]; [reflexivity|].
  cbn [read_labels map List.filter]. rewrite <- IH. by destruct (strip line).
Qed.

(** X20.  With no labels cached, [get_labels] reads the labels file of the
    dataset: the labels are the lines without the white space around them,
    blank lines left out, in file order; no label is empty or begins or
    ends with white space.  A file with labels gives them and caches them;
    a file with none fails with 'no labels in labels_file' and caches
    nothing. *)
Theorem get_labels_reads_file (fs : string -> path_state) (ds : DatasetJob)
    (cached : option (list string)) (file : string) (lines : list string) :
  cached = None \/ cached = Some [] ->
  labels_file ds = Some (Some file) ->
  file <> "" ->
  fs (path ds file) = File lines ->
  let labels := read_labels lines in
  labels = List.filter (fun s => negb (String.eqb s "")) (map strip lines) /\
  Forall (fun label => exists line, In line lines /\ label_of line label) labels /\
  (labels <> [] -> get_labels fs (Some ds) cached = (inl labels, Some labels)) /\
  (labels = [] ->
   get_labels fs (Some ds) cached = (inr (AssertionError "no labels in labels_file"), cached)).
Proof.
  intros Hcached Hfile Hne Hfs labels. split; [apply read_labels_spec|]. split.
  - unfold labels. rewrite read_labels_spec. apply List.Forall_forall.
    intros label Hin. apply filter_In in Hin as [Hin Hnonempty].
    apply in_map_iff in Hin as (line & <- & Hline). exists line. split; [exact Hline|].
    destruct (strip_spec line) as [Hempty|Hlabel]; [|exact Hlabel].
    rewrite Hempty in Hnonempty. discriminate.
  - assert (Hget : get_labels fs (Some ds) cached =
              match read_labels lines with
              | [] => (inr (AssertionError "no labels in labels_file"), cached)
              | label :: rest => (inl (label :: rest), Some (label :: rest))
              end).
    { unfold get_labels. rewrite Hfile, Hfs.
      destruct file as [|c file]; [done|]. by destruct Hcached as [-> | ->]. }
    rewrite Hget. fold labels. split; [by destruct labels|by intros ->].
Qed.

Lemma get_labels_reads_file_witness :
  let ds := mkDatasetJob (Some (Some "labels.txt")) (fun f => "/data/" +:+ f) in
  let fs := fun p => if String.eqb p "/data/labels.txt"
                     then File ["cat" +:+ String (ascii_of_nat 10) ""; String (ascii_of_nat 10) "";
                                " dog "]
                     else Absent in
  get_labels fs (Some ds) None = (inl ["cat"; "dog"], Some ["cat"; "dog"]).
Proof.
  intros ds fs.
  apply (get_labels_reads_file fs ds None "labels.txt"
           ["cat" +:+ String (ascii_of_nat 10) ""; String (ascii_of_nat 10) ""; " dog "]);
    [by left|reflexivity|discriminate|reflexivity|discriminate].
Defined.

(** X21.  Once [get_labels] has returned labels, it returns the same labels
    on every later call without looking at the dataset or the file system:
    the dataset may be gone and the file deleted or changed. *)
Theorem get_labels_caches (fs : string -> path_state) (dataset : option DatasetJob)
    (cached cached' : option (list string)) (labels : list string) :
  get_labels fs dataset cached = (inl labels, cached') ->
  labels <> [] /\ cached' = Some labels /\
  forall fs' dataset', get_labels fs' dataset' cached' = (inl labels, cached').
Proof.
  unfold get_labels at 1. intros Hget.
  assert (Hshape : exists label rest, labels = label :: rest /\ cached' = Some labels).
  { destruct cached as [[|label rest]|];
      try (injection Hget as <- <-; by eauto);
      (destruct dataset as [ds|]; [|discriminate];
       destruct (labels_file ds) as [[[|c file]|]|]; try discriminate;
       destruct (fs _); try discriminate;
       destruct (read_labels _) as [|label rest]; [discriminate|];
       injection Hget as <- <-; by eauto). }
  destruct Hshape as (label & rest & -> & ->). split; [done|]. split; [done|].
  reflexivity.
Qed.

Lemma get_labels_caches_witness :
  let ds := mkDatasetJob (Some (Some "labels.txt")) (fun f => f) in
  let fs := fun p : string => File ["cat"; "dog"] in
  get_labels fs (Some ds) None = (inl ["cat"; "dog"], Some ["cat"; "dog"]) /\
  forall fs' dataset',
    get_labels fs' dataset' (Some ["cat"; "dog"]) = (inl ["cat"; "dog"], Some ["cat"; "dog"]).
Proof.
  intros ds fs. split; [reflexivity|].
  apply (get_labels_caches fs (Some ds) None (Some ["cat"; "dog"]) ["cat"; "dog"]).
  reflexivity.
Defined.

(** X22.  A call that fails leaves the cache as it was.  Without cached
    labels it fails with 'labels_file not set' when the task has no dataset
    (as after [__setstate__]) or the dataset has no labels file, and with
    'labels_file does not exist' when nothing is at the path of the file;
    an empty cached list counts as no cache. *)
Theorem get_labels_failures (fs : string -> path_state) (dataset : option DatasetJob)
    (cached : option (list string)) :
  (forall err cached', get_labels fs dataset cached = (inr err, cached') -> cached' = cached) /\
  (cached = None \/ cached = Some [] ->
   (dataset = None ->
    get_labels fs dataset cached = (inr (AssertionError "labels_file not set"), cached)) /\
   (forall ds,
      dataset = Some ds ->
      labels_file ds = None \/ labels_file ds = Some None \/ labels_file ds = Some (Some "") ->
      get_labels fs dataset cached = (inr (AssertionError "labels_file not set"), cached)) /\
   (forall ds file,
      dataset = Some ds -> labels_file ds = Some (Some file) -> file <> "" ->
      fs (path ds file) = Absent ->
      get_labels fs dataset cached =
        (inr (AssertionError "labels_file does not exist"), cached))).
Proof.
  split.
  - intros err cached'. unfold get_labels.
    destruct cached as [[|label rest]|]; try discriminate;
      (destruct dataset as [ds|]; [|by intros [= _ <-]];
       destruct (labels_file ds) as [[[|c file]|]|]; try (by intros [= _ <-]);
       destruct (fs _); try (by intros [= _ <-]);
       destruct (read_labels _); [by intros [= _ <-]|discriminate]).
  - intros Hcached. split; [|split].
    + intros ->. by destruct Hcached as [-> | ->].
    + intros ds -> Hfile. unfold get_labels.
      destruct Hcached as [-> | ->]; by destruct Hfile as [-> |[-> | ->]].
    + intros ds file -> Hfile Hne Habsent. unfold get_labels. rewrite Hfile, Habsent.
      destruct file; [done|]. by destruct Hcached as [-> | ->].
Qed.

Lemma get_labels_failures_witness :
  let fs := fun p : string => Absent in
  get_labels fs None (Some []) = (inr (AssertionError "labels_file not set"), Some []).
Proof.
  intros fs.
  apply (proj1 (proj2 (get_labels_failures fs None (Some [])) (or_intror eq_refl))).
  reflexivity.
Defined.

(** ** Pickling *)

(** X23.  [__getstate__] returns the dict of the base class without the
    entries 'dataset', 'snapshots' and '_labels', whether or not they were
    there, and with every other entry as it was; applying it again changes
    nothing. *)
Theorem getstate_drops_unpickled_entries {V : Type} (state : gmap string V) :
  (forall key, In key ["dataset"; "snapshots"; "_labels"] -> __getstate__ state !! key = None) /\
  (forall key, ~ In key ["dataset"; "snapshots"; "_labels"] ->
     __getstate__ state !! key = state !! key) /\
  __getstate__ (__getstate__ state) = __getstate__ state.
Proof.
  assert (Hdel : forall (m : gmap string V) key,
            (if decide (is_Some (m !! key)) then delete key m else m) = delete key m).
  { intros m key. case_decide as Hsome; [reflexivity|].
    symmetry. apply delete_id. by apply eq_None_not_Some. }
  assert (Hget : __getstate__ state =
            delete "_labels" (delete "snapshots" (delete "dataset" state))).
  { unfold __getstate__. by rewrite !Hdel. }
  assert (Hlookup : forall key,
            __getstate__ state !! key =
              if decide (In key ["dataset"; "snapshots"; "_labels"]) then None
              else state !! key).
  { intros key. rewrite Hget, !lookup_delete. cbn [In].
    repeat case_decide; try reflexivity; exfalso; intuition congruence. }
  split; [|split].
  - intros key Hin. rewrite Hlookup. by rewrite decide_True.
  - intros key Hout. rewrite Hlookup. by rewrite decide_False.
  - apply map_eq. intros key.
    assert (Hagain : __getstate__ (__getstate__ state) =
              delete "_labels" (delete "snapshots" (delete "dataset" (__getstate__ state)))).
    { unfold __getstate__ at 1. by rewrite !Hdel. }
    rewrite Hagain, !lookup_delete, Hlookup. cbn [In].
    repeat case_decide; try reflexivity; exfalso; intuition congruence.
Qed.

Lemma getstate_drops_unpickled_entries_witness :
  let state : gmap string Z := <["dataset" := 1]> (<["train_epochs" := 30]> ∅) in
  __getstate__ state !! "dataset" = None /\
  __getstate__ state !! "train_epochs" = Some 30.
Proof.
  intros state.
  destruct (getstate_drops_unpickled_entries state) as (Hdrop & Hkeep & _).
  split.
  - apply Hdrop. by left.
  - rewrite Hkeep; [reflexivity|]. intros [H|[H|[H|[]]]]; discriminate H.
Defined.

